(** * MCMOL: archive scan, cumulative rainfall, zonal percentiles and Peq0

    Shallow embedding of the core of
    [MCMOL_cumulate_fixed.py] and [Peq0_Automatized.py].

    Conventions of the embedding.
    - A Python [datetime] is an integer count of microseconds; the bounds of
      Python's [datetime] (years 1..9999) are not modelled.
    - [strftime] and [strptime] are library functions and are taken through
      the class [Calendario]; a Gregorian instance is given for the examples.
    - Code that touches the archive runs in a small state-and-exception monad
      over the record [mondo]; [print] and [logger] calls are dropped.
      During a run the clock of [mondo] stands still and nothing but the
      program writes to the archive.
    - A file that rasterio rewrites keeps its bands; its size becomes what
      the class [Riscrittura] gives, which is left open.
    - Raster cells are an abstract type with the addition of the array dtype
      (class [Aritmetica]); the steps of [calcolo_cumulata] after the sum,
      and the raster calls of [calcolo_percentili], are taken through the
      classes [Valle] and [Zonale].
    - Floating point numbers of the Peq0 script are real numbers, with
      [None] standing for a result that is not finite: what is proved of
      [calcola_peq0] is proved of the expression over the reals.  The module
      [Binary64] evaluates the same expression on binary64 numbers, as the
      code does.
    - Text is ASCII. *)

From Stdlib Require Import ZArith List String Ascii Bool Lia.
From Stdlib Require Import Reals Lra QArith.
From Stdlib Require Floats.
From stdpp Require Import base option list gmap strings pretty sorting.
From Equations Require Import Equations.

Local Open Scope Z_scope.

(* ===================================================================== *)
(** * Part I. Definitions *)
(* ===================================================================== *)

(** ** Time *)

Definition datetime := Z.

(** [timedelta(hours=h)] in microseconds. *)
Definition timedelta_hours (h : Z) : Z := h * 3600000000.

Class Calendario := {
  (** [t.strftime(fmt)] *)
  strftime : string -> datetime -> string;
  (** [datetime.strptime(s, fmt)]; [None] is [ValueError]. *)
  strptime : string -> string -> option datetime
}.

(** ** Configuration (class [Config], the fields the core reads) *)

Record Config := {
  RADICE_ARCHIVIO : string;
  ORE_CONTROLLO_ARCHIVIO : Z;
  ORE_ESCLUSE_RECENTI : Z;
  PERCENTILI : list Z
}.

Definition PREFISSO_FILE : string := "MCM_".
Definition MINUTO_CORRENTE : string := "0000".

(** ** Strings and paths *)

(** Python slice [s[a:b]] for [0 <= a <= b]. *)
Definition py_slice (a b : nat) (s : string) : string :=
  String.substring a (b - a) s.

Definition inizia_con_slash (s : string) : bool :=
  match s with
  | String c _ => Ascii.eqb c "/"%char
  | EmptyString => false
  end.

Fixpoint finisce_con_slash (s : string) : bool :=
  match s with
  | EmptyString => false
  | String c EmptyString => Ascii.eqb c "/"%char
  | String _ s' => finisce_con_slash s'
  end.

(** [posixpath.join(a, b)]. *)
Definition join2 (a b : string) : string :=
  if inizia_con_slash b then b
  else if String.eqb a EmptyString || finisce_con_slash a then a +:+ b
  else a +:+ "/" +:+ b.

Definition os_path_join (a : string) (ps : list string) : string :=
  fold_left join2 ps a.

(** [n] in decimal on [k] digits. *)
Fixpoint cifre (k : nat) (n : Z) : string :=
  match k with
  | O => EmptyString
  | S k' =>
    cifre k' (n / 10)
    +:+ String (ascii_of_nat (48 + Z.to_nat (n mod 10))) EmptyString
  end.

Definition e_cifra (c : ascii) : bool :=
  let n := nat_of_ascii c in (48 <=? n)%nat && (n <=? 57)%nat.

Definition valore_cifra (c : ascii) : Z := Z.of_nat (nat_of_ascii c) - 48.

(** [int(s)] of a string of decimal digits. *)
Definition int_di_cifre (s : string) : Z :=
  fold_left (fun acc c => 10 * acc + valore_cifra c) (list_ascii_of_string s) 0.

(** [str.isspace] on ASCII. *)
Definition e_spazio (c : ascii) : bool :=
  let n := nat_of_ascii c in
  ((9 <=? n)%nat && (n <=? 13)%nat) || ((28 <=? n)%nat && (n <=? 32)%nat).

Definition maiuscola (c : ascii) : ascii :=
  let n := nat_of_ascii c in
  if (97 <=? n)%nat && (n <=? 122)%nat then ascii_of_nat (n - 32) else c.

Fixpoint senza_spazi_iniziali (l : list ascii) : list ascii :=
  match l with
  | c :: l' => if e_spazio c then senza_spazi_iniziali l' else l
  | [] => []
  end.

(** [s.strip()] *)
Definition strip (s : string) : string :=
  string_of_list_ascii
    (rev (senza_spazi_iniziali (rev (senza_spazi_iniziali
                                        (list_ascii_of_string s))))).

(** [s.upper()] *)
Definition upper (s : string) : string :=
  string_of_list_ascii (map maiuscola (list_ascii_of_string s)).

(** [s.replace(" ", empty)] *)
Definition togli_spazi (s : string) : string :=
  string_of_list_ascii
    (List.filter (fun c => negb (Ascii.eqb c " "%char)) (list_ascii_of_string s)).

(** [re.fullmatch(prefisso + r"\d{1,2}", s)]: the digits, when it matches. *)
Definition fullmatch_cifre (prefisso s : string) : option string :=
  if String.prefix prefisso s then
    let resto := String.substring (String.length prefisso)
                   (String.length s - String.length prefisso) s in
    match list_ascii_of_string resto with
    | [a] => if e_cifra a then Some resto else None
    | [a; b] => if e_cifra a && e_cifra b then Some resto else None
    | _ => None
    end
  else None.

(** ** Rasters and the archive *)

Class Aritmetica (cell : Type) := {
  (** element addition of the array dtype *)
  cell_add : cell -> cell -> cell
}.

Inductive CRS :=
| from_epsg (code : Z)
| crs_wkt (wkt : string)
| crs_assente.

Inductive esito (A : Type) :=
| Ok (a : A)
| Eccezione.
Arguments Ok {A} a.
Arguments Eccezione {A}.

(** Lines 431-486 of [calcolo_cumulata]: the sum is written to
    [merge_ITALY.tif], clipped to the zones, written to [merge_immagine.tif],
    drawn by [crea_mappa] and handed to [calcolo_percentili].  These steps
    work on the temporary and output directories and on the zone layer, not
    on the archive; they end in [return True], in one of the
    [return False] gates, or in an exception of a call outside any [try]. *)
Class Valle (cell : Type) := {
  elaborazione_a_valle :
    Z -> list (list cell) -> CRS -> nat -> esito bool
}.

(** What GDAL leaves on disk when a dataset opened for update is closed
    after its reference system has been assigned: the size in bytes of the
    file at a path, from its size and reference system before and the
    reference system assigned.  The georeferencing tags are written anew and
    the file may grow; a TIFF file is never empty. *)
Class Riscrittura := {
  size_riscritto : string -> Z -> CRS -> CRS -> positive
}.

Section Archivio.
Context {cell : Type} `{Aritmetica cell} `{Calendario} `{Valle cell}
        `{Riscrittura}.

(** A 2-D array, row by row. *)
Local Abbreviation grid := (list (list cell)).

Definition shape (g : grid) : nat * nat :=
  (length g, match g with r :: _ => length r | [] => 0%nat end).

(** [data.size] *)
Definition grid_size (g : grid) : nat := (fst (shape g) * snd (shape g))%nat.

(** What [rasterio] finds in a file: it cannot be opened at all, or it opens
    with a coordinate reference system, decodes (or not) its first
    100x100 window and decodes (or not) its whole first band. *)
Inductive contenuto :=
| NonApribile
| Aperto (crs : CRS) (campione_ok : bool) (banda1 : option grid).

Record file_tif := {
  size : Z;
  cont : contenuto
}.

Record mondo := {
  files : gmap string file_tif;
  dirs : gmap string (list string);
  adesso : datetime
}.

(** *** The monad: state [mondo], exceptions *)

Definition M (A : Type) := mondo -> esito A * mondo.

Definition ret {A} (a : A) : M A := fun w => (Ok a, w).

Definition bind {A B} (c : M A) (k : A -> M B) : M B :=
  fun w => match c w with
           | (Ok a, w') => k a w'
           | (Eccezione, w') => (Eccezione, w')
           end.

Definition raise {A} : M A := fun w => (Eccezione, w).

(** [try: c  except Exception: h]; what [c] wrote before raising stays. *)
Definition try_except {A} (c h : M A) : M A :=
  fun w => match c w with
           | (Ok a, w') => (Ok a, w')
           | (Eccezione, w') => h w'
           end.

#[global] Instance M_ret : MRet M := @ret.
#[global] Instance M_bind : MBind M := fun A B k c => bind c k.

(** *** Primitive operations on the world *)

Definition datetime_now : M datetime := fun w => (Ok (adesso w), w).

Definition os_listdir (d : string) : M (list string) :=
  fun w => match dirs w !! d with
           | Some l => (Ok l, w)
           | None => (Eccezione, w)
           end.

Definition os_path_isfile (p : string) : M bool :=
  fun w => (Ok (bool_decide (is_Some (files w !! p))), w).

Definition os_path_getsize (p : string) : M Z :=
  fun w => match files w !! p with
           | Some f => (Ok (size f), w)
           | None => (Eccezione, w)
           end.

(** [with rasterio.open(p) as src: src.meta; src.read(1, window=...)] *)
Definition rasterio_leggi_campione (p : string) : M unit :=
  fun w => match files w !! p with
           | Some {| cont := Aperto _ true _ |} => (Ok tt, w)
           | _ => (Eccezione, w)
           end.

(** [with rasterio.open(p) as src: src.read(1)] *)
Definition rasterio_leggi_banda (p : string) : M grid :=
  fun w => match files w !! p with
           | Some {| cont := Aperto _ _ (Some g) |} => (Ok g, w)
           | _ => (Eccezione, w)
           end.

(** The file at [p] once [c] has been assigned to it and written back. *)
Definition imposta_crs (p : string) (c : CRS) (f : file_tif) : file_tif :=
  match cont f with
  | NonApribile => f
  | Aperto c0 ok b =>
    {| size := Zpos (size_riscritto p (size f) c0 c); cont := Aperto c ok b |}
  end.

(** [with rasterio.open(p, 'r+') as src: src.crs = c; data = src.read(1);
    meta = src.meta.copy()].  The assignment is written to the file when the
    dataset is closed, also when [read] raises, and the file on disk is
    rewritten: its size is then what [size_riscritto] gives.  Of [meta] the
    reference system is kept. *)
Definition rasterio_apri_rw_imposta_crs_leggi (p : string) (c : CRS)
  : M (grid * CRS) :=
  fun w => match files w !! p with
           | Some f =>
             match cont f with
             | NonApribile => (Eccezione, w)
             | Aperto _ _ b =>
               let w' := {| files := <[p := imposta_crs p c f]> (files w);
                            dirs := dirs w; adesso := adesso w |} in
               match b with
               | Some g => (Ok (g, c), w')
               | None => (Eccezione, w')
               end
             end
           | None => (Eccezione, w)
           end.

(** *** [verifica_file_tiff] *)

Definition verifica_file_tiff (file_path : string) : M bool :=
  try_except (_ ← rasterio_leggi_campione file_path; ret true)
             (ret false).

(** *** File names *)

Definition nome_file_di (ora : datetime) : string :=
  PREFISSO_FILE +:+ strftime "%Y%m%d%H" ora +:+ MINUTO_CORRENTE +:+ ".tif".

Definition costruisci_path_file (cfg : Config) (ora : datetime)
  (nome_file : string) : string :=
  os_path_join (RADICE_ARCHIVIO cfg)
    [strftime "%Y" ora; strftime "%m" ora; strftime "%d" ora; nome_file].

(** *** [controlla_file_archivio_completo] *)

(** The [while ora_corrente <= ora_limite] loop. *)
Equations? genera_ore (ora_corrente ora_limite : datetime) : list datetime
  by wf (Z.to_nat ((ora_limite - ora_corrente) / 3600000000 + 1)) lt :=
  genera_ore ora_corrente ora_limite with Z_le_gt_dec ora_corrente ora_limite => {
    | left _ := ora_corrente :: genera_ore (ora_corrente + timedelta_hours 1) ora_limite;
    | right _ := [] }.
Proof.
  unfold timedelta_hours.
  replace (ora_limite - (ora_corrente + 1 * 3600000000))
    with (ora_limite - ora_corrente + (-1) * 3600000000) by lia.
  rewrite Z.div_add by lia.
  assert (0 <= (ora_limite - ora_corrente) / 3600000000)
    by (apply Z.div_pos; lia).
  lia.
Qed.

(** Loop state: [file_mancanti], [file_corrotti], [file_trovati]. *)
Definition stato_controllo : Type := list string * list string * Z.

(** Body of [for ora_check in ore_da_controllare]. *)
Definition controlla_un_file (cfg : Config) (ora_check : datetime)
  (st : stato_controllo) : M stato_controllo :=
  let '(file_mancanti, file_corrotti, file_trovati) := st in
  let nome_file := nome_file_di ora_check in
  let path_file := costruisci_path_file cfg ora_check nome_file in
  esiste ← os_path_isfile path_file;
  if negb esiste then
    ret (file_mancanti ++ [nome_file], file_corrotti, file_trovati)
  else
    file_size ← os_path_getsize path_file;
    if file_size =? 0 then
      ret (file_mancanti, file_corrotti ++ [nome_file +:+ " (empty file)"],
           file_trovati)
    else
      valido ← verifica_file_tiff path_file;
      if negb valido then
        ret (file_mancanti,
             file_corrotti ++ [nome_file +:+ " (corrupted file)"],
             file_trovati)
      else
        ret (file_mancanti, file_corrotti, file_trovati + 1).

Fixpoint controlla_ciclo (cfg : Config) (ore : list datetime)
  (st : stato_controllo) : M stato_controllo :=
  match ore with
  | [] => ret st
  | ora_check :: resto =>
    st' ← controlla_un_file cfg ora_check st;
    controlla_ciclo cfg resto st'
  end.

Definition ore_da_controllare (cfg : Config) (ora_inizio_processo : datetime)
  : list datetime :=
  let ora_limite :=
    ora_inizio_processo - timedelta_hours (ORE_ESCLUSE_RECENTI cfg) in
  let ora_inizio_controllo :=
    ora_limite - timedelta_hours (ORE_CONTROLLO_ARCHIVIO cfg) in
  genera_ore ora_inizio_controllo ora_limite.

(** The function with its counter [file_trovati], which the source prints. *)
Definition controlla_file_archivio_completo_stato (cfg : Config)
  (ora_inizio_processo : datetime) : M stato_controllo :=
  controlla_ciclo cfg (ore_da_controllare cfg ora_inizio_processo) ([], [], 0).

Definition controlla_file_archivio_completo (cfg : Config)
  (ora_inizio_processo : datetime) : M (list string * list string) :=
  '(file_mancanti, file_corrotti, _) ←
     controlla_file_archivio_completo_stato cfg ora_inizio_processo;
  ret (file_mancanti, file_corrotti).

(** *** [calcolo_cumulata] *)

(** [a + b] on 2-D arrays, with numpy's broadcasting of axes of length 1;
    [None] is the [ValueError] of shapes that cannot be broadcast. *)
Definition broadcast_dim (a b : nat) : option nat :=
  if (a =? b)%nat then Some a
  else if (a =? 1)%nat then Some b
  else if (b =? 1)%nat then Some a
  else None.

Definition allarga_riga (w : nat) (r : list cell) : list cell :=
  match r with
  | [x] => replicate w x
  | _ => r
  end.

Definition allarga (h w : nat) (g : grid) : grid :=
  match map (allarga_riga w) g with
  | [r] => replicate h r
  | g' => g'
  end.

Definition np_add (a b : grid) : option grid :=
  match broadcast_dim (fst (shape a)) (fst (shape b)),
        broadcast_dim (snd (shape a)) (snd (shape b)) with
  | Some h, Some w =>
    Some (zip_with (zip_with cell_add) (allarga h w a) (allarga h w b))
  | _, _ => None
  end.

Definition di_opzione {A} (o : option A) : M A :=
  match o with
  | Some a => ret a
  | None => raise
  end.

(** Lines 331-346: the last entry of today's directory and the four slices
    of its name; [None] is the [return False, []] of the handler. *)
Definition ultimo_file_di_oggi (cfg : Config)
  : M (option (string * string * string * string)) :=
  current_dateTime ← datetime_now;
  let path_oggi :=
    os_path_join (RADICE_ARCHIVIO cfg)
      [strftime "%Y" current_dateTime; strftime "%m" current_dateTime;
       strftime "%d" current_dateTime] in
  try_except
    (dir_list ← os_listdir path_oggi;
     ultimo_file ← di_opzione (last dir_list);
     ret (Some (py_slice 4 8 ultimo_file, py_slice 8 10 ultimo_file,
                py_slice 10 12 ultimo_file, py_slice 12 14 ultimo_file)))
    (ret None).

(** Lines 353-357: the hours [ora_primo_file + (i+1)h], [i] in
    [range(durata_cumulata)]. *)
Definition lista_date (ora_ultimo_file : datetime) (durata_cumulata : Z)
  : list datetime :=
  let ora_primo_file := ora_ultimo_file - timedelta_hours durata_cumulata in
  map (fun i => ora_primo_file + timedelta_hours (i + 1))
      (seqZ 0 durata_cumulata).

(** Loop state: [lista_file], [file_problematici]. *)
Definition stato_raccolta : Type := list string * list string.

(** Body of [for date in lista_date]. *)
Definition raccogli_un_file (cfg : Config) (date : datetime)
  (st : stato_raccolta) : M stato_raccolta :=
  let '(lista_file, file_problematici) := st in
  let nome_file := nome_file_di date in
  let file_completo := costruisci_path_file cfg date nome_file in
  esiste ← os_path_isfile file_completo;
  if negb esiste then
    ret (lista_file, file_problematici ++ [nome_file +:+ " (missing)"])
  else
    file_size ← os_path_getsize file_completo;
    if file_size =? 0 then
      ret (lista_file, file_problematici ++ [nome_file +:+ " (empty)"])
    else
      valido ← verifica_file_tiff file_completo;
      if negb valido then
        ret (lista_file, file_problematici ++ [nome_file +:+ " (corrupted)"])
      else
        ret (lista_file ++ [file_completo], file_problematici).

Fixpoint raccogli_file (cfg : Config) (date : list datetime)
  (st : stato_raccolta) : M stato_raccolta :=
  match date with
  | [] => ret st
  | d :: resto =>
    st' ← raccogli_un_file cfg d st;
    raccogli_file cfg resto st'
  end.

(** [for i in range(1, len(lista_file))]: a file that raises while it is
    opened, read or added is skipped. *)
Fixpoint somma_restanti (resto : list string) (data : grid)
  (files_sommati : Z) : M (grid * Z) :=
  match resto with
  | [] => ret (data, files_sommati)
  | p :: resto' =>
    '(data', n') ←
      try_except
        (data_temp ← rasterio_leggi_banda p;
         somma ← di_opzione (np_add data data_temp);
         ret (somma, files_sommati + 1))
        (ret (data, files_sommati));
    somma_restanti resto' data' n'
  end.

(** Where lines 327-429 leave the function: at one of their [return]s, or
    with the summed [data] and its [meta]. *)
Inductive fase_somma :=
| Interrotta (successo : bool) (file_problematici : list string)
| Sommata (data : grid) (meta : CRS) (file_problematici : list string).

(** Lines 353-429, from the anchor hour on. *)
Definition calcolo_cumulata_finestra (cfg : Config) (durata_cumulata : Z)
  (ora_ultimo_file : datetime) : M fase_somma :=
  '(lista_file, file_problematici) ←
    raccogli_file cfg (lista_date ora_ultimo_file durata_cumulata) ([], []);
  match lista_file with
  | [] => ret (Interrotta false file_problematici)
  | primo :: resto =>
    sommato ←
      try_except
        ('(data, meta) ←
           rasterio_apri_rw_imposta_crs_leggi primo (from_epsg 4326);
         '(data, _) ← somma_restanti resto data 1;
         ret (Some (data, meta)))
        (ret None);
    match sommato with
    | None => ret (Interrotta false file_problematici)
    | Some (data, meta) =>
      if (grid_size data =? 0)%nat
      then ret (Interrotta false file_problematici)
      else ret (Sommata data meta file_problematici)
    end
  end.

(** Lines 327-429. *)
Definition calcolo_cumulata_somma (cfg : Config) (durata_cumulata : Z)
  : M fase_somma :=
  ultimo ← ultimo_file_di_oggi cfg;
  match ultimo with
  | None => ret (Interrotta false [])
  | Some (anno, mese, giorno, ora) =>
    ora_ultimo_file ←
      di_opzione (strptime (anno +:+ mese +:+ giorno +:+ " " +:+ ora)
                           "%Y%m%d %H");
    calcolo_cumulata_finestra cfg durata_cumulata ora_ultimo_file
  end.

(** [calcolo_cumulata]: the sum, then the steps of lines 431-486, whose
    outcome is the returned [success]; the problem list is the one of the
    collection loop on every path. *)
Definition calcolo_cumulata (cfg : Config) (durata_cumulata : Z)
  : M (bool * list string) :=
  fase ← calcolo_cumulata_somma cfg durata_cumulata;
  match fase with
  | Interrotta successo file_problematici =>
    ret (successo, file_problematici)
  | Sommata data meta file_problematici =>
    successo ←
      (fun w => (elaborazione_a_valle durata_cumulata data meta
                   (length file_problematici), w));
    ret (successo, file_problematici)
  end.

(** *** Reading the loops off the world

    The four outcomes of the tests that both loops make on a path. *)
Inductive classe := Valido | Mancante | Vuoto | Corrotto.

#[global] Instance classe_eq_dec : EqDecision classe.
Proof. solve_decision. Defined.

Definition classifica (w : mondo) (p : string) : classe :=
  match files w !! p with
  | None => Mancante
  | Some f =>
    if size f =? 0 then Vuoto
    else match cont f with
         | Aperto _ true _ => Valido
         | _ => Corrotto
         end
  end.

Definition path_di (cfg : Config) (ora : datetime) : string :=
  costruisci_path_file cfg ora (nome_file_di ora).

Definition aggiorna_controllo (c : classe) (nome_file : string)
  (st : stato_controllo) : stato_controllo :=
  let '(file_mancanti, file_corrotti, file_trovati) := st in
  match c with
  | Mancante => (file_mancanti ++ [nome_file], file_corrotti, file_trovati)
  | Vuoto =>
    (file_mancanti, file_corrotti ++ [nome_file +:+ " (empty file)"],
     file_trovati)
  | Corrotto =>
    (file_mancanti, file_corrotti ++ [nome_file +:+ " (corrupted file)"],
     file_trovati)
  | Valido => (file_mancanti, file_corrotti, file_trovati + 1)
  end.

Definition aggiorna_raccolta (c : classe) (nome_file file_completo : string)
  (st : stato_raccolta) : stato_raccolta :=
  let '(lista_file, file_problematici) := st in
  match c with
  | Mancante => (lista_file, file_problematici ++ [nome_file +:+ " (missing)"])
  | Vuoto => (lista_file, file_problematici ++ [nome_file +:+ " (empty)"])
  | Corrotto =>
    (lista_file, file_problematici ++ [nome_file +:+ " (corrupted)"])
  | Valido => (lista_file ++ [file_completo], file_problematici)
  end.

Definition suffisso (c : classe) : string :=
  match c with
  | Mancante => " (missing)"
  | Vuoto => " (empty)"
  | Corrotto => " (corrupted)"
  | Valido => EmptyString
  end.

(** A computation that leaves every world as it found it. *)
Definition sola_lettura {A} (c : M A) : Prop :=
  forall w, snd (c w) = w.

Definition raccolta_di (cfg : Config) (w : mondo) (date : list datetime)
  (st : stato_raccolta) : stato_raccolta :=
  fold_left
    (fun st d =>
       aggiorna_raccolta (classifica w (path_di cfg d)) (nome_file_di d)
         (path_di cfg d) st)
    date st.

(** The anchor hour [ora_ultimo_file], when lines 331-352 find one. *)
Definition ora_ultimo_file_di (cfg : Config) (w : mondo) : option datetime :=
  match ultimo_file_di_oggi cfg w with
  | (Ok (Some (anno, mese, giorno, ora)), _) =>
    strptime (anno +:+ mese +:+ giorno +:+ " " +:+ ora) "%Y%m%d %H"
  | _ => None
  end.

(** The first band of the raster at a path. *)
Definition banda_di (w : mondo) (p : string) : option grid :=
  match files w !! p with
  | Some {| cont := Aperto _ _ b |} => b
  | _ => None
  end.

(** The reference system of the raster at a path. *)
Definition crs_di (w : mondo) (p : string) : option CRS :=
  match files w !! p with
  | Some {| cont := Aperto c _ _ |} => Some c
  | _ => None
  end.



Definition forma_ok (h l : nat) (g : grid) : Prop :=
  length g = h /\ Forall (fun riga => length riga = l) g.

Definition timbra (p : string) (f : file_tif) (w : mondo) : mondo :=
  {| files := <[p := imposta_crs p (from_epsg 4326) f]> (files w);
     dirs := dirs w; adesso := adesso w |}.

End Archivio.

(** ** [calcolo_percentili] *)

(** The raster library and numpy, as [calcolo_percentili] uses them on the
    opened raster [src]. *)
Class Zonale (cell geom raster : Type) := {
  (** [mask(src, [geom], crop=True, all_touched=True)], first band, cells
      different from [src.nodata]; [None] when it raises. *)
  celle_valide : raster -> geom -> option (list cell);
  (** [np.percentile(valid, levels)], one value for each level *)
  np_percentile : list cell -> list Z -> list cell;
  (** [round(1)] of a cell of the table *)
  round1 : cell -> cell
}.

(** The value of the ['id'] attribute of a zone, and later of the [IM]
    column: an integer, a missing value, or text. *)
Inductive valore_id :=
| IdInt (n : Z)
| IdNaN
| IdStr (s : string).

Section Percentili.
Context {cell geom raster : Type} `{Zonale cell geom raster}.

(** A row of the zone layer, as the body of the loop takes it: its
    geometry is there. *)
Record riga_zona := {
  geometry : geom;
  attributi : gmap string valore_id
}.

(** A row of the table: the identifier and the percentile columns, [None]
    for [nan]. *)
Record riga_percentili := {
  IM : valore_id;
  colonne : list (Z * option cell)
}.

(** A dict built from key-value pairs: a key keeps the place of its first
    occurrence and the value of its last. *)
Definition dict_set {V} (k : Z) (v : V) (d : list (Z * V)) : list (Z * V) :=
  if existsb (fun kv => k =? fst kv) d
  then map (fun kv => if k =? fst kv then (k, v) else kv) d
  else d ++ [(k, v)].

Definition dict_da_coppie {V} (l : list (Z * V)) : list (Z * V) :=
  fold_left (fun d kv => dict_set (fst kv) (snd kv) d) l [].

(** Body of [for idx, row in gdf.iterrows()]: the dict appended to
    [risultati]. *)
Definition risultato_zona (livelli : list Z) (src : raster) (idx : nat)
  (row : riga_zona) : riga_percentili :=
  let id := default (IdInt (Z.of_nat idx)) (attributi row !! "id") in
  match celle_valide src (geometry row) with
  | Some valid =>
    let percs :=
      match valid with
      | [] => map (fun _ => None) livelli
      | _ => map Some (np_percentile valid livelli)
      end in
    {| IM := id; colonne := dict_da_coppie (zip livelli percs) |}
  | None =>
    {| IM := id;
       colonne := dict_da_coppie (map (fun p => (p, None)) livelli) |}
  end.

(** [x + 1] on a value of the [IM] column; [None] is the [TypeError] of
    text plus a number. *)
Definition piu_uno (v : valore_id) : option valore_id :=
  match v with
  | IdInt n => Some (IdInt (n + 1))
  | IdNaN => Some IdNaN
  | IdStr _ => None
  end.

(** [calcolo_percentili]: the table handed to [to_excel], [None] when no
    table is written.  [src] is [None] when the raster file is not there or
    cannot be opened, [layer] is [None] when the zone layer is not there or
    cannot be read.  The zones of [layer] all have their geometry; a layer
    as it is read, where one may be missing, is [calcolo_percentili_layer]
    below. *)
Definition calcolo_percentili (cfg : Config) (src : option raster)
  (layer : option (list riga_zona)) : option (list riga_percentili) :=
  src ← src;
  gdf ← layer;
  let risultati := imap (risultato_zona (PERCENTILI cfg) src) gdf in
  match risultati with
  | [] => None
  | _ =>
    mapM (fun r => id ← piu_uno (IM r);
                   Some {| IM := id;
                           colonne := map (fun kv => (fst kv, round1 <$> snd kv))
                                          (colonne r) |})
         risultati
  end.

(** The identifier that the table carries for the zone at position [idx]:
    the position plus one when the layer has no ['id'] attribute, the
    attribute plus one when it has. *)
Definition identificativo (idx : nat) (row : riga_zona) : valore_id :=
  match attributi row !! "id" with
  | None => IdInt (Z.of_nat idx + 1)
  | Some (IdInt n) => IdInt (n + 1)
  | Some v => v
  end.

(** A zone as the layer file gives it: the geometry may be missing. *)
Record zona_layer := {
  geometria : option geom;
  attributi_zona : gmap string valore_id
}.

(** The zone once [mapping(row['geometry'])] of line 263 has returned;
    [None] when it raises. *)
Definition zona_completa (z : zona_layer) : option riga_zona :=
  g ← geometria z; Some {| geometry := g; attributi := attributi_zona z |}.

(** [calcolo_percentili] on a layer as it is read.  Line 263 is outside the
    inner [try] of line 264: one zone without geometry ends the loop in the
    handler of line 305, and no table is written whatever the other zones
    are. *)
Definition calcolo_percentili_layer (cfg : Config) (src : option raster)
  (layer : option (list zona_layer)) : option (list riga_percentili) :=
  calcolo_percentili cfg src (layer ≫= mapM zona_completa).

End Percentili.

(** ** [Peq0_Automatized.py]: the Peq0 transform *)

Section Peq0.
Local Open Scope R_scope.

(** [s = 25400 / cn - 254] *)
Definition esse (cn : R) : R := 25400 / cn - 254.

(** [sqrt_term = s * (p5 + ((1 - lam) / 2) ** 2 * s)] *)
Definition sqrt_term (p5 cn lam : R) : R :=
  esse cn * (p5 + ((1 - lam) / 2) ^ 2 * esse cn).

(** [calcola_peq0] on Python floats, in real arithmetic.  [Eccezione] is the
    [ZeroDivisionError] of [25400 / cn]; [Ok None] is a result that is not a
    finite number: the [nan] that [np.sqrt] gives for a negative argument
    and that [np.maximum] and the arithmetic hand on, and the [nan] or
    [inf] of the division by [s + m = 0]. *)
Definition calcola_peq0 (p5 cn lam : R) : esito (option R) :=
  if Req_dec_T cn 0 then Eccezione
  else
    let s := esse cn in
    if Rlt_dec (sqrt_term p5 cn lam) 0 then Ok None
    else
      let m := Rmax (sqrt (sqrt_term p5 cn lam) - ((1 + lam) / 2) * s) 0 in
      if Req_dec_T (s + m) 0 then Ok None
      else Ok (Some (m * (1 + lam * s / (s + m)))).

(** The transform as section 4.7 of the specification words it, with the
    radicand clamped at zero before the square root; it is here to be
    compared with [calcola_peq0], which has no clamp. *)
Definition calcola_peq0_con_clamp (p5 cn lam : R) : esito (option R) :=
  if Req_dec_T cn 0 then Eccezione
  else
    let s := esse cn in
    let m := Rmax (sqrt (Rmax (sqrt_term p5 cn lam) 0)
                   - ((1 + lam) / 2) * s) 0 in
    if Req_dec_T (s + m) 0 then Ok None
    else Ok (Some (m * (1 + lam * s / (s + m)))).

(** [m] of the source, where the radicand is not negative. *)
Definition emme (p5 cn lam : R) : R :=
  Rmax (sqrt (sqrt_term p5 cn lam) - ((1 + lam) / 2) * esse cn) 0.

End Peq0.

(** *** The expression of [calcola_peq0] on binary64 numbers

    Rocq's primitive floats are IEEE 754 binary64 numbers, as Python's
    [float] and numpy's [float64] are.  This version evaluates the body of
    [calcola_peq0] at given inputs with [cn] different from zero; [x ** 2] is
    taken as [x * x]. *)
Module Binary64.
Import Floats.
Local Open Scope float_scope.

(** [np.maximum]: a [nan] argument is handed on. *)
Definition np_maximum (x y : float) : float :=
  if PrimFloat.is_nan x then x
  else if PrimFloat.is_nan y then y
  else if PrimFloat.ltb x y then y else x.

Definition calcola_peq0_f64 (p5 cn lam : float) : float :=
  let s := 25400 / cn - 254 in
  let q := (1 - lam) / 2 in
  let sqrt_term := s * (p5 + q * q * s) in
  let m := np_maximum (PrimFloat.sqrt sqrt_term - ((1 + lam) / 2) * s) 0 in
  m * (1 + lam * s / (s + m)).

(** The float that Python reads for [0.2]. *)
Definition due_decimi : float := 0x1.999999999999ap-3.

(** [calcola_peq0(0, 100, 0.2)] and [calcola_peq0(-100, 50, 0.2)]. *)
Definition peq0_a_cn_100 : float := calcola_peq0_f64 0 100 due_decimi.
Definition peq0_pioggia_negativa : float :=
  calcola_peq0_f64 (-100) 50 due_decimi.

(** The float of an integer, and [k / 10]: the binary64 number that Python
    reads for a decimal with one digit after the point, which is what the
    percentile sheets carry after [round(1)]. *)
Definition di_Z (k : Z) : float := PrimFloat.of_uint63 (Uint63.of_Z k).
Definition decimi (k : Z) : float := di_Z k / 10.

(** [calcola_peq0(k / 10, c, 0.2)] for integers [c] and [k]. *)
Definition peq0_griglia (c k : Z) : float :=
  calcola_peq0_f64 (decimi k) (di_Z c) due_decimi.

Definition zero : float := 0.

(** 295, the binary64 number that follows it, and [calcola_peq0] at CN 85
    on the two. *)
Definition p_295 : float := 295.
Definition dopo_295 : float := PrimFloat.next_up p_295.
Definition peq0_a_295 : float := calcola_peq0_f64 p_295 85 due_decimi.
Definition peq0_dopo_295 : float := calcola_peq0_f64 dopo_295 85 due_decimi.

End Binary64.

(** [f k], [f (k + 1)], ..., [n] values in all, are all true. *)
Fixpoint per_ogni (n : nat) (k : Z) (f : Z -> bool) : bool :=
  match n with
  | O => true
  | S n' => f k && per_ogni n' (k + 1) f
  end.

(** ** [Peq0_Automatized.py]: zone labels *)

Class Python := {
  (** [float(s)] of a [str] when it is a finite number; [None] is
      [ValueError], [nan] or an infinity. *)
  float_di_str : string -> option Q;
  (** [str(x)] of a [float] *)
  str_di_float : Q -> string
}.

(** The objects found in the first column of a sheet. *)
Inductive oggetto :=
| PyNone
| PyNaN
| PyInt (n : Z)
| PyFloat (q : Q)
| PyStr (s : string).

Definition str_di_int (n : Z) : string :=
  if n <? 0 then "-" +:+ pretty (Z.to_N (- n)) else pretty (Z.to_N n).

Section Zone.
Context `{Python}.

Definition py_float (z : oggetto) : option Q :=
  match z with
  | PyInt n => Some (inject_Z n)
  | PyFloat q => Some q
  | PyStr s => float_di_str s
  | _ => None
  end.

Definition py_str (z : oggetto) : string :=
  match z with
  | PyNone => "None"
  | PyNaN => "nan"
  | PyInt n => str_di_int n
  | PyFloat q => str_di_float q
  | PyStr s => s
  end.

(** [num.is_integer() and 0 < num < 100], with [int(num)]. *)
Definition intero_tra_0_e_100 (q : Q) : option Z :=
  let q' := Qred q in
  if (Zpos (Qden q') =? 1) && (0 <? Qnum q') && (Qnum q' <? 100)
  then Some (Qnum q') else None.

Definition normalizza_zona (z : oggetto) : option string :=
  match z with
  | PyNone | PyNaN => None
  | _ =>
    match py_float z ≫= intero_tra_0_e_100 with
    | Some n => Some ("IM-" +:+ cifre 2 n)
    | None =>
      let z_str := togli_spazi (upper (strip (py_str z))) in
      match fullmatch_cifre "IM" z_str with
      | Some d => Some ("IM-" +:+ cifre 2 (int_di_cifre d))
      | None =>
        match fullmatch_cifre "IM-" z_str with
        | Some d => Some ("IM-" +:+ cifre 2 (int_di_cifre d))
        | None => None
        end
      end
    end
  end.
End Zone.

(** ** [process_sheet] *)

Section Fogli.
Context `{Python}.
Local Open Scope R_scope.

(** A float of a sheet or of the CN mapping: [None] is [nan]. *)
Local Abbreviation pyfloat := (option R).

(** Round half to even, [np.rint]. *)
Definition rint (x : R) : Z :=
  let n := Int_part x in
  let f := frac_part x in
  if Rlt_dec f (1 / 2) then n
  else if Rlt_dec (1 / 2) f then (n + 1)%Z
  else if Z.even n then n else (n + 1)%Z.

(** [np.round(x, 2)] *)
Definition np_round2 (x : R) : R := IZR (rint (x * 100)) / 100.

(** [calcola_peq0(p5, cn)] on the array of a row, for the float [cn] of the
    mapping; the division [25400 / cn] is made once, before the array is
    touched.  [nan] in, [nan] out. *)
Definition calcola_peq0_array (p5 : list pyfloat) (cn : pyfloat) (lam : R)
  : esito (list pyfloat) :=
  match cn with
  | None => Ok (map (fun _ => None) p5)
  | Some c =>
    if Req_dec_T c 0 then Eccezione
    else Ok (map (fun v => p ← v;
                           match calcola_peq0 p c lam with
                           | Ok y => y
                           | Eccezione => None
                           end) p5)
  end.

(** A row of the sheet: the zone column and the value columns. *)
Record riga := {
  zona : oggetto;
  valori : list pyfloat
}.

(** Body of [for idx, row in out.iterrows()]; [row] comes from the frame as
    it was when the loop started. *)
Definition process_riga (lam : R) (zone_cn : gmap string pyfloat)
  (idx : nat) (row : riga) (out : list riga) : esito (list riga) :=
  match normalizza_zona (zona row) with
  | None => Ok out
  | Some key =>
    match zone_cn !! key with
    | None => Ok out
    | Some cn =>
      match calcola_peq0_array (valori row) cn lam with
      | Eccezione => Eccezione
      | Ok peq =>
        Ok (<[idx := {| zona := zona row;
                        valori := map (fmap np_round2) peq |}]> out)
      end
    end
  end.

Fixpoint process_righe (lam : R) (zone_cn : gmap string pyfloat)
  (righe : list (nat * riga)) (out : list riga) : esito (list riga) :=
  match righe with
  | [] => Ok out
  | (idx, row) :: resto =>
    match process_riga lam zone_cn idx row out with
    | Eccezione => Eccezione
    | Ok out' => process_righe lam zone_cn resto out'
    end
  end.

(** A row keeps its values: its zone is not recognised, or it has no entry
    in the CN mapping. *)
Definition non_convertita (zone_cn : gmap string pyfloat) (row : riga)
  : Prop :=
  normalizza_zona (zona row) = None
  \/ exists key, normalizza_zona (zona row) = Some key
                 /\ zone_cn !! key = None.

(** What the loop body makes of one row. *)
Definition converti_riga (lam : R) (zone_cn : gmap string pyfloat)
  (row : riga) : esito riga :=
  match normalizza_zona (zona row) with
  | None => Ok row
  | Some key =>
    match zone_cn !! key with
    | None => Ok row
    | Some cn =>
      match calcola_peq0_array (valori row) cn lam with
      | Eccezione => Eccezione
      | Ok peq =>
        Ok {| zona := zona row; valori := map (fmap np_round2) peq |}
      end
    end
  end.

Fixpoint converti_righe (lam : R) (zone_cn : gmap string pyfloat)
  (rows : list riga) : esito (list riga) :=
  match rows with
  | [] => Ok []
  | row :: resto =>
    match converti_riga lam zone_cn row with
    | Eccezione => Eccezione
    | Ok row' =>
      match converti_righe lam zone_cn resto with
      | Eccezione => Eccezione
      | Ok resto' => Ok (row' :: resto')
      end
    end
  end.

(** [process_sheet(df, zone_cn)], with [config.LAMBDA] as [lam]; the frame
    has the default index 0, 1, ... of a parsed sheet. *)
Definition process_sheet (lam : R) (df : list riga)
  (zone_cn : gmap string pyfloat) : esito (list riga) :=
  process_righe lam zone_cn (zip (seq 0 (length df)) df) df.

End Fogli.

(** ** [calcola_cn_per_zone] *)

Section CurveNumber.
Local Abbreviation pyfloat := (option R).

Fixpoint prendi_finche {A} (f : A -> bool) (l : list A) : list A :=
  match l with
  | x :: l' => if f x then x :: prendi_finche f l' else []
  | [] => []
  end.

(** [Path(p).stem] *)
Definition basename (p : string) : list ascii :=
  rev (prendi_finche (fun c => negb (Ascii.eqb c "/"%char))
                  (rev (list_ascii_of_string p))).

Definition stem_di (p : string) : string :=
  let name := basename p in
  let dopo := prendi_finche (fun c => negb (Ascii.eqb c "."%char)) (rev name) in
  let i := (length name - length dopo - 1)%nat in
  if (length dopo <? length name)%nat && (0 <? length dopo)%nat
     && (0 <? i)%nat
  then string_of_list_ascii (take i name)
  else string_of_list_ascii name.

(** [re.search(r"(\d{1,2})$", stem)] and [int(m.group())]. *)
Definition cifre_finali (stem : string) : option Z :=
  let l := rev (list_ascii_of_string stem) in
  let l := match l with
           | c :: l' => if Ascii.eqb c "010"%char then l' else l
           | [] => l
           end in
  match l with
  | c1 :: c2 :: _ =>
    if e_cifra c1 && e_cifra c2
    then Some (10 * valore_cifra c2 + valore_cifra c1)%Z
    else if e_cifra c1 then Some (valore_cifra c1) else None
  | [c1] => if e_cifra c1 then Some (valore_cifra c1) else None
  | [] => None
  end.

Definition chiave_zona (p : string) : option string :=
  n ← cifre_finali (stem_di p); Some ("IM-" +:+ cifre 2 n).

(** A raster of [folder.glob("*.ASC")]: its path and
    [float(np.ma.mean(src.read(1, masked=True)))], [Eccezione] when the
    raster cannot be opened or read. *)
Record raster_asc := {
  percorso : string;
  media : esito pyfloat
}.

(** What [json.loads(cache.read_text())] gives: nothing usable (not JSON,
    a key missing, a value that [float] refuses), or the two mappings. *)
Inductive cache_json :=
| CacheIlleggibile
| CacheJson (zone_cn : gmap string pyfloat) (mtimes : gmap string Z).

Record mondo_cn := {
  (** the cache file, [None] when [cache.exists()] is false *)
  cache : option cache_json;
  (** [os.path.getmtime]; a path that is not there raises *)
  mtime : gmap string Z;
  (** [sorted(folder.glob("*.ASC"))] *)
  asc : list raster_asc;
  (** the rasters opened so far *)
  aperture : list string
}.

(** Lines 91-98: the persisted averages, when the cache is taken. *)
Definition cache_valida (w : mondo_cn) : option (gmap string pyfloat) :=
  match cache w with
  | Some (CacheJson zone_cn mtimes) =>
    if decide (map_Forall (fun p t => mtime w !! p = Some t) mtimes)
    then Some zone_cn
    else None
  | _ => None
  end.

Definition apri (p : string) (w : mondo_cn) : mondo_cn :=
  {| cache := cache w; mtime := mtime w; asc := asc w;
     aperture := aperture w ++ [p] |}.

(** Lines 102-111. *)
Fixpoint ricalcola (rasters : list raster_asc)
  (zone_cn : gmap string pyfloat) (mtimes : gmap string Z) (w : mondo_cn)
  : esito (gmap string pyfloat * gmap string Z) * mondo_cn :=
  match rasters with
  | [] => (Ok (zone_cn, mtimes), w)
  | r :: resto =>
    match chiave_zona (percorso r) with
    | None => ricalcola resto zone_cn mtimes w
    | Some key =>
      let w1 := apri (percorso r) w in
      match media r with
      | Eccezione => (Eccezione, w1)
      | Ok v =>
        match mtime w1 !! percorso r with
        | None => (Eccezione, w1)
        | Some t =>
          ricalcola resto (<[key := v]> zone_cn) (<[percorso r := t]> mtimes)
            w1
        end
      end
    end
  end.

Definition scrivi_cache (c : cache_json) (w : mondo_cn) : mondo_cn :=
  {| cache := Some c; mtime := mtime w; asc := asc w;
     aperture := aperture w |}.

Definition calcola_cn_per_zone (w : mondo_cn)
  : esito (gmap string pyfloat) * mondo_cn :=
  match cache_valida w with
  | Some zone_cn => (Ok zone_cn, w)
  | None =>
    match ricalcola (asc w) ∅ ∅ w with
    | (Ok (zone_cn, mtimes), w1) =>
      (Ok zone_cn, scrivi_cache (CacheJson zone_cn mtimes) w1)
    | (Eccezione, w1) => (Eccezione, w1)
    end
  end.

(** A raster that appears in the directory after the cache was written. *)
Definition aggiungi_raster (r : raster_asc) (t : Z) (w : mondo_cn)
  : mondo_cn :=
  {| cache := cache w; mtime := <[percorso r := t]> (mtime w);
     asc := asc w ++ [r]; aperture := aperture w |}.

End CurveNumber.

(** ** A Gregorian calendar and a small archive, for the examples *)

Module Gregoriano.

Definition MICROSECONDI_GIORNO : Z := 24 * 3600000000.

(** Day count from 0001-01-01 to year, month and day, and back. *)
Definition civile_da_giorni (z : Z) : Z * Z * Z :=
  let z := z + 306 in
  let era := z / 146097 in
  let doe := z mod 146097 in
  let yoe := (doe - doe / 1460 + doe / 36524 - doe / 146096) / 365 in
  let doy := doe - (365 * yoe + yoe / 4 - yoe / 100) in
  let mp := (5 * doy + 2) / 153 in
  let d := doy - (153 * mp + 2) / 5 + 1 in
  let m := if mp <? 10 then mp + 3 else mp - 9 in
  (yoe + era * 400 + (if m <=? 2 then 1 else 0), m, d).

Definition giorni_da_civile (y m d : Z) : Z :=
  let y := if m <=? 2 then y - 1 else y in
  let era := y / 400 in
  let yoe := y mod 400 in
  let doy := (153 * (if 2 <? m then m - 3 else m + 9) + 2) / 5 + d - 1 in
  era * 146097 + (yoe * 365 + yoe / 4 - yoe / 100 + doy) - 306.

Definition data_ora (y m d h : Z) : datetime :=
  giorni_da_civile y m d * MICROSECONDI_GIORNO + timedelta_hours h.

Definition formato (fmt : string) (t : datetime) : string :=
  let '(y, m, d) := civile_da_giorni (t / MICROSECONDI_GIORNO) in
  let h := (t mod MICROSECONDI_GIORNO) / 3600000000 in
  if String.eqb fmt "%Y" then cifre 4 y
  else if String.eqb fmt "%m" then cifre 2 m
  else if String.eqb fmt "%d" then cifre 2 d
  else if String.eqb fmt "%Y%m%d%H"
       then cifre 4 y +:+ cifre 2 m +:+ cifre 2 d +:+ cifre 2 h
  else EmptyString.

Fixpoint numero (acc : Z) (s : string) : option Z :=
  match s with
  | EmptyString => Some acc
  | String c s' =>
    let n := Z.of_nat (nat_of_ascii c) in
    if (48 <=? n) && (n <=? 57) then numero (10 * acc + (n - 48)) s'
    else None
  end.

(** Fixed-width fields only: ["YYYYMMDD HH"]. *)
Definition analizza (s fmt : string) : option datetime :=
  if String.eqb fmt "%Y%m%d %H" && (String.length s =? 11)%nat
     && String.eqb (py_slice 8 9 s) " "
  then
    y ← numero 0 (py_slice 0 4 s);
    m ← numero 0 (py_slice 4 6 s);
    d ← numero 0 (py_slice 6 8 s);
    h ← numero 0 (py_slice 9 11 s);
    if (1 <=? y) && (1 <=? m) && (m <=? 12) && (1 <=? d) && (h <=? 23)
       && bool_decide (civile_da_giorni (giorni_da_civile y m d) = (y, m, d))
    then Some (data_ora y m d h)
    else None
  else None.

#[export] Instance calendario : Calendario :=
  {| strftime := formato; strptime := analizza |}.

End Gregoriano.

Module Esempi.
Import Gregoriano.

#[export] Instance aritmetica_Z : Aritmetica Z := {| cell_add := Z.add |}.

(** Downstream steps that all succeed, and a run in which [crea_mappa]
    returns [False]. *)
Definition valle_riuscita : Valle Z :=
  {| elaborazione_a_valle := fun _ _ _ _ => Ok true |}.

(** A rewrite that adds 366 bytes of tags to the file. *)
#[export] Instance riscrittura_es : Riscrittura :=
  {| size_riscritto := fun _ s _ _ => Z.to_pos (s + 366) |}.

Definition cfg_es : Config :=
  {| RADICE_ARCHIVIO := "/mcm";
     ORE_CONTROLLO_ARCHIVIO := 3;
     ORE_ESCLUSE_RECENTI := 0;
     PERCENTILI := [50; 90] |}.

Definition tif (crs : CRS) (g : list (list Z)) : @file_tif Z :=
  {| size := 4096; cont := Aperto crs true (Some g) |}.

(** Hours 05 and 06 of 2024-01-01 are in the archive, stored in UTM 32N. *)
Definition mondo_es : @mondo Z :=
  {| files :=
       <["/mcm/2024/01/01/MCM_20240101050000.tif" :=
           tif (from_epsg 32632) [[1; 2]; [3; 4]]]>
       (<["/mcm/2024/01/01/MCM_20240101060000.tif" :=
           tif (from_epsg 32632) [[10; 20]; [30; 40]]]> ∅);
     dirs :=
       <["/mcm/2024/01/01" :=
           ["MCM_20240101050000.tif"; "MCM_20240101060000.tif"]]> ∅;
     adesso := data_ora 2024 1 1 6 + 1800000000 |}.

(** Hours 05 and 06 were created but never written: both files are
    empty. *)
Definition mondo_vuoto : @mondo Z :=
  {| files :=
       <["/mcm/2024/01/01/MCM_20240101050000.tif" :=
           {| size := 0; cont := NonApribile |}]>
       (<["/mcm/2024/01/01/MCM_20240101060000.tif" :=
           {| size := 0; cont := NonApribile |}]> ∅);
     dirs :=
       <["/mcm/2024/01/01" :=
           ["MCM_20240101050000.tif"; "MCM_20240101060000.tif"]]> ∅;
     adesso := data_ora 2024 1 1 6 + 1800000000 |}.

#[export] Instance python_es : Python :=
  {| float_di_str := fun s =>
       match list_ascii_of_string s with
       | [] => None
       | l => if forallb e_cifra l
              then Some (inject_Z (int_di_cifre s)) else None
       end;
     str_di_float := fun _ => EmptyString |}.

(** A cache written from two CN rasters that have not been touched since. *)
Definition zone_cn_es : gmap string (option R) :=
  {["IM-01" := Some 80%R; "IM-02" := Some (143 / 2)%R]}.

Definition mtimes_es : gmap string Z :=
  {["/cn/CN_1.ASC" := 1700000000; "/cn/CN_2.ASC" := 1700000050]}.

Definition mondo_cn_es : mondo_cn :=
  {| cache := Some (CacheJson zone_cn_es mtimes_es);
     mtime := mtimes_es;
     asc := [ {| percorso := "/cn/CN_1.ASC"; media := Ok (Some 80%R) |};
              {| percorso := "/cn/CN_2.ASC";
                 media := Ok (Some (143 / 2)%R) |} ];
     aperture := [] |}.

Definition raster_nuovo : raster_asc :=
  {| percorso := "/cn/CN_3.ASC"; media := Ok (Some 90%R) |}.

(** A sheet with a label that is not a zone and a zone without CN. *)
Definition foglio_es : list riga :=
  [ {| zona := PyStr "Lago"; valori := [Some 12%R; None] |};
    {| zona := PyInt 7; valori := [Some 3%R; Some 4%R] |} ].

End Esempi.

Module EsempiZone.

(** A toy raster library: a geometry is the list of the cells it touches,
    percentiles are taken by rank. *)
#[export] Instance zonale_es : Zonale Z (list Z) unit :=
  {| celle_valide := fun _ g => Some g;
     np_percentile := fun valid livelli =>
       map (fun p => nth (Z.to_nat (p * (Z.of_nat (length valid) - 1) / 100))
                         (merge_sort Z.le valid) 0)
           livelli;
     round1 := fun x => x |}.

Definition zone_con_id : list (@riga_zona (list Z)) :=
  [ {| geometry := [3; 1; 2]; attributi := {["id" := IdInt 10]} |};
    {| geometry := []; attributi := {["id" := IdInt 20]} |} ].

Definition zone_senza_id : list (@riga_zona (list Z)) :=
  [ {| geometry := [3; 1; 2]; attributi := ∅ |};
    {| geometry := []; attributi := ∅ |} ].

(** A layer whose second zone has lost its geometry. *)
Definition zone_senza_geometria : list (@zona_layer (list Z)) :=
  [ {| geometria := Some [3; 1; 2]; attributi_zona := {["id" := IdInt 10]} |};
    {| geometria := None; attributi_zona := {["id" := IdInt 20]} |} ].

End EsempiZone.

(** ** Further readings of the aggregation *)

Section ArchivioAltro.
Context {cell : Type} `{Aritmetica cell} `{Calendario} `{Valle cell}.

(** [path_oggi] of [calcolo_cumulata]. *)
Definition path_oggi_di (cfg : Config) (w : @mondo cell) : string :=
  os_path_join (RADICE_ARCHIVIO cfg)
    [strftime "%Y" (adesso w); strftime "%m" (adesso w);
     strftime "%d" (adesso w)].

(** The entry of [file_problematici] for an hour that is not valid. *)
Definition annotazione (cfg : Config) (w : @mondo cell) (ora : datetime)
  : string :=
  nome_file_di ora +:+ suffisso (classifica w (path_di cfg ora)).

(** The hours of a window whose file is valid, and the others. *)
Definition ore_valide (cfg : Config) (w : @mondo cell)
  (date : list datetime) : list datetime :=
  filter (fun ora => classifica w (path_di cfg ora) = Valido) date.

Definition ore_scartate (cfg : Config) (w : @mondo cell)
  (date : list datetime) : list datetime :=
  filter (fun ora => classifica w (path_di cfg ora) <> Valido) date.

(** One turn of the loop of lines 406-415 on the buffer [data]: the band of
    the file at [p] is added when it decodes and numpy can add it; when
    the read or the addition raises, the buffer stays as it is. *)
Definition aggiungi_banda (w : @mondo cell) (data : list (list cell))
  (p : string) : list (list cell) :=
  match banda_di w p with
  | Some data_temp =>
    match np_add data data_temp with
    | Some somma => somma
    | None => data
    end
  | None => data
  end.

(** Two archives on which the code sees the same: the same listings and
    clock, the same outcome of the tests on every path, the same bands. *)
Definition stesso_archivio (w1 w : @mondo cell) : Prop :=
  dirs w1 = dirs w /\ adesso w1 = adesso w
  /\ (forall p, classifica w1 p = classifica w p)
  /\ (forall p, banda_di w1 p = banda_di w p).

(** What [calcolo_cumulata] returns, read off the archive: the directory
    of today and its last name, the hours of the window that pass the
    tests, the bands that decode. *)
Definition esito_cumulata (cfg : Config) (durata_cumulata : Z)
  (w : @mondo cell) : esito (bool * list string) :=
  match dirs w !! path_oggi_di cfg w ≫= last with
  | None => Ok (false, [])
  | Some ultimo_file =>
    match strptime (py_slice 4 8 ultimo_file +:+ py_slice 8 10 ultimo_file
                    +:+ py_slice 10 12 ultimo_file +:+ " "
                    +:+ py_slice 12 14 ultimo_file) "%Y%m%d %H" with
    | None => Eccezione
    | Some ora_ultimo_file =>
      let date := lista_date ora_ultimo_file durata_cumulata in
      let file_problematici :=
        map (annotazione cfg w) (ore_scartate cfg w date) in
      match ore_valide cfg w date with
      | [] => Ok (false, file_problematici)
      | d0 :: resto =>
        match banda_di w (path_di cfg d0) with
        | None => Ok (false, file_problematici)
        | Some g0 =>
          let data :=
            fold_left (aggiungi_banda w) (map (path_di cfg) resto) g0 in
          if (grid_size data =? 0)%nat then Ok (false, file_problematici)
          else
            match elaborazione_a_valle durata_cumulata data (from_epsg 4326)
                    (length file_problematici) with
            | Ok successo => Ok (successo, file_problematici)
            | Eccezione => Eccezione
            end
        end
      end
    end
  end.

End ArchivioAltro.

(** ** [scrivi_file_mail_output], [genera_contenuto_mail], [main] *)

(** The line feed. *)
Definition a_capo : string := String "010"%char EmptyString.

(** [s.replace('\n', '<br>')] *)
Fixpoint sostituisci_a_capo (s : string) : string :=
  match s with
  | EmptyString => EmptyString
  | String c s' =>
    if Ascii.eqb c "010"%char then "<br>" +:+ sostituisci_a_capo s'
    else String c (sostituisci_a_capo s')
  end.

(** [scrivi_file_mail_output]: the text that the two [f.write] calls put in
    [mail_output.txt] once the file has been opened. *)
Definition scrivi_file_mail_output (deve_inviare_mail : bool)
  (contenuto_mail : string) : string :=
  if deve_inviare_mail
  then ("YES" +:+ a_capo) +:+ sostituisci_a_capo contenuto_mail
  else ("NO" +:+ a_capo) +:+ "No email to send - complete archive".

(** [s.split('\n')]: the pieces of a text between its line feeds. *)
Fixpoint righe (s : string) : list string :=
  match s with
  | EmptyString => [EmptyString]
  | String c s' =>
    if Ascii.eqb c "010"%char then EmptyString :: righe s'
    else match righe s' with
         | r :: rs => String c r :: rs
         | [] => [String c EmptyString]
         end
  end.

(** The number of line feeds of a text. *)
Definition conta_a_capo (s : string) : nat :=
  length (List.filter (fun c => Ascii.eqb c "010"%char)
                      (list_ascii_of_string s)).

(** [f"{i:2}"] of an integer. *)
Definition formato_2 (i : Z) : string :=
  let s := str_di_int i in
  if (String.length s <? 2)%nat then " " +:+ s else s.

(** [str] of a list of integers. *)
Definition str_di_lista (l : list Z) : string :=
  "[" +:+ String.concat ", " (map str_di_int l) +:+ "]".

(** The block that [genera_contenuto_mail] adds for a list of file names:
    title and count, the first twenty names, the number of the others. *)
Definition elenco (titolo : string) (file : list string) : string :=
  if (0 <? length file)%nat then
    a_capo +:+ a_capo +:+ titolo +:+ " ("
    +:+ str_di_int (Z.of_nat (length file)) +:+ "):" +:+ a_capo
    +:+ String.concat EmptyString
          (imap (fun i file_name =>
                   formato_2 (Z.of_nat i + 1) +:+ ". " +:+ file_name
                   +:+ a_capo)
                (take 20 file))
    +:+ (if (20 <? length file)%nat
         then "... and " +:+ str_di_int (Z.of_nat (length file) - 20)
              +:+ " more files" +:+ a_capo
         else EmptyString)
  else EmptyString.

(** An entry of [risultati_elaborazione]. *)
Record risultato := {
  successo : bool;
  problemi : Z;
  file_problematici : list string
}.

(** The entry that the first loop of [main] records for an outcome of
    [calcolo_cumulata]: lines 624-628 for a returned pair, lines 632-636 for
    an exception. *)
Definition voce_di (e : esito (bool * list string)) : risultato :=
  match e with
  | Ok (s, fp) =>
    {| successo := s; problemi := Z.of_nat (length fp);
       file_problematici := fp |}
  | Eccezione =>
    {| successo := false; problemi := -1; file_problematici := [] |}
  end.

Section Principale.
Context {cell : Type} `{Aritmetica cell} `{Calendario} `{Valle cell}
        `{Riscrittura}.

(** [genera_contenuto_mail]; [durate] is [config.DURATE_CUMULATE]. *)
Definition genera_contenuto_mail (cfg : Config) (durate : list Z)
  (ora_inizio : datetime) (file_mancanti file_corrotti : list string)
  (mappe_mancanti : list Z) : string :=
  let totale_problemi :=
    Z.of_nat (length file_mancanti) + Z.of_nat (length file_corrotti) in
  let ora_limite := ora_inizio - timedelta_hours (ORE_ESCLUSE_RECENTI cfg) in
  let ora_inizio_controllo :=
    ora_limite - timedelta_hours (ORE_CONTROLLO_ARCHIVIO cfg) in
  let oggetto :=
    "MCMOL - ARCHIVE PROBLEMS REPORT (" +:+ str_di_int totale_problemi
    +:+ " files)" in
  "Subject: " +:+ oggetto +:+ a_capo
  +:+ a_capo
  +:+ "MCM ARCHIVE CONTROL REPORT - "
  +:+ strftime "%Y-%m-%d %H:%M:%S" ora_inizio +:+ a_capo
  +:+ a_capo
  +:+ "CHECKED PERIOD: " +:+ strftime "%Y-%m-%d %H:%M" ora_inizio_controllo
  +:+ " - " +:+ strftime "%Y-%m-%d %H:%M" ora_limite +:+ a_capo
  +:+ a_capo
  +:+ "SUMMARY:" +:+ a_capo
  +:+ "- Expected files: " +:+ str_di_int (ORE_CONTROLLO_ARCHIVIO cfg)
  +:+ a_capo
  +:+ "- Missing files: " +:+ str_di_int (Z.of_nat (length file_mancanti))
  +:+ a_capo
  +:+ "- Corrupted files: " +:+ str_di_int (Z.of_nat (length file_corrotti))
  +:+ a_capo
  +:+ "- Total problems: " +:+ str_di_int totale_problemi +:+ a_capo
  +:+ elenco "MISSING FILES" file_mancanti
  +:+ elenco "CORRUPTED FILES" file_corrotti
  +:+ a_capo
  +:+ a_capo
  +:+ "MAP PROCESSING STATUS:" +:+ a_capo
  +:+ "- Completed maps: "
  +:+ str_di_int (Z.of_nat (length durate) - Z.of_nat (length mappe_mancanti))
  +:+ " of " +:+ str_di_int (Z.of_nat (length durate)) +:+ a_capo
  +:+ (if (0 <? length mappe_mancanti)%nat
       then "- Maps with problems: " +:+ str_di_lista mappe_mancanti
            +:+ a_capo
       else EmptyString)
  +:+ a_capo
  +:+ "It is recommended to verify the correct functioning of the MCM acquisition system."
  +:+ a_capo
  +:+ a_capo
  +:+ "This message is automatically generated by the MCMOL monitoring system."
  +:+ a_capo.

(** The first loop of [main], [for durata in config.DURATE_CUMULATE]. *)
Fixpoint main_elaborazione (cfg : Config) (durate : list Z)
  (risultati_elaborazione : gmap Z risultato) : M (gmap Z risultato) :=
  match durate with
  | [] => ret risultati_elaborazione
  | durata :: resto =>
    r ← try_except
          ('(s, fp) ← calcolo_cumulata cfg durata;
           ret {| successo := s;
                  problemi := Z.of_nat (length fp);
                  file_problematici := fp |})
          (ret {| successo := false;
                  problemi := -1;
                  file_problematici := [] |});
    main_elaborazione cfg resto (<[durata := r]> risultati_elaborazione)
  end.

(** [main]: the entries of [risultati_elaborazione] and the text handed to
    [mail_output.txt].  [excel_presente durata] is what
    [os.path.isfile(excel_file)] answers in the summary loop, whatever the
    output directory then holds. *)
Definition main (cfg : Config) (durate : list Z)
  (excel_presente : Z -> bool) : M (gmap Z risultato * string) :=
  ora_inizio_processo ← datetime_now;
  risultati_elaborazione ← main_elaborazione cfg durate ∅;
  let file_mancanti_elaborazione :=
    List.filter (fun durata => negb (excel_presente durata)) durate in
  '(file_mancanti_archivio, file_corrotti_archivio) ←
    controlla_file_archivio_completo cfg ora_inizio_processo;
  let totale_problemi :=
    (length file_mancanti_archivio + length file_corrotti_archivio)%nat in
  if (totale_problemi =? 0)%nat then
    ret (risultati_elaborazione, scrivi_file_mail_output false EmptyString)
  else
    let contenuto_mail :=
      genera_contenuto_mail cfg durate ora_inizio_processo
        file_mancanti_archivio file_corrotti_archivio
        file_mancanti_elaborazione in
    ret (risultati_elaborazione, scrivi_file_mail_output true contenuto_mail).

End Principale.

(** ** More archives for the examples *)

Module EsempiAltro.
Import Gregoriano Esempi.

(** Hour 04 is missing, hour 05 is sound, hour 06 passes the probe of its
    first window but its band does not decode. *)
Definition mondo_parziale : @mondo Z :=
  {| files :=
       <["/mcm/2024/01/01/MCM_20240101050000.tif" :=
           tif (from_epsg 32632) [[1; 2]; [3; 4]]]>
       (<["/mcm/2024/01/01/MCM_20240101060000.tif" :=
           {| size := 4096; cont := Aperto (from_epsg 32632) true None |}]> ∅);
     dirs :=
       <["/mcm/2024/01/01" :=
           ["MCM_20240101050000.tif"; "MCM_20240101060000.tif"]]> ∅;
     adesso := data_ora 2024 1 1 6 + 1800000000 |}.

(** The same two files the other way round: the damaged one comes first. *)
Definition mondo_primo_illeggibile : @mondo Z :=
  {| files :=
       <["/mcm/2024/01/01/MCM_20240101050000.tif" :=
           {| size := 4096; cont := Aperto (from_epsg 32632) true None |}]>
       (<["/mcm/2024/01/01/MCM_20240101060000.tif" :=
           tif (from_epsg 32632) [[10; 20]; [30; 40]]]> ∅);
     dirs :=
       <["/mcm/2024/01/01" :=
           ["MCM_20240101050000.tif"; "MCM_20240101060000.tif"]]> ∅;
     adesso := data_ora 2024 1 1 6 + 1800000000 |}.

(** An archive with no directory for today. *)
Definition mondo_senza_cartella : @mondo Z :=
  {| files := ∅; dirs := ∅; adesso := data_ora 2024 1 1 6 + 1800000000 |}.

(** Today's directory lists a file that is not a raster of the archive
    after the rasters. *)
Definition mondo_estraneo : @mondo Z :=
  {| files := files mondo_es;
     dirs :=
       <["/mcm/2024/01/01" :=
           ["MCM_20240101050000.tif"; "MCM_20240101060000.tif";
            "Thumbs.db"]]> ∅;
     adesso := data_ora 2024 1 1 6 + 1800000000 |}.

(** A configuration with a negative control window. *)
Definition cfg_negativa : Config :=
  {| RADICE_ARCHIVIO := "/mcm";
     ORE_CONTROLLO_ARCHIVIO := -1;
     ORE_ESCLUSE_RECENTI := 0;
     PERCENTILI := [50; 90] |}.

End EsempiAltro.

(** ** Further readings of [calcola_cn_per_zone] *)

(** The rasters of a list that carry the zone [key], and those that carry
    a zone number at all. *)
Definition della_zona (key : string) (rasters : list raster_asc)
  : list raster_asc :=
  filter (fun r => chiave_zona (percorso r) = Some key) rasters.

Definition numerati (rasters : list raster_asc) : list raster_asc :=
  filter (fun r => is_Some (chiave_zona (percorso r))) rasters.

Module EsempiCN.
Import Esempi.

(** No cache yet; two rasters carry the number of zone 1, a third file has
    no number and cannot be read. *)
Definition mondo_cn_doppio : mondo_cn :=
  {| cache := None;
     mtime := {["/cn/A_1.ASC" := 1700000000; "/cn/B_01.ASC" := 1700000050;
                "/cn/LEGENDA.ASC" := 1700000060]};
     asc := [ {| percorso := "/cn/A_1.ASC"; media := Ok (Some 80%R) |};
              {| percorso := "/cn/B_01.ASC"; media := Ok (Some 70%R) |};
              {| percorso := "/cn/LEGENDA.ASC"; media := Eccezione |} ];
     aperture := [] |}.

(** The cache is stale and the raster of zone 2 is damaged. *)
Definition mondo_cn_guasto : mondo_cn :=
  {| cache := Some CacheIlleggibile;
     mtime := mtimes_es;
     asc := [ {| percorso := "/cn/CN_1.ASC"; media := Ok (Some 80%R) |};
              {| percorso := "/cn/CN_2.ASC"; media := Eccezione |} ];
     aperture := [] |}.

(** No cache and no raster with a number. *)
Definition mondo_cn_vuoto : mondo_cn :=
  {| cache := None; mtime := ∅; asc := []; aperture := [] |}.


End EsempiCN.

(* ===================================================================== *)
(** * Part II. Theorems *)
(* ===================================================================== *)

Ltac esegui :=
  unfold mbind, M_bind, bind, mret, M_ret, ret, raise, try_except.

Section ArchivioTeoremi.
Context {cell : Type} `{Aritmetica cell} `{Calendario} `{Valle cell}
        `{Riscrittura}.

Implicit Types (w : @mondo cell) (cfg : Config).

(** ** The scan *)

Lemma verifica_file_tiff_classe w p f :
  files w !! p = Some f ->
  verifica_file_tiff p w =
    (Ok (match cont f with Aperto _ true _ => true | _ => false end), w).
Proof.
  intros Hf. unfold verifica_file_tiff, rasterio_leggi_campione. esegui.
  rewrite Hf. destruct f as [sz [|crs [|] b]]; reflexivity.
Qed.

Lemma controlla_un_file_classe cfg ora st w :
  controlla_un_file cfg ora st w =
    (Ok (aggiorna_controllo (classifica w (path_di cfg ora))
           (nome_file_di ora) st), w).
Proof.
  destruct st as [[m c] t].
  unfold controlla_un_file, classifica, path_di, os_path_isfile,
    os_path_getsize.
  esegui.
  destruct (files w !! _) as [f|] eqn:Hf; simpl.
  - rewrite Hf. destruct (size f =? 0); [reflexivity|].
    rewrite (verifica_file_tiff_classe w _ f Hf).
    destruct f as [sz [|crs [|] b]]; reflexivity.
  - reflexivity.
Qed.

Lemma controlla_ciclo_fold cfg ore st w :
  controlla_ciclo cfg ore st w =
    (Ok (fold_left
           (fun st ora =>
              aggiorna_controllo (classifica w (path_di cfg ora))
                (nome_file_di ora) st)
           ore st), w).
Proof.
  revert st. induction ore as [|ora ore IH]; intros st; [reflexivity|].
  cbn [controlla_ciclo fold_left]. unfold mbind, M_bind, bind.
  rewrite controlla_un_file_classe. apply IH.
Qed.

Lemma genera_ore_passo a l :
  genera_ore a l =
    if Z_le_gt_dec a l then a :: genera_ore (a + timedelta_hours 1) l else [].
Proof.
  rewrite genera_ore_equation_1 at 1.
  destruct (Z_le_gt_dec a l); reflexivity.
Qed.

Lemma genera_ore_passi (n : nat) a :
  genera_ore a (a + timedelta_hours (Z.of_nat n)) =
    map (fun i => a + timedelta_hours i) (seqZ 0 (Z.of_nat n + 1)).
Proof.
  revert a. induction n as [|n IH]; intros a.
  - rewrite genera_ore_passo.
    destruct (Z_le_gt_dec _ _) as [_|Hgt]; [|unfold timedelta_hours in Hgt; lia].
    rewrite genera_ore_passo.
    destruct (Z_le_gt_dec _ _) as [Hle|_]; [unfold timedelta_hours in Hle; lia|].
    rewrite seqZ_cons by lia. rewrite seqZ_nil by lia.
    cbn [map]. unfold timedelta_hours. f_equal. lia.
  - rewrite genera_ore_passo.
    destruct (Z_le_gt_dec _ _) as [_|Hgt]; [|unfold timedelta_hours in Hgt; lia].
    replace (a + timedelta_hours (Z.of_nat (S n)))
      with (a + timedelta_hours 1 + timedelta_hours (Z.of_nat n))
      by (unfold timedelta_hours; lia).
    rewrite IH.
    rewrite (seqZ_cons 0 (Z.of_nat (S n) + 1)) by lia.
    cbn [map]. f_equal; [unfold timedelta_hours; lia|].
    replace (Z.pred (Z.of_nat (S n) + 1)) with (Z.of_nat n + 1) by lia.
    replace (Z.succ 0) with (1 + 0) by lia.
    rewrite <- (fmap_add_seqZ 1 0). clear IH.
    induction (seqZ 0 (Z.of_nat n + 1)) as [|i l IHl]; [reflexivity|].
    cbn. f_equal; [unfold timedelta_hours; lia|apply IHl].
Qed.

Lemma classi_partizione {A} (k : A -> classe) (l : list A) :
  (length (filter (fun x => k x = Valido) l)
   + length (filter (fun x => k x = Mancante) l)
   + length (filter (fun x => k x = Vuoto \/ k x = Corrotto) l)
   = length l)%nat.
Proof.
  induction l as [|x l IH]; [reflexivity|].
  rewrite !filter_cons.
  destruct (k x) eqn:Hk;
    repeat case_decide; try (exfalso; intuition congruence);
    cbn [length]; lia.
Qed.

Lemma fold_controllo_conta cfg w ore m c t :
  let classe_di := fun ora => classifica w (path_di cfg ora) in
  let fine :=
    fold_left
      (fun st ora => aggiorna_controllo (classe_di ora) (nome_file_di ora) st)
      ore (m, c, t) in
  fine.1.1 =
    m ++ map nome_file_di (filter (fun ora => classe_di ora = Mancante) ore)
  /\ length fine.1.2 =
       (length c
        + length (filter (fun ora => classe_di ora = Vuoto \/
                                     classe_di ora = Corrotto) ore))%nat
  /\ fine.2 =
       t + Z.of_nat (length (filter (fun ora => classe_di ora = Valido) ore)).
Proof.
  intros classe_di. revert m c t.
  induction ore as [|ora ore IH]; intros m c t.
  - cbn. rewrite app_nil_r. repeat split; lia.
  - cbn [fold_left]. rewrite !filter_cons.
    destruct (classe_di ora) eqn:Hc; cbn [aggiorna_controllo];
      repeat case_decide; try (exfalso; intuition congruence).
    + destruct (IH m c (t + 1)) as (-> & -> & ->).
      cbn [length]. repeat split; lia.
    + destruct (IH (m ++ [nome_file_di ora]) c t) as (-> & -> & ->).
      rewrite <- app_assoc. repeat split; lia.
    + destruct (IH m (c ++ [nome_file_di ora +:+ " (empty file)"]) t)
        as (-> & -> & ->).
      rewrite length_app. cbn [length]. repeat split; lia.
    + destruct (IH m (c ++ [nome_file_di ora +:+ " (corrupted file)"]) t)
        as (-> & -> & ->).
      rewrite length_app. cbn [length]. repeat split; lia.
Qed.

(** C2. For every anchor time [T], control window [C >= 0] and exclusion
    [E], [controlla_file_archivio_completo] enumerates exactly [C + 1] hours,
    one hour apart from [T - E - C] to [T - E] with both ends included, and
    puts each of them in exactly one of three classes: the names of the
    missing ones are returned in [file_mancanti], the empty and the corrupted
    ones are in [file_corrotti], the valid ones are counted in
    [file_trovati]; the three add up to [C + 1].  The scan returns normally
    and leaves the world as it was. *)
Theorem controlla_file_archivio_completo_finestra cfg (T : datetime) w :
  0 <= ORE_CONTROLLO_ARCHIVIO cfg ->
  let C := ORE_CONTROLLO_ARCHIVIO cfg in
  let E := ORE_ESCLUSE_RECENTI cfg in
  let ore := ore_da_controllare cfg T in
  let classe_di := fun ora => classifica w (path_di cfg ora) in
  ore = map (fun i => T - timedelta_hours E - timedelta_hours C
                      + timedelta_hours i) (seqZ 0 (C + 1))
  /\ Z.of_nat (length ore) = C + 1
  /\ exists file_mancanti file_corrotti file_trovati,
       controlla_file_archivio_completo_stato cfg T w =
         (Ok (file_mancanti, file_corrotti, file_trovati), w)
       /\ controlla_file_archivio_completo cfg T w =
            (Ok (file_mancanti, file_corrotti), w)
       /\ file_mancanti =
            map nome_file_di (filter (fun ora => classe_di ora = Mancante) ore)
       /\ length file_corrotti =
            length (filter (fun ora => classe_di ora = Vuoto \/
                                       classe_di ora = Corrotto) ore)
       /\ file_trovati =
            Z.of_nat (length (filter (fun ora => classe_di ora = Valido) ore))
       /\ file_trovati + Z.of_nat (length file_mancanti)
            + Z.of_nat (length file_corrotti) = C + 1.
Proof.
  intros HC C E ore classe_di.
  assert (Hore : ore = map (fun i => T - timedelta_hours E - timedelta_hours C
                                     + timedelta_hours i) (seqZ 0 (C + 1))).
  { unfold ore, ore_da_controllare. fold C E.
    set (a := T - timedelta_hours E - timedelta_hours C).
    replace (T - timedelta_hours E) with (a + timedelta_hours (Z.of_nat (Z.to_nat C)))
      by (unfold a, timedelta_hours; lia).
    rewrite genera_ore_passi. rewrite Z2Nat.id by lia. reflexivity. }
  assert (Hlen : Z.of_nat (length ore) = C + 1).
  { rewrite Hore, length_map, length_seqZ. lia. }
  split; [exact Hore|]. split; [exact Hlen|].
  pose proof (fold_controllo_conta cfg w ore [] [] 0) as Hfold.
  cbv beta zeta in Hfold.
  match type of Hfold with
  | context [fold_left ?f ore ?s] =>
    destruct (fold_left f ore s) as [[m c] t] eqn:Hf
  end.
  cbn [fst snd] in Hfold. destruct Hfold as (Hm & Hc & Ht).
  exists m, c, t.
  assert (Hst : controlla_file_archivio_completo_stato cfg T w = (Ok (m, c, t), w)).
  { unfold controlla_file_archivio_completo_stato. fold ore.
    rewrite controlla_ciclo_fold, Hf. reflexivity. }
  split; [exact Hst|].
  split.
  { unfold controlla_file_archivio_completo. esegui. rewrite Hst. reflexivity. }
  cbn [app length] in Hm, Hc. rewrite Z.add_0_l in Ht.
  split; [exact Hm|]. split; [exact Hc|]. split; [exact Ht|].
  pose proof (classi_partizione classe_di ore) as Hp.
  subst classe_di. cbv beta in Hp.
  rewrite Ht, Hc, Hm, length_map. lia.
Qed.

(** ** Computations that only read *)

Lemma sola_lettura_ret {A} (a : A) : @sola_lettura cell _ (ret a : @M cell A).
Proof. intros w. reflexivity. Qed.

Lemma sola_lettura_raise {A} : @sola_lettura cell _ (raise : @M cell A).
Proof. intros w. reflexivity. Qed.

Lemma sola_lettura_bind {A B} (c : @M cell A) (k : A -> @M cell B) :
  sola_lettura c -> (forall a, sola_lettura (k a)) -> @sola_lettura cell _ (bind c k).
Proof.
  intros Hc Hk w. unfold bind. specialize (Hc w).
  destruct (c w) as [[a|] w1]; cbn in Hc; subst w1; [apply Hk|reflexivity].
Qed.

Lemma sola_lettura_try {A} (c h : @M cell A) :
  sola_lettura c -> sola_lettura h -> @sola_lettura cell _ (try_except c h).
Proof.
  intros Hc Hh w. unfold try_except. specialize (Hc w).
  destruct (c w) as [[a|] w1]; cbn in Hc; subst w1; [reflexivity|apply Hh].
Qed.

Lemma sola_lettura_di_opzione {A} (o : option A) :
  @sola_lettura cell _ (di_opzione o : @M cell A).
Proof. destruct o; intros w; reflexivity. Qed.

Lemma sola_lettura_os_listdir d : @sola_lettura cell _ (os_listdir d : @M cell _).
Proof. intros w. unfold os_listdir. destruct (dirs w !! d); reflexivity. Qed.

Lemma sola_lettura_leggi_banda p : @sola_lettura cell _ (rasterio_leggi_banda p).
Proof.
  intros w. unfold rasterio_leggi_banda.
  destruct (files w !! p) as [[sz [|crs ok [g|]]]|]; reflexivity.
Qed.

Lemma sola_lettura_controlla cfg T :
  @sola_lettura cell _ (controlla_file_archivio_completo cfg T).
Proof.
  intros w. unfold controlla_file_archivio_completo,
    controlla_file_archivio_completo_stato.
  esegui. rewrite controlla_ciclo_fold.
  destruct (fold_left _ _ _) as [[m c] t]. reflexivity.
Qed.

Lemma sola_lettura_ultimo_file cfg : @sola_lettura cell _ (ultimo_file_di_oggi cfg).
Proof.
  unfold ultimo_file_di_oggi.
  apply sola_lettura_bind; [intros w; reflexivity|]. intros t.
  apply sola_lettura_try; [|apply sola_lettura_ret].
  apply sola_lettura_bind; [apply sola_lettura_os_listdir|]. intros l.
  apply sola_lettura_bind; [apply sola_lettura_di_opzione|]. intros u.
  apply sola_lettura_ret.
Qed.

(** ** The collection loop of [calcolo_cumulata] *)

Lemma raccogli_un_file_classe cfg d st w :
  raccogli_un_file cfg d st w =
    (Ok (aggiorna_raccolta (classifica w (path_di cfg d)) (nome_file_di d)
           (path_di cfg d) st), w).
Proof.
  destruct st as [lf pb].
  unfold raccogli_un_file, classifica, path_di, os_path_isfile,
    os_path_getsize.
  esegui.
  destruct (files w !! _) as [f|] eqn:Hf; simpl.
  - rewrite Hf. destruct (size f =? 0); [reflexivity|].
    rewrite (verifica_file_tiff_classe w _ f Hf).
    destruct f as [sz [|crs [|] b]]; reflexivity.
  - reflexivity.
Qed.

Lemma raccogli_file_fold cfg date st w :
  raccogli_file cfg date st w = (Ok (raccolta_di cfg w date st), w).
Proof.
  unfold raccolta_di. revert st.
  induction date as [|d date IH]; intros st; [reflexivity|].
  cbn [raccogli_file fold_left]. unfold mbind, M_bind, bind.
  rewrite raccogli_un_file_classe. apply IH.
Qed.

Lemma raccolta_nessun_valido cfg w date lf pb :
  Forall (fun ora => classifica w (path_di cfg ora) <> Valido) date ->
  raccolta_di cfg w date (lf, pb) =
    (lf, pb ++ map (fun ora => nome_file_di ora
                               +:+ suffisso (classifica w (path_di cfg ora)))
                   date).
Proof.
  unfold raccolta_di. intros Hall. revert pb.
  induction Hall as [|d date Hd _ IH]; intros pb.
  - cbn. rewrite app_nil_r. reflexivity.
  - cbn [fold_left map].
    destruct (classifica w (path_di cfg d)) eqn:Hc; [congruence|..];
      cbn [aggiorna_raccolta suffisso]; rewrite IH, <- app_assoc; reflexivity.
Qed.

Lemma lista_date_lunghezza (T : datetime) D :
  0 <= D -> Z.of_nat (length (lista_date T D)) = D.
Proof. intros HD. unfold lista_date. rewrite length_map, length_seqZ. lia. Qed.

Lemma calcolo_cumulata_somma_ancora cfg D T w :
  ora_ultimo_file_di cfg w = Some T ->
  calcolo_cumulata_somma cfg D w = calcolo_cumulata_finestra cfg D T w.
Proof.
  unfold ora_ultimo_file_di, calcolo_cumulata_somma. intros Ha.
  unfold mbind at 1. unfold M_bind, bind.
  pose proof (sola_lettura_ultimo_file cfg w) as Hw.
  destruct (ultimo_file_di_oggi cfg w) as [[[[[[anno mese] giorno] ora]|]|] w1];
    cbn in Hw; subst w1; try discriminate Ha.
  unfold mbind, M_bind, bind. rewrite Ha. reflexivity.
Qed.

(** C4. When the anchor hour is found and none of the [D] required hourly
    files is valid (each is missing, empty or corrupted, so that
    [lista_file] stays empty), [calcolo_cumulata] returns failure before
    anything is opened for summing: no buffer is produced, the archive is
    untouched, and the returned problem list has [D] entries, the name of
    each required hour, in order, with its reason. *)
Theorem calcolo_cumulata_nessun_file_valido cfg D (T : datetime) w :
  ora_ultimo_file_di cfg w = Some T ->
  0 <= D ->
  Forall (fun ora => classifica w (path_di cfg ora) <> Valido)
         (lista_date T D) ->
  exists file_problematici,
    calcolo_cumulata_somma cfg D w =
      (Ok (Interrotta false file_problematici), w)
    /\ calcolo_cumulata cfg D w = (Ok (false, file_problematici), w)
    /\ Z.of_nat (length file_problematici) = D
    /\ file_problematici =
         map (fun ora => nome_file_di ora
                         +:+ suffisso (classifica w (path_di cfg ora)))
             (lista_date T D).
Proof.
  intros Ha HD Hall.
  eexists. 
  assert (Hs : calcolo_cumulata_somma cfg D w =
               (Ok (Interrotta false
                      (map (fun ora => nome_file_di ora
                              +:+ suffisso (classifica w (path_di cfg ora)))
                           (lista_date T D))), w)).
  { rewrite (calcolo_cumulata_somma_ancora cfg D T w Ha).
    unfold calcolo_cumulata_finestra. unfold mbind at 1. unfold M_bind, bind.
    rewrite raccogli_file_fold, (raccolta_nessun_valido _ _ _ _ _ Hall).
    reflexivity. }
  split; [exact Hs|]. split.
  { unfold calcolo_cumulata. esegui. rewrite Hs. reflexivity. }
  split; [|reflexivity].
  rewrite length_map. apply lista_date_lunghezza, HD.
Qed.

(** ** Adding layers of one shape *)

Lemma allarga_riga_id l (riga : list cell) :
  length riga = l -> allarga_riga l riga = riga.
Proof.
  intros Hl. destruct riga as [|x [|y riga]]; try reflexivity.
  cbn in Hl. subst l. reflexivity.
Qed.

Lemma allarga_id h l (g : list (list cell)) : forma_ok h l g -> allarga h l g = g.
Proof.
  intros [Hh Hl]. unfold allarga.
  assert (Hm : map (allarga_riga l) g = g).
  { clear Hh. induction Hl as [|riga g Hr _ IH]; [reflexivity|].
    cbn [map]. rewrite allarga_riga_id, IH by exact Hr. reflexivity. }
  rewrite Hm. destruct g as [|r [|r' g]]; try reflexivity.
  cbn in Hh. subst h. reflexivity.
Qed.

Lemma shape_forma h l (g : list (list cell)) :
  (0 < h)%nat -> forma_ok h l g -> shape g = (h, l).
Proof.
  intros Hpos [Hh Hl]. unfold shape. destruct g as [|r g].
  - cbn in Hh. lia.
  - inversion Hl; subst. reflexivity.
Qed.

Lemma forma_zip h l (a b : list (list cell)) :
  forma_ok h l a -> forma_ok h l b ->
  forma_ok h l (zip_with (zip_with cell_add) a b).
Proof.
  intros [Ha Hra] [Hb Hrb]. split.
  - rewrite length_zip_with. lia.
  - clear Ha Hb. revert b Hrb.
    induction Hra as [|ra a Hlen _ IH]; intros b Hrb; [constructor|].
    destruct Hrb as [|rb b Hlenb Hrb]; [constructor|].
    cbn [zip_with]. constructor; [|apply IH, Hrb].
    rewrite length_zip_with. lia.
Qed.

Lemma np_add_stessa_forma h l (a b : list (list cell)) :
  (0 < h)%nat -> forma_ok h l a -> forma_ok h l b ->
  np_add a b = Some (zip_with (zip_with cell_add) a b).
Proof.
  intros Hpos Ha Hb. unfold np_add.
  rewrite (shape_forma h l a Hpos Ha), (shape_forma h l b Hpos Hb).
  cbn [fst snd]. unfold broadcast_dim. rewrite !Nat.eqb_refl.
  rewrite !allarga_id by assumption. reflexivity.
Qed.





Lemma forma_somma_strati h l (gs : list (list (list cell))) :
  forall data, forma_ok h l data -> Forall (forma_ok h l) gs ->
    forma_ok h l (fold_left (zip_with (zip_with cell_add)) gs data).
Proof.
  induction gs as [|g gs IH]; intros data Hd Hall; [exact Hd|].
  inversion Hall; subst. cbn [fold_left]. apply IH; [|assumption].
  apply forma_zip; assumption.
Qed.

(** ** The summing loop *)

Lemma leggi_banda_banda_di (w : @mondo cell) p :
  rasterio_leggi_banda p w =
    (match banda_di w p with Some g => Ok g | None => Eccezione end, w).
Proof.
  unfold rasterio_leggi_banda, banda_di.
  destruct (files w !! p) as [[sz [|crs ok [g|]]]|]; reflexivity.
Qed.

Lemma banda_di_timbra (w : @mondo cell) p0 f0 p :
  files w !! p0 = Some f0 ->
  banda_di (timbra p0 f0 w) p = banda_di w p.
Proof.
  intros Hf. unfold banda_di, timbra. cbn [files].
  destruct (decide (p0 = p)) as [->|Hne].
  - rewrite lookup_insert_eq, Hf. unfold imposta_crs.
    destruct f0 as [sz [|crs ok b]]; reflexivity.
  - rewrite lookup_insert_ne by exact Hne. reflexivity.
Qed.

Lemma apri_rw_valido (w : @mondo cell) p f crs ok g :
  files w !! p = Some f -> cont f = Aperto crs ok (Some g) ->
  rasterio_apri_rw_imposta_crs_leggi p (from_epsg 4326) w =
    (Ok (g, from_epsg 4326), timbra p f w).
Proof.
  intros Hf Hc. unfold rasterio_apri_rw_imposta_crs_leggi.
  rewrite Hf, Hc. reflexivity.
Qed.

(** ** The loops of [calcolo_cumulata], read off the archive *)

Lemma raccolta_generale cfg (w : @mondo cell) date lf pb :
  raccolta_di cfg w date (lf, pb) =
    (lf ++ map (path_di cfg) (ore_valide cfg w date),
     pb ++ map (annotazione cfg w) (ore_scartate cfg w date)).
Proof.
  unfold raccolta_di, ore_valide, ore_scartate. revert lf pb.
  induction date as [|d date IH]; intros lf pb.
  - cbn. rewrite !app_nil_r. reflexivity.
  - cbn [fold_left]. rewrite !filter_cons.
    destruct (classifica w (path_di cfg d)) eqn:Hc;
      repeat case_decide; try congruence;
      cbn [aggiorna_raccolta map]; rewrite IH, <- !app_assoc;
      try reflexivity;
      cbn [app]; unfold annotazione at 2; rewrite Hc; reflexivity.
Qed.

Lemma valido_file (w : @mondo cell) p :
  classifica w p = Valido ->
  exists f crs, files w !! p = Some f /\ size f <> 0
                /\ cont f = Aperto crs true (banda_di w p).
Proof.
  unfold classifica, banda_di.
  destruct (files w !! p) as [[sz ct]|]; [|discriminate]. cbn.
  destruct (Z.eqb_spec sz 0); [discriminate|].
  destruct ct as [|crs [|] b]; try discriminate.
  intros _. exists {| size := sz; cont := Aperto crs true b |}, crs. auto.
Qed.

Lemma ultimo_file_assente cfg (w : @mondo cell) :
  dirs w !! path_oggi_di cfg w = None
  \/ dirs w !! path_oggi_di cfg w = Some [] ->
  ultimo_file_di_oggi cfg w = (Ok None, w).
Proof.
  intros Hd. unfold ultimo_file_di_oggi, datetime_now, os_listdir. esegui.
  fold (path_oggi_di cfg w). destruct Hd as [-> | ->]; reflexivity.
Qed.

Lemma ultimo_file_presente cfg (w : @mondo cell) dir_list ultimo_file :
  dirs w !! path_oggi_di cfg w = Some dir_list ->
  last dir_list = Some ultimo_file ->
  ultimo_file_di_oggi cfg w =
    (Ok (Some (py_slice 4 8 ultimo_file, py_slice 8 10 ultimo_file,
               py_slice 10 12 ultimo_file, py_slice 12 14 ultimo_file)), w).
Proof.
  intros Hd Hl. unfold ultimo_file_di_oggi, datetime_now, os_listdir. esegui.
  fold (path_oggi_di cfg w). rewrite Hd, Hl. reflexivity.
Qed.

Lemma calcolo_cumulata_sommata cfg D (w w' : @mondo cell) data meta pb :
  calcolo_cumulata_somma cfg D w = (Ok (Sommata data meta pb), w') ->
  calcolo_cumulata cfg D w =
    (match elaborazione_a_valle D data meta (length pb) with
     | Ok successo => Ok (successo, pb)
     | Eccezione => Eccezione
     end, w').
Proof.
  intros Hs. unfold calcolo_cumulata. esegui. rewrite Hs.
  destruct (elaborazione_a_valle D data meta (length pb)); reflexivity.
Qed.

Lemma calcolo_cumulata_interrotta cfg D (w w' : @mondo cell) successo pb :
  calcolo_cumulata_somma cfg D w = (Ok (Interrotta successo pb), w') ->
  calcolo_cumulata cfg D w = (Ok (successo, pb), w').
Proof.
  intros Hs. unfold calcolo_cumulata. esegui. rewrite Hs. reflexivity.
Qed.

Lemma apri_rw_illeggibile (w : @mondo cell) p f crs ok :
  files w !! p = Some f -> cont f = Aperto crs ok None ->
  rasterio_apri_rw_imposta_crs_leggi p (from_epsg 4326) w =
    (Eccezione, timbra p f w).
Proof.
  intros Hf Hc. unfold rasterio_apri_rw_imposta_crs_leggi.
  rewrite Hf, Hc. reflexivity.
Qed.


Lemma ora_ultimo_file_lettura cfg (w : @mondo cell) :
  ora_ultimo_file_di cfg w =
    (dirs w !! path_oggi_di cfg w ≫= last) ≫=
      (fun ultimo_file =>
         strptime (py_slice 4 8 ultimo_file +:+ py_slice 8 10 ultimo_file
                   +:+ py_slice 10 12 ultimo_file +:+ " "
                   +:+ py_slice 12 14 ultimo_file) "%Y%m%d %H").
Proof.
  unfold ora_ultimo_file_di.
  destruct (dirs w !! path_oggi_di cfg w) as [dir_list|] eqn:Hd;
    cbn [mbind option_bind].
  - destruct (last dir_list) as [u|] eqn:Hl; cbn [mbind option_bind].
    + rewrite (ultimo_file_presente cfg w dir_list u Hd Hl). reflexivity.
    + apply last_None in Hl. subst dir_list.
      rewrite (ultimo_file_assente cfg w (or_intror Hd)). reflexivity.
  - rewrite (ultimo_file_assente cfg w (or_introl Hd)). reflexivity.
Qed.

(** The loop of lines 406-415 never raises: each turn is
    [aggiungi_banda]. *)
Lemma somma_restanti_lettura (w : @mondo cell) ps :
  forall data n,
    exists n',
      somma_restanti ps data n w =
        (Ok (fold_left (aggiungi_banda w) ps data, n'), w).
Proof.
  induction ps as [|p ps IH]; intros data n; [eexists; reflexivity|].
  cbn [somma_restanti fold_left]. esegui. rewrite leggi_banda_banda_di.
  destruct (banda_di w p) as [g|] eqn:Hb.
  - unfold di_opzione. destruct (np_add data g) as [s|] eqn:Hadd.
    + assert (Ha : aggiungi_banda w data p = s)
        by (unfold aggiungi_banda; rewrite Hb, Hadd; reflexivity).
      rewrite Ha. apply IH.
    + assert (Ha : aggiungi_banda w data p = data)
        by (unfold aggiungi_banda; rewrite Hb, Hadd; reflexivity).
      rewrite Ha. apply IH.
  - assert (Ha : aggiungi_banda w data p = data)
      by (unfold aggiungi_banda; rewrite Hb; reflexivity).
    rewrite Ha. apply IH.
Qed.


Lemma somma_stesse_bande (w1 w : @mondo cell) :
  (forall p, banda_di w1 p = banda_di w p) ->
  forall ps data,
    fold_left (aggiungi_banda w1) ps data = fold_left (aggiungi_banda w) ps data.
Proof.
  intros Hb ps. induction ps as [|p ps IH]; intros data; [reflexivity|].
  cbn [fold_left]. rewrite IH. f_equal. unfold aggiungi_banda.
  rewrite Hb. reflexivity.
Qed.

(** Lines 353-429 when no hour of the window passes the tests, and when
    some do. *)
Lemma calcolo_cumulata_finestra_vuota cfg D (T : datetime) (w : @mondo cell) :
  ore_valide cfg w (lista_date T D) = [] ->
  calcolo_cumulata_finestra cfg D T w =
    (Ok (Interrotta false
           (map (annotazione cfg w) (ore_scartate cfg w (lista_date T D)))),
     w).
Proof.
  intros Hval. unfold calcolo_cumulata_finestra.
  unfold mbind at 1. unfold M_bind, bind.
  rewrite raccogli_file_fold, raccolta_generale, Hval. reflexivity.
Qed.

Lemma calcolo_cumulata_finestra_lettura cfg D (T : datetime) (w : @mondo cell)
    d0 resto :
  ore_valide cfg w (lista_date T D) = d0 :: resto ->
  exists f0,
    files w !! path_di cfg d0 = Some f0
    /\ size f0 <> 0 /\ cont f0 <> NonApribile
    /\ calcolo_cumulata_finestra cfg D T w =
         (Ok (match banda_di w (path_di cfg d0) with
              | None =>
                Interrotta false
                  (map (annotazione cfg w)
                       (ore_scartate cfg w (lista_date T D)))
              | Some g0 =>
                if (grid_size (fold_left (aggiungi_banda w)
                                 (map (path_di cfg) resto) g0) =? 0)%nat
                then Interrotta false
                       (map (annotazione cfg w)
                            (ore_scartate cfg w (lista_date T D)))
                else Sommata (fold_left (aggiungi_banda w)
                                (map (path_di cfg) resto) g0)
                       (from_epsg 4326)
                       (map (annotazione cfg w)
                            (ore_scartate cfg w (lista_date T D)))
              end),
          timbra (path_di cfg d0) f0 w).
Proof.
  intros Hval.
  assert (Hc0 : classifica w (path_di cfg d0) = Valido).
  { assert (Hin : d0 ∈ ore_valide cfg w (lista_date T D))
      by (rewrite Hval; left).
    unfold ore_valide in Hin. apply list_elem_of_filter in Hin. tauto. }
  destruct (valido_file w _ Hc0) as (f0 & crs0 & Hf0 & Hsz & Hcont0).
  exists f0. split; [exact Hf0|]. split; [exact Hsz|].
  split; [rewrite Hcont0; discriminate|].
  unfold calcolo_cumulata_finestra. unfold mbind at 1. unfold M_bind, bind.
  rewrite raccogli_file_fold, raccolta_generale, Hval.
  cbn [app map]. esegui.
  destruct (banda_di w (path_di cfg d0)) as [g0|] eqn:Hb0.
  - rewrite (apri_rw_valido w _ f0 crs0 true g0 Hf0 Hcont0).
    destruct (somma_restanti_lettura (timbra (path_di cfg d0) f0 w)
                (map (path_di cfg) resto) g0 1) as [n' Hs].
    rewrite Hs.
    rewrite (somma_stesse_bande (timbra (path_di cfg d0) f0 w) w)
      by (intros p; apply banda_di_timbra, Hf0).
    destruct (grid_size _ =? 0)%nat; reflexivity.
  - rewrite (apri_rw_illeggibile w _ f0 crs0 true Hf0 Hcont0). reflexivity.
Qed.

(** [calcolo_cumulata] returns what [esito_cumulata] reads, and it leaves
    the archive as it was or with its first valid file rewritten. *)
Lemma calcolo_cumulata_lettura cfg D (w : @mondo cell) :
  fst (calcolo_cumulata cfg D w) = esito_cumulata cfg D w
  /\ (snd (calcolo_cumulata cfg D w) = w
      \/ exists T d0 resto f0,
           ora_ultimo_file_di cfg w = Some T
           /\ ore_valide cfg w (lista_date T D) = d0 :: resto
           /\ files w !! path_di cfg d0 = Some f0
           /\ size f0 <> 0 /\ cont f0 <> NonApribile
           /\ snd (calcolo_cumulata cfg D w) = timbra (path_di cfg d0) f0 w).
Proof.
  pose proof (ora_ultimo_file_lettura cfg w) as Hora.
  unfold esito_cumulata.
  destruct (dirs w !! path_oggi_di cfg w ≫= last) as [u|] eqn:Hu;
    cbn [mbind option_bind] in Hora.
  - destruct (strptime _ "%Y%m%d %H") as [T|] eqn:Hp.
    + cbv zeta.
      pose proof (calcolo_cumulata_somma_ancora cfg D T w Hora) as Hs.
      destruct (ore_valide cfg w (lista_date T D)) as [|d0 resto] eqn:Hval.
      * rewrite (calcolo_cumulata_finestra_vuota cfg D T w Hval) in Hs.
        rewrite (calcolo_cumulata_interrotta _ _ _ _ _ _ Hs). auto.
      * destruct (calcolo_cumulata_finestra_lettura cfg D T w d0 resto Hval)
          as (f0 & Hf0 & Hsz & Hcont & Hfin).
        rewrite Hfin in Hs.
        destruct (banda_di w (path_di cfg d0)) as [g0|].
        -- destruct (grid_size _ =? 0)%nat.
           ++ rewrite (calcolo_cumulata_interrotta _ _ _ _ _ _ Hs).
              split; [reflexivity|]. right. exists T, d0, resto, f0.
              repeat split; assumption || reflexivity.
           ++ rewrite (calcolo_cumulata_sommata _ _ _ _ _ _ _ Hs).
              split; [reflexivity|]. right. exists T, d0, resto, f0.
              repeat split; assumption || reflexivity.
        -- rewrite (calcolo_cumulata_interrotta _ _ _ _ _ _ Hs).
           split; [reflexivity|]. right. exists T, d0, resto, f0.
           repeat split; assumption || reflexivity.
    + assert (Hr : calcolo_cumulata cfg D w = (Eccezione, w)).
      { destruct (dirs w !! path_oggi_di cfg w) as [dir_list|] eqn:Hd;
          [|discriminate Hu].
        cbn [mbind option_bind] in Hu.
        unfold calcolo_cumulata, calcolo_cumulata_somma. esegui.
        rewrite (ultimo_file_presente cfg w dir_list u Hd Hu).
        rewrite Hp. reflexivity. }
      rewrite Hr. auto.
  - assert (Hr : calcolo_cumulata cfg D w = (Ok (false, []), w)).
    { apply calcolo_cumulata_interrotta.
      unfold calcolo_cumulata_somma. esegui.
      rewrite (ultimo_file_assente cfg w); [reflexivity|].
      destruct (dirs w !! path_oggi_di cfg w) as [dir_list|];
        [|left; reflexivity].
      cbn [mbind option_bind] in Hu. apply last_None in Hu. subst.
      right. reflexivity. }
    rewrite Hr. auto.
Qed.


(** ** What the aggregation writes to the archive *)

(** What the rewrite of the file at [p0] leaves as it was, and what it
    changes. *)
Lemma timbra_dati (w : @mondo cell) p0 f0 :
  files w !! p0 = Some f0 ->
  dirs (timbra p0 f0 w) = dirs w
  /\ adesso (timbra p0 f0 w) = adesso w
  /\ (forall p, banda_di (timbra p0 f0 w) p = banda_di w p)
  /\ (forall p, is_Some (files (timbra p0 f0 w) !! p)
                <-> is_Some (files w !! p))
  /\ (forall p, p <> p0 -> files (timbra p0 f0 w) !! p = files w !! p)
  /\ (cont f0 <> NonApribile ->
      crs_di (timbra p0 f0 w) p0 = Some (from_epsg 4326)).
Proof.
  intros Hf. split; [reflexivity|]. split; [reflexivity|].
  split; [intros p; apply banda_di_timbra, Hf|].
  split; [|split].
  - intros p. unfold timbra. cbn [files].
    destruct (decide (p0 = p)) as [->|Hne].
    + rewrite lookup_insert_eq, Hf. split; eauto.
    + rewrite lookup_insert_ne by exact Hne. reflexivity.
  - intros p Hne. unfold timbra. cbn [files].
    apply lookup_insert_ne. congruence.
  - intros Hc. unfold crs_di, timbra. cbn [files].
    rewrite lookup_insert_eq. unfold imposta_crs.
    destruct f0 as [sz [|crs ok b]]; [contradiction|reflexivity].
Qed.

Lemma classifica_timbra (w : @mondo cell) p0 f0 p :
  files w !! p0 = Some f0 -> size f0 <> 0 ->
  classifica (timbra p0 f0 w) p = classifica w p.
Proof.
  intros Hf Hsz. unfold classifica, timbra. cbn [files].
  destruct (decide (p0 = p)) as [->|Hne].
  - rewrite lookup_insert_eq, Hf. unfold imposta_crs.
    destruct f0 as [sz [|crs ok b]]; [reflexivity|]. cbn in *.
    destruct (Z.eqb_spec sz 0); [contradiction|]. reflexivity.
  - rewrite lookup_insert_ne by exact Hne. reflexivity.
Qed.

(** The archives before and after [calcolo_cumulata] differ at most in one
    rewritten file: the listings, the clock, the outcome of the tests on
    every path and every band are the same. *)
Lemma calcolo_cumulata_conserva cfg D (w : @mondo cell) :
  (forall p, classifica (snd (calcolo_cumulata cfg D w)) p = classifica w p)
  /\ dirs (snd (calcolo_cumulata cfg D w)) = dirs w
  /\ adesso (snd (calcolo_cumulata cfg D w)) = adesso w
  /\ (forall p, banda_di (snd (calcolo_cumulata cfg D w)) p = banda_di w p).
Proof.
  destruct (calcolo_cumulata_lettura cfg D w)
    as [_ [-> | (T & d0 & resto & f0 & _ & _ & Hf & Hsz & _ & ->)]];
    [auto|].
  split; [intros p; apply classifica_timbra; assumption|].
  split; [reflexivity|]. split; [reflexivity|].
  intros p. apply banda_di_timbra, Hf.
Qed.

(** C3, as the code has it.  The scan leaves the archive as it was.  The
    aggregation never changes which files exist, the directory listings,
    the cell contents of any raster or the outcome of the validity tests on
    any path.  It rewrites at most one file: the first valid file of the
    window is opened for update and its coordinate reference system is
    overwritten with EPSG:4326, which rewrites the file on disk; nothing
    is said of its size afterwards.  Every other file is as before. *)
Theorem archivio_solo_crs_del_primo_file cfg D (T0 : datetime)
    (w : @mondo cell) :
  snd (controlla_file_archivio_completo cfg T0 w) = w
  /\ dirs (snd (calcolo_cumulata cfg D w)) = dirs w
  /\ (forall p, is_Some (files (snd (calcolo_cumulata cfg D w)) !! p)
                <-> is_Some (files w !! p))
  /\ (forall p, banda_di (snd (calcolo_cumulata cfg D w)) p = banda_di w p)
  /\ (forall p, classifica (snd (calcolo_cumulata cfg D w)) p
                = classifica w p)
  /\ (snd (calcolo_cumulata cfg D w) = w
      \/ exists T d0 resto,
           ora_ultimo_file_di cfg w = Some T
           /\ ore_valide cfg w (lista_date T D) = d0 :: resto
           /\ crs_di (snd (calcolo_cumulata cfg D w)) (path_di cfg d0)
              = Some (from_epsg 4326)
           /\ forall p, p <> path_di cfg d0 ->
                files (snd (calcolo_cumulata cfg D w)) !! p = files w !! p).
Proof.
  split; [apply sola_lettura_controlla|].
  destruct (calcolo_cumulata_conserva cfg D w) as (Hc & Hd & _ & Hb).
  split; [exact Hd|].
  destruct (calcolo_cumulata_lettura cfg D w)
    as [_ [Hw | (T & d0 & resto & f0 & Ha & Hval & Hf & Hsz & Hcont & Hw)]];
    rewrite Hw in *.
  - split; [reflexivity|]. split; [exact Hb|]. split; [exact Hc|].
    left. reflexivity.
  - destruct (timbra_dati w (path_di cfg d0) f0 Hf)
      as (_ & _ & _ & Hes & Haltri & Hcrs).
    split; [exact Hes|]. split; [exact Hb|]. split; [exact Hc|].
    right. exists T, d0, resto. auto.
Qed.

End ArchivioTeoremi.

(** ** The archive theorems on the example archive *)

Section ArchivioEsempi.
Import Gregoriano Esempi EsempiAltro.

Lemma finestra_es :
  lista_date (data_ora 2024 1 1 6) 2 =
    [data_ora 2024 1 1 5; data_ora 2024 1 1 6].
Proof. vm_compute. reflexivity. Qed.


(** The scan of the example archive: window of 3 hours, 4 identities. *)
Lemma controlla_file_archivio_completo_finestra_es :
  0 <= ORE_CONTROLLO_ARCHIVIO cfg_es
  /\ Z.of_nat (length (ore_da_controllare cfg_es (adesso mondo_es))) = 4.
Proof.
  split; [cbn; lia|].
  exact (proj1 (proj2 (controlla_file_archivio_completo_finestra
                         cfg_es (adesso mondo_es) mondo_es
                         ltac:(cbn; lia)))).
Defined.



(** Both required files are empty. *)
Lemma calcolo_cumulata_nessun_file_valido_es :
  exists file_problematici,
    @calcolo_cumulata Z _ _ valle_riuscita _ cfg_es 2 mondo_vuoto =
      (Ok (false, file_problematici), mondo_vuoto)
    /\ Z.of_nat (length file_problematici) = 2
    /\ file_problematici =
         ["MCM_20240101050000.tif (empty)"; "MCM_20240101060000.tif (empty)"].
Proof.
  destruct (@calcolo_cumulata_nessun_file_valido Z aritmetica_Z calendario
              valle_riuscita riscrittura_es
              cfg_es 2 (data_ora 2024 1 1 6) mondo_vuoto
              ltac:(vm_compute; reflexivity) ltac:(lia)
              ltac:(rewrite finestra_es; repeat constructor;
                    vm_compute; discriminate))
    as (pb & _ & Hc & Hl & Hpb).
  exists pb. split; [exact Hc|]. split; [exact Hl|].
  rewrite Hpb. vm_compute. reflexivity.
Defined.

(** The claim C3 as it is written fails here: after the aggregation the
    first valid file of the window no longer carries the reference system
    it was stored with, and the file on disk is another one. *)
Lemma calcolo_cumulata_riscrive_il_crs :
  crs_di mondo_es "/mcm/2024/01/01/MCM_20240101050000.tif"
    = Some (from_epsg 32632)
  /\ crs_di (snd (@calcolo_cumulata Z _ _ valle_riuscita _ cfg_es 2 mondo_es))
       "/mcm/2024/01/01/MCM_20240101050000.tif"
     = Some (from_epsg 4326)
  /\ files (snd (@calcolo_cumulata Z _ _ valle_riuscita _ cfg_es 2 mondo_es))
       !! "/mcm/2024/01/01/MCM_20240101050000.tif"
     <> files mondo_es !! "/mcm/2024/01/01/MCM_20240101050000.tif"
  /\ snd (@calcolo_cumulata Z _ _ valle_riuscita _ cfg_es 2 mondo_es)
     <> mondo_es.
Proof.
  split; [vm_compute; reflexivity|]. split; [vm_compute; reflexivity|].
  assert (Hne : files (snd (@calcolo_cumulata Z _ _ valle_riuscita _
                              cfg_es 2 mondo_es))
                  !! "/mcm/2024/01/01/MCM_20240101050000.tif"
                <> files mondo_es !! "/mcm/2024/01/01/MCM_20240101050000.tif").
  { intros Hf. vm_compute in Hf. discriminate Hf. }
  split; [exact Hne|].
  intros Heq. apply Hne. rewrite Heq. reflexivity.
Qed.

End ArchivioEsempi.

(** ** Zonal percentiles *)

Section PercentiliTeoremi.
Context {cell geom raster : Type} `{Zonale cell geom raster}.

Lemma risultato_zona_IM livelli (src : raster) idx (row : @riga_zona geom) :
  IM (risultato_zona livelli src idx row) =
    default (IdInt (Z.of_nat idx)) (attributi row !! "id").
Proof.
  unfold risultato_zona.
  destruct (celle_valide src (geometry row)); reflexivity.
Qed.

(** C7, as the code has it.  For every non-empty zone layer whose ['id']
    values are not text, the table has one row for each zone, in the order
    of the layer, and the identifier of a row is: the 0-based position of
    the zone plus one when the zone has no ['id'] attribute; the value of
    the ['id'] attribute plus one when it has one (a missing value stays
    missing). *)
Theorem calcolo_percentili_identificativi cfg (src : raster)
    (gdf : list (@riga_zona geom)) :
  gdf <> [] ->
  Forall (fun row => forall s, attributi row !! "id" <> Some (IdStr s)) gdf ->
  exists out,
    calcolo_percentili cfg (Some src) (Some gdf) = Some out
    /\ length out = length gdf
    /\ forall i row, gdf !! i = Some row ->
         exists riga, out !! i = Some riga
                      /\ IM riga = identificativo i row.
Proof.
  intros Hne Hid. unfold calcolo_percentili. cbn [mbind option_bind].
  set (f := fun r : @riga_percentili cell => _).
  set (risultati := imap (risultato_zona (PERCENTILI cfg) src) gdf).
  assert (Hsome : is_Some (mapM f risultati)).
  { apply mapM_is_Some, Forall_lookup_2. intros i r Hr. unfold risultati in Hr.
    rewrite list_lookup_imap in Hr.
    destruct (gdf !! i) as [row|] eqn:Hrow; [|discriminate Hr].
    cbn in Hr. injection Hr as <-. unfold f. cbn.
    rewrite risultato_zona_IM.
    pose proof (Forall_lookup_1 _ _ _ _ Hid Hrow) as Hs.
    cbn beta in Hs.
    destruct (attributi row !! "id") as [[n| |s]|] eqn:Ha; cbn; eauto.
    exfalso. apply (Hs s). reflexivity. }
  destruct Hsome as [out Hout].
  exists out.
  assert (Hris : risultati <> []).
  { unfold risultati. destruct gdf; [contradiction|discriminate]. }
  split.
  { destruct risultati; [contradiction|exact Hout]. }
  apply mapM_Some_1 in Hout.
  split.
  { rewrite <- (Forall2_length _ _ _ Hout). unfold risultati.
    apply length_imap. }
  intros i row Hrow.
  assert (Hr : risultati !! i
               = Some (risultato_zona (PERCENTILI cfg) src i row)).
  { unfold risultati. rewrite list_lookup_imap, Hrow. reflexivity. }
  destruct (Forall2_lookup_l _ _ _ _ _ Hout Hr) as (riga & Hriga & Hf).
  exists riga. split; [exact Hriga|].
  unfold f in Hf. rewrite risultato_zona_IM in Hf. unfold identificativo.
  destruct (attributi row !! "id") as [[n| |s]|]; cbn in Hf;
    try (injection Hf as <-; reflexivity).
  discriminate Hf.
Qed.

End PercentiliTeoremi.

Section PercentiliEsempi.
Import Esempi EsempiZone.

Lemma calcolo_percentili_identificativi_es :
  exists out,
    calcolo_percentili cfg_es (Some tt) (Some zone_senza_id) = Some out
    /\ IM <$> out = [IdInt 1; IdInt 2].
Proof.
  destruct (calcolo_percentili_identificativi cfg_es tt zone_senza_id
              ltac:(discriminate)
              ltac:(repeat constructor; intros s; vm_compute; discriminate))
    as (out & Hout & Hlen & Hrows).
  exists out. split; [exact Hout|].
  vm_compute in Hout. injection Hout as <-. reflexivity.
Defined.

(** The claim C7 as it is written fails here: the layer carries the ['id']
    values 10 and 20, and the identifiers of the table are 11 and 21, not
    the positions plus one. *)
Lemma calcolo_percentili_id_dal_campo :
  calcolo_percentili cfg_es (Some tt) (Some zone_con_id) =
    Some [ {| IM := IdInt 11; colonne := [(50, Some 2); (90, Some 2)] |};
           {| IM := IdInt 21; colonne := [(50, None); (90, None)] |} ]
  /\ [IdInt 11; IdInt 21] <> [IdInt (0 + 1); IdInt (1 + 1)].
Proof. split; [vm_compute; reflexivity|discriminate]. Qed.

End PercentiliEsempi.

(** ** The Peq0 transform *)

Section Peq0Teoremi.
Local Open Scope R_scope.

Lemma esse_pos cn : 0 < cn -> cn < 100 -> 0 < esse cn.
Proof.
  intros H0 H100. unfold esse.
  assert (254 < 25400 / cn); [|lra].
  apply Rmult_lt_reg_r with cn; [exact H0|].
  unfold Rdiv. rewrite Rmult_assoc, Rinv_l by lra. lra.
Qed.

Lemma esse_100 : esse 100 = 0.
Proof. unfold esse. lra. Qed.

Lemma esse_nonneg cn : 0 < cn -> cn <= 100 -> 0 <= esse cn.
Proof.
  intros H0 [Hlt | ->]; [left; apply esse_pos; assumption|].
  rewrite esse_100. lra.
Qed.

Lemma sqrt_term_nonneg p5 cn lam :
  0 <= p5 -> 0 < cn -> cn <= 100 -> 0 <= sqrt_term p5 cn lam.
Proof.
  intros Hp H0 H100. unfold sqrt_term.
  pose proof (esse_nonneg cn H0 H100) as Hs.
  pose proof (pow2_ge_0 ((1 - lam) / 2)) as Ha.
  apply Rmult_le_pos; [exact Hs|].
  apply Rplus_le_le_0_compat; [exact Hp|].
  apply Rmult_le_pos; assumption.
Qed.

Lemma calcola_peq0_emme p5 cn lam :
  0 <= p5 -> 0 < cn -> cn < 100 ->
  calcola_peq0 p5 cn lam =
    Ok (Some (emme p5 cn lam
              * (1 + lam * esse cn / (esse cn + emme p5 cn lam)))).
Proof.
  intros Hp H0 H100. unfold calcola_peq0. fold (emme p5 cn lam).
  pose proof (esse_pos cn H0 H100) as Hs.
  pose proof (sqrt_term_nonneg p5 cn lam Hp H0 (Rlt_le _ _ H100)) as Hr.
  assert (Hm : 0 <= emme p5 cn lam) by apply Rmax_r.
  destruct (Req_dec_T cn 0) as [He|_]; [lra|].
  destruct (Rlt_dec (sqrt_term p5 cn lam) 0) as [Hn|_]; [lra|].
  destruct (Req_dec_T (esse cn + emme p5 cn lam) 0) as [He|_]; [lra|].
  reflexivity.
Qed.

Lemma emme_zero cn lam :
  0 < cn -> cn < 100 -> 0 <= lam -> emme 0 cn lam = 0.
Proof.
  intros H0 H100 Hl. unfold emme.
  pose proof (esse_pos cn H0 H100) as Hs.
  apply Rmax_right.
  assert (sqrt (sqrt_term 0 cn lam) <= (1 + lam) / 2 * esse cn); [|lra].
  rewrite <- (sqrt_square ((1 + lam) / 2 * esse cn)) by nra.
  apply sqrt_le_1_alt. unfold sqrt_term. nra.
Qed.

Lemma emme_monotona cn lam p1 p2 :
  0 < cn -> cn < 100 -> p1 <= p2 -> emme p1 cn lam <= emme p2 cn lam.
Proof.
  intros H0 H100 Hp. unfold emme.
  pose proof (esse_pos cn H0 H100) as Hs.
  apply Rle_max_compat_r.
  assert (sqrt (sqrt_term p1 cn lam) <= sqrt (sqrt_term p2 cn lam)); [|lra].
  apply sqrt_le_1_alt. unfold sqrt_term. nra.
Qed.

(** For a negative [lam] the value of [m] stays above [- lam * s]. *)
Lemma emme_sotto cn lam p5 :
  0 < cn -> cn < 100 -> 0 <= p5 -> lam < 0 ->
  - lam * esse cn <= emme p5 cn lam.
Proof.
  intros H0 H100 Hp Hl. unfold emme.
  pose proof (esse_pos cn H0 H100) as Hs.
  apply Rle_trans with (sqrt (sqrt_term p5 cn lam) - (1 + lam) / 2 * esse cn);
    [|apply Rmax_l].
  assert ((1 - lam) / 2 * esse cn <= sqrt (sqrt_term p5 cn lam)); [|lra].
  rewrite <- (sqrt_square ((1 - lam) / 2 * esse cn)) by nra.
  apply sqrt_le_1_alt. unfold sqrt_term. nra.
Qed.

Lemma trasformata_monotona s lam m1 m2 :
  0 < s -> 0 <= m1 -> m1 <= m2 ->
  (lam < 0 -> - lam * s <= m1) ->
  m1 * (1 + lam * s / (s + m1)) <= m2 * (1 + lam * s / (s + m2)).
Proof.
  intros Hs Hm1 Hm Hlam.
  set (i1 := / (s + m1)). set (i2 := / (s + m2)).
  assert (Hi1 : (s + m1) * i1 = 1) by (unfold i1; apply Rinv_r; lra).
  assert (Hi2 : (s + m2) * i2 = 1) by (unfold i2; apply Rinv_r; lra).
  assert (Hp1 : 0 < i1) by (unfold i1; apply Rinv_0_lt_compat; lra).
  assert (Hp2 : 0 < i2) by (unfold i2; apply Rinv_0_lt_compat; lra).
  unfold Rdiv. fold i1 i2.
  set (u1 := s * i1). set (u2 := s * i2).
  assert (Hu1 : 0 <= u1) by (unfold u1; nra).
  assert (Hu2 : 0 <= u2) by (unfold u2; nra).
  assert (Hd : m2 * (1 + lam * s * i2) - m1 * (1 + lam * s * i1)
               = (m2 - m1) * (1 + lam * u1 * u2)).
  { unfold u1, u2.
    assert (E1 : m1 * i1 = 1 - s * i1) by lra.
    assert (E2 : m2 * i2 = 1 - s * i2) by lra.
    replace (m2 * (1 + lam * s * i2)) with (m2 + lam * s * (m2 * i2)) by ring.
    replace (m1 * (1 + lam * s * i1)) with (m1 + lam * s * (m1 * i1)) by ring.
    rewrite E1, E2.
    assert (Hdiff : i1 - i2 = (m2 - m1) * i1 * i2).
    { replace (i1 - i2) with (i1 * ((s + m2) * i2) - ((s + m1) * i1) * i2)
        by (rewrite Hi1, Hi2; ring).
      ring. }
    replace (m2 + lam * s * (1 - s * i2) - (m1 + lam * s * (1 - s * i1)))
      with (m2 - m1 + lam * s * s * (i1 - i2)) by ring.
    rewrite Hdiff. ring. }
  assert (Hk : 0 <= 1 + lam * u1 * u2).
  { destruct (Rle_lt_dec 0 lam) as [Hl|Hl].
    - assert (0 <= lam * u1 * u2); [|lra].
      apply Rmult_le_pos; [apply Rmult_le_pos|]; assumption.
    - specialize (Hlam Hl).
      assert (Hv1 : (1 - lam) * u1 <= 1) by (unfold u1; nra).
      assert (Hv2 : (1 - lam) * u2 <= 1) by (unfold u2; nra).
      nra. }
  nra.
Qed.
Lemma calcola_peq0_reale cn lam :
  0 < cn -> cn < 100 ->
  (0 <= lam -> calcola_peq0 0 cn lam = Ok (Some 0))
  /\ forall p1 p2, 0 <= p1 -> p1 <= p2 ->
       exists y1 y2,
         calcola_peq0 p1 cn lam = Ok (Some y1)
         /\ calcola_peq0 p2 cn lam = Ok (Some y2)
         /\ y1 <= y2.
Proof.
  intros H0 H100. split.
  - intros Hl. rewrite calcola_peq0_emme by lra.
    rewrite (emme_zero cn lam H0 H100 Hl). do 2 f_equal. ring.
  - intros p1 p2 Hp1 Hp.
    rewrite !calcola_peq0_emme by lra.
    eexists _, _. split; [reflexivity|]. split; [reflexivity|].
    apply trasformata_monotona.
    + apply esse_pos; assumption.
    + apply Rmax_r.
    + apply emme_monotona; assumption.
    + intros Hl. apply emme_sotto; assumption.
Qed.

Lemma per_ogni_vero n :
  forall k f, per_ogni n k f = true ->
    forall j, (k <= j < k + Z.of_nat n)%Z -> f j = true.
Proof.
  induction n as [|n IH]; intros k f Hf j Hj; [lia|].
  cbn [per_ogni] in Hf. apply andb_true_iff in Hf as [Hk Hf].
  destruct (Z.eq_dec j k) as [->|Hne]; [exact Hk|].
  apply (IH (k + 1)%Z f Hf). lia.
Qed.

(** C5, as the code has it.  Read over the real numbers, the expression of
    [calcola_peq0] is, for every curve number strictly between 0 and 100, 0
    at [P = 0] for every [lam >= 0] and defined and non-decreasing in
    [P >= 0] for every [lam].  The code evaluates it on binary64 numbers.
    There, with [lam = 0.2] and the curve numbers 1, 2, ..., 99, it gives
    0 at [P = 0] and it is non-decreasing along the rainfalls 0, 0.1, 0.2,
    ..., 1000.0 that a percentile sheet can hold; between two binary64
    numbers that follow each other it can decrease. *)
Theorem calcola_peq0_zero_e_monotona :
  (forall cn lam,
     0 < cn -> cn < 100 ->
     (0 <= lam -> calcola_peq0 0 cn lam = Ok (Some 0))
     /\ forall p1 p2, 0 <= p1 -> p1 <= p2 ->
          exists y1 y2,
            calcola_peq0 p1 cn lam = Ok (Some y1)
            /\ calcola_peq0 p2 cn lam = Ok (Some y2)
            /\ y1 <= y2)
  /\ (forall c k : Z,
        (1 <= c <= 99)%Z -> (0 <= k < 10000)%Z ->
        PrimFloat.eqb (Binary64.peq0_griglia c 0) Binary64.zero = true
        /\ PrimFloat.leb (Binary64.peq0_griglia c k)
                         (Binary64.peq0_griglia c (k + 1)) = true).
Proof.
  split; [exact calcola_peq0_reale|].
  assert (Hgriglia :
    per_ogni 99 1
      (fun c =>
         PrimFloat.eqb (Binary64.peq0_griglia c 0) Binary64.zero
         && per_ogni (Pos.to_nat 10000) 0
              (fun k => PrimFloat.leb (Binary64.peq0_griglia c k)
                                      (Binary64.peq0_griglia c (k + 1))))
    = true) by (vm_compute; reflexivity).
  intros c k Hc Hk.
  pose proof (per_ogni_vero _ _ _ Hgriglia c ltac:(lia)) as Hcn.
  cbv beta in Hcn. apply andb_true_iff in Hcn as [Hzero Hcresce].
  split; [exact Hzero|].
  apply (per_ogni_vero _ _ _ Hcresce k). lia.
Qed.

(** CN 50 and [lam = 0.2]: no rain, no equivalent rain, on the reals and on
    binary64. *)
Lemma calcola_peq0_zero_es :
  calcola_peq0 0 50 (1 / 5) = Ok (Some 0)
  /\ PrimFloat.eqb (Binary64.peq0_griglia 50 0) Binary64.zero = true.
Proof.
  split.
  - apply (proj1 (proj1 calcola_peq0_zero_e_monotona 50 (1 / 5)
                    ltac:(lra) ltac:(lra))).
    lra.
  - apply (proj2 calcola_peq0_zero_e_monotona 50%Z 0%Z); lia.
Defined.

Lemma esse_50 : esse 50 = 254.
Proof. unfold esse. lra. Qed.

Lemma calcola_peq0_cn_100 p5 lam : calcola_peq0 p5 100 lam = Ok None.
Proof.
  unfold calcola_peq0, sqrt_term. rewrite esse_100.
  destruct (Req_dec_T 100 0) as [He|_]; [lra|].
  rewrite Rmult_0_l.
  destruct (Rlt_dec 0 0) as [Hn|_]; [lra|].
  rewrite sqrt_0, Rmult_0_r, Rminus_0_r, Rmax_left by lra.
  destruct (Req_dec_T (0 + 0) 0) as [_|Hn]; [reflexivity|lra].
Qed.

Lemma calcola_peq0_non_zero :
  calcola_peq0 0 100 (1 / 5) = Ok None
  /\ PrimFloat.is_nan Binary64.peq0_a_cn_100 = true
  /\ calcola_peq0 0 50 (- (1 / 2)) = Ok (Some (254 / 3))
  /\ PrimFloat.ltb Binary64.p_295 Binary64.dopo_295 = true
  /\ PrimFloat.ltb Binary64.peq0_dopo_295 Binary64.peq0_a_295 = true.
Proof.
  split; [apply calcola_peq0_cn_100|]. split; [vm_compute; reflexivity|].
  split; [|split; vm_compute; reflexivity].
  unfold calcola_peq0, sqrt_term. rewrite esse_50.
  destruct (Req_dec_T 50 0) as [He|_]; [lra|].
  replace (254 * (0 + ((1 - - (1 / 2)) / 2) ^ 2 * 254))
    with ((381 / 2) * (381 / 2)) by lra.
  destruct (Rlt_dec (381 / 2 * (381 / 2)) 0) as [Hn|_]; [lra|].
  rewrite sqrt_square by lra.
  rewrite Rmax_left by lra.
  replace (381 / 2 - (1 + - (1 / 2)) / 2 * 254) with 127 by lra.
  replace (254 + 127) with 381 by lra.
  destruct (Req_dec_T 381 0) as [He|_]; [lra|].
  do 2 f_equal. lra.
Qed.

(** C8, as the code has it.  For every [P >= 0], every [lam] and every
    [CN] in (0,100] the radicand [s * (P + ((1 - lam) / 2)^2 * s)] is not
    negative.  The code has no clamp: a negative radicand (which needs an
    input outside that domain) goes to [np.sqrt] as it is and the result of
    [calcola_peq0] is not a number. *)
Theorem radicando_non_negativo_senza_clamp p5 cn lam :
  (0 <= p5 -> 0 < cn -> cn <= 100 -> 0 <= sqrt_term p5 cn lam)
  /\ (cn <> 0 -> sqrt_term p5 cn lam < 0 ->
      calcola_peq0 p5 cn lam = Ok None).
Proof.
  split; [apply sqrt_term_nonneg|].
  intros Hcn Hneg. unfold calcola_peq0.
  destruct (Req_dec_T cn 0) as [He|_]; [contradiction|].
  destruct (Rlt_dec (sqrt_term p5 cn lam) 0) as [_|Hn]; [reflexivity|].
  contradiction.
Qed.

Lemma sqrt_term_es : sqrt_term (-100) 50 (1 / 5) < 0.
Proof. unfold sqrt_term. rewrite esse_50. lra. Qed.

Lemma radicando_non_negativo_senza_clamp_es :
  0 <= sqrt_term 10 50 (1 / 5)
  /\ calcola_peq0 (-100) 50 (1 / 5) = Ok None.
Proof.
  split.
  - apply (proj1 (radicando_non_negativo_senza_clamp 10 50 (1 / 5))); lra.
  - apply (proj2 (radicando_non_negativo_senza_clamp (-100) 50 (1 / 5)));
      [lra|].
    unfold sqrt_term, esse. lra.
Defined.

Lemma calcola_peq0_nessun_clamp :
  sqrt_term (-100) 50 (1 / 5) < 0
  /\ calcola_peq0 (-100) 50 (1 / 5) = Ok None
  /\ PrimFloat.is_nan Binary64.peq0_pioggia_negativa = true
  /\ calcola_peq0_con_clamp (-100) 50 (1 / 5) = Ok (Some 0).
Proof.
  split; [exact sqrt_term_es|]. split; [|split; [vm_compute; reflexivity|]].
  - unfold calcola_peq0.
    destruct (Req_dec_T 50 0) as [He|_]; [lra|].
    destruct (Rlt_dec _ 0) as [_|Hn]; [reflexivity|].
    exfalso. apply Hn, sqrt_term_es.
  - unfold calcola_peq0_con_clamp.
    destruct (Req_dec_T 50 0) as [He|_]; [lra|].
    rewrite (Rmax_right (sqrt_term (-100) 50 (1 / 5)) 0)
      by (left; exact sqrt_term_es).
    rewrite sqrt_0, esse_50. rewrite Rmax_right by lra.
    destruct (Req_dec_T (254 + 0) 0) as [He|_]; [lra|].
    do 2 f_equal. lra.
Qed.

End Peq0Teoremi.

(** ** The sheets and the CN cache *)

Section FogliTeoremi.
Context `{Python}.
Local Open Scope R_scope.

Lemma process_riga_converti lam zone_cn (pre : list riga) row resto :
  process_riga lam zone_cn (length pre) row (pre ++ row :: resto) =
    match converti_riga lam zone_cn row with
    | Ok row' => Ok (pre ++ row' :: resto)
    | Eccezione => Eccezione
    end.
Proof.
  unfold process_riga, converti_riga.
  destruct (normalizza_zona (zona row)) as [key|]; [|reflexivity].
  destruct (zone_cn !! key) as [cn|]; [|reflexivity].
  destruct (calcola_peq0_array (valori row) cn lam) as [peq|]; [|reflexivity].
  f_equal. rewrite insert_app_r_alt by lia.
  rewrite Nat.sub_diag. reflexivity.
Qed.

Lemma process_righe_converti lam zone_cn (rows : list riga) :
  forall pre,
    process_righe lam zone_cn
      (zip (seq (length pre) (length rows)) rows) (pre ++ rows) =
    match converti_righe lam zone_cn rows with
    | Ok rows' => Ok (pre ++ rows')
    | Eccezione => Eccezione
    end.
Proof.
  induction rows as [|row rows IH]; intros pre.
  - cbn. reflexivity.
  - cbn [length seq zip zip_with process_righe converti_righe].
    rewrite process_riga_converti.
    destruct (converti_riga lam zone_cn row) as [row'|]; [|reflexivity].
    specialize (IH (pre ++ [row'])).
    rewrite length_app, Nat.add_1_r in IH. rewrite <- !app_assoc in IH.
    cbn [app] in IH. rewrite IH.
    destruct (converti_righe lam zone_cn rows); [|reflexivity].
    rewrite <- app_assoc. reflexivity.
Qed.

Lemma process_sheet_converti lam df zone_cn :
  process_sheet lam df zone_cn = converti_righe lam zone_cn df.
Proof.
  unfold process_sheet.
  pose proof (process_righe_converti lam zone_cn df []) as Hp.
  cbn [length app] in Hp. rewrite Hp.
  destruct (converti_righe lam zone_cn df); reflexivity.
Qed.

Lemma calcola_peq0_array_lunghezza p5 cn lam peq :
  calcola_peq0_array p5 cn lam = Ok peq -> length peq = length p5.
Proof.
  unfold calcola_peq0_array. destruct cn as [c|].
  - destruct (Req_dec_T c 0); [discriminate|].
    intros [= <-]. apply length_map.
  - intros [= <-]. apply length_map.
Qed.

Lemma calcola_peq0_array_eccezione p5 cn lam :
  calcola_peq0_array p5 cn lam = Eccezione -> cn = Some 0.
Proof.
  unfold calcola_peq0_array. destruct cn as [c|]; [|discriminate].
  destruct (Req_dec_T c 0) as [->|]; [reflexivity|discriminate].
Qed.

Lemma converti_riga_ok lam zone_cn row row' :
  converti_riga lam zone_cn row = Ok row' ->
  zona row' = zona row
  /\ length (valori row') = length (valori row)
  /\ (non_convertita zone_cn row -> row' = row).
Proof.
  unfold converti_riga, non_convertita.
  destruct (normalizza_zona (zona row)) as [key|] eqn:Hk.
  - destruct (zone_cn !! key) as [cn|] eqn:Hcn.
    + destruct (calcola_peq0_array (valori row) cn lam) as [peq|] eqn:Hp;
        [|discriminate].
      intros [= <-]. cbn. split; [reflexivity|]. split.
      * rewrite length_map. apply (calcola_peq0_array_lunghezza _ _ _ _ Hp).
      * intros [Hn|(key' & Hk' & Hcn')]; [discriminate|].
        injection Hk' as <-. rewrite Hcn in Hcn'. discriminate.
    + intros [= <-]. auto.
  - intros [= <-]. auto.
Qed.

Lemma converti_riga_eccezione lam zone_cn row :
  converti_riga lam zone_cn row = Eccezione ->
  exists key, normalizza_zona (zona row) = Some key
              /\ zone_cn !! key = Some (Some 0).
Proof.
  unfold converti_riga.
  destruct (normalizza_zona (zona row)) as [key|]; [|discriminate].
  destruct (zone_cn !! key) as [cn|] eqn:Hcn; [|discriminate].
  destruct (calcola_peq0_array (valori row) cn lam) as [peq|] eqn:Hp;
    [discriminate|].
  intros _. exists key. split; [reflexivity|].
  rewrite Hcn. f_equal. apply (calcola_peq0_array_eccezione _ _ _ Hp).
Qed.

(** C10.  [process_sheet] either raises (the division by a CN of zero, in
    a row that is converted) or returns a sheet with the rows of the input
    in the same order, each with its zone label and its number of value
    columns; a row whose label is not recognised by [normalizza_zona], or
    whose zone has no entry in the CN mapping, is returned exactly as it
    was: its values are neither transformed nor replaced by [nan]. *)
Theorem process_sheet_righe_non_convertite lam (df : list riga) zone_cn :
  match process_sheet lam df zone_cn with
  | Ok out =>
    length out = length df
    /\ forall i row, df !! i = Some row ->
         exists row', out !! i = Some row'
           /\ zona row' = zona row
           /\ length (valori row') = length (valori row)
           /\ (non_convertita zone_cn row -> row' = row)
  | Eccezione =>
    exists row key, row ∈ df
      /\ normalizza_zona (zona row) = Some key
      /\ zone_cn !! key = Some (Some 0)
  end.
Proof.
  rewrite process_sheet_converti.
  induction df as [|row df IH].
  - cbn. split; [reflexivity|]. intros i row Hi. discriminate Hi.
  - cbn [converti_righe].
    destruct (converti_riga lam zone_cn row) as [row'|] eqn:Hr.
    + destruct (converti_righe lam zone_cn df) as [out|].
      * destruct IH as [Hlen Hrows]. split; [cbn; lia|].
        intros [|i] r Hi.
        -- cbn in Hi. injection Hi as <-. exists row'.
           split; [reflexivity|]. apply (converti_riga_ok _ _ _ _ Hr).
        -- cbn in Hi. apply Hrows in Hi. exact Hi.
      * destruct IH as (r & key & Hin & Hk & Hcn).
        exists r, key. split; [right; exact Hin|]. auto.
    + destruct (converti_riga_eccezione _ _ _ Hr) as (key & Hk & Hcn).
      exists row, key. split; [left|]. auto.
Qed.

End FogliTeoremi.

Section CurveNumberTeoremi.

Lemma cache_valida_presa w zc mt :
  cache w = Some (CacheJson zc mt) ->
  (forall p t, mt !! p = Some t -> mtime w !! p = Some t) ->
  cache_valida w = Some zc.
Proof.
  intros Hc Hm. unfold cache_valida. rewrite Hc.
  destruct (decide _) as [_|Hn]; [reflexivity|].
  exfalso. apply Hn. intros p t Hp. apply Hm, Hp.
Qed.

Lemma ricalcola_mtimes rasters :
  forall zc mt w zc' mt' w',
    ricalcola rasters zc mt w = (Ok (zc', mt'), w') ->
    (forall p t, mt !! p = Some t -> mtime w !! p = Some t) ->
    (forall p t, mt' !! p = Some t -> mtime w !! p = Some t)
    /\ cache w' = cache w /\ mtime w' = mtime w /\ asc w' = asc w.
Proof.
  induction rasters as [|r rasters IH]; intros zc mt w zc' mt' w' Hr Hm.
  - cbn in Hr. injection Hr as <- <- <-. auto.
  - cbn [ricalcola] in Hr.
    destruct (chiave_zona (percorso r)) as [key|]; [|apply (IH _ _ _ _ _ _ Hr Hm)].
    destruct (media r) as [v|]; [|discriminate Hr].
    cbn [apri mtime] in Hr.
    destruct (mtime w !! percorso r) as [t|] eqn:Ht; [|discriminate Hr].
    apply IH in Hr.
    + exact Hr.
    + cbn [apri mtime]. intros p t' Hp.
      destruct (decide (percorso r = p)) as [<-|Hne].
      * rewrite lookup_insert_eq in Hp. congruence.
      * rewrite lookup_insert_ne in Hp by exact Hne. apply Hm, Hp.
Qed.

(** C6.  When the cache file parses and every modification time it
    records equals the current one of its file, [calcola_cn_per_zone]
    returns the persisted averages and leaves the world as it was: no raster
    is opened.  Hence, after any call that returned, a second call with the
    cache the first one left and the same modification times returns the
    same averages and opens nothing. *)
Theorem calcola_cn_per_zone_cache w :
  (forall zc mt,
     cache w = Some (CacheJson zc mt) ->
     (forall p t, mt !! p = Some t -> mtime w !! p = Some t) ->
     calcola_cn_per_zone w = (Ok zc, w))
  /\ (forall zc w1,
        calcola_cn_per_zone w = (Ok zc, w1) ->
        forall w2, cache w2 = cache w1 -> mtime w2 = mtime w ->
          calcola_cn_per_zone w2 = (Ok zc, w2)).
Proof.
  split.
  - intros zc mt Hc Hm. unfold calcola_cn_per_zone.
    rewrite (cache_valida_presa w zc mt Hc Hm). reflexivity.
  - intros zc w1 H1 w2 Hc2 Hm2. unfold calcola_cn_per_zone in H1.
    destruct (cache_valida w) as [zc0|] eqn:Hv.
    + injection H1 as <- <-. unfold calcola_cn_per_zone.
      assert (Hv2 : cache_valida w2 = Some zc0).
      { unfold cache_valida in *. rewrite Hc2, Hm2. exact Hv. }
      rewrite Hv2. reflexivity.
    + destruct (ricalcola (asc w) ∅ ∅ w) as [[[zc' mt']|] w'] eqn:Hr;
        [|discriminate H1].
      injection H1 as <- <-.
      destruct (ricalcola_mtimes _ _ _ _ _ _ _ Hr) as (Hm' & _ & Hmt & _).
      { intros p t Hp. rewrite lookup_empty in Hp. discriminate Hp. }
      unfold calcola_cn_per_zone.
      rewrite (cache_valida_presa w2 zc' mt'); [reflexivity|exact Hc2|].
      intros p t Hp. rewrite Hm2. apply Hm', Hp.
Qed.

(** C9.  The cache is checked only over the paths it records: when it
    parses and each recorded modification time equals the current one, the
    cached mapping is returned as it is also after a new CN raster has been
    added to the directory, and the zone of the new raster, when the cache
    does not have it, is absent from the result. *)
Theorem cache_ignora_i_nuovi_raster w zc mt r t :
  cache w = Some (CacheJson zc mt) ->
  (forall p t', mt !! p = Some t' -> mtime w !! p = Some t') ->
  mt !! percorso r = None ->
  calcola_cn_per_zone (aggiungi_raster r t w) = (Ok zc, aggiungi_raster r t w)
  /\ forall key, chiave_zona (percorso r) = Some key -> zc !! key = None ->
       exists z, fst (calcola_cn_per_zone (aggiungi_raster r t w)) = Ok z
                 /\ z !! key = None.
Proof.
  intros Hc Hm Hnew.
  assert (Hr : calcola_cn_per_zone (aggiungi_raster r t w)
               = (Ok zc, aggiungi_raster r t w)).
  { unfold calcola_cn_per_zone.
    rewrite (cache_valida_presa _ zc mt); [reflexivity|exact Hc|].
    intros p t' Hp. cbn [aggiungi_raster mtime].
    rewrite lookup_insert_ne by congruence. apply Hm, Hp. }
  split; [exact Hr|].
  intros key _ Hz. exists zc. rewrite Hr. auto.
Qed.

End CurveNumberTeoremi.

Section PeqEsempi.
Import Esempi.

(** The cache of the example is taken as it is and nothing is opened. *)
Lemma calcola_cn_per_zone_cache_es :
  calcola_cn_per_zone mondo_cn_es = (Ok zone_cn_es, mondo_cn_es).
Proof.
  apply (proj1 (calcola_cn_per_zone_cache mondo_cn_es) zone_cn_es mtimes_es).
  - reflexivity.
  - intros p t Hp. exact Hp.
Defined.

(** A third raster appears: the cache is still taken, zone IM-03 is not in
    the result. *)
Lemma cache_ignora_i_nuovi_raster_es :
  calcola_cn_per_zone (aggiungi_raster raster_nuovo 1700000100 mondo_cn_es)
    = (Ok zone_cn_es, aggiungi_raster raster_nuovo 1700000100 mondo_cn_es)
  /\ chiave_zona (percorso raster_nuovo) = Some "IM-03"
  /\ zone_cn_es !! "IM-03" = None.
Proof.
  split; [|split; [vm_compute; reflexivity|reflexivity]].
  apply (cache_ignora_i_nuovi_raster mondo_cn_es zone_cn_es mtimes_es
           raster_nuovo 1700000100).
  - reflexivity.
  - intros p t Hp. exact Hp.
  - vm_compute. reflexivity.
Defined.

(** Neither row of the example sheet is converted. *)
Lemma process_sheet_es :
  process_sheet (1 / 5) foglio_es zone_cn_es = Ok foglio_es.
Proof.
  pose proof (process_sheet_righe_non_convertite (1 / 5) foglio_es zone_cn_es)
    as Hp.
  destruct (process_sheet (1 / 5) foglio_es zone_cn_es) as [out|].
  - destruct Hp as [Hlen Hrows].
    destruct (Hrows 0%nat _ eq_refl) as (r0 & H0 & _ & _ & Hr0).
    destruct (Hrows 1%nat _ eq_refl) as (r1 & H1 & _ & _ & Hr1).
    rewrite Hr0 in H0 by (left; vm_compute; reflexivity).
    rewrite Hr1 in H1
      by (right; exists "IM-07"; split; [vm_compute; reflexivity|reflexivity]).
    destruct out as [|a [|b [|c out]]]; try discriminate Hlen.
    cbn in H0, H1. injection H0 as ->. injection H1 as ->. reflexivity.
  - destruct Hp as (row & key & _ & Hk & Hcn). exfalso.
    assert (Hno : forall k, zone_cn_es !! k <> Some (Some 0%R)).
    { intros k Hk'. unfold zone_cn_es in Hk'.
      destruct (decide (k = "IM-01")) as [->|H1].
      - rewrite lookup_insert_eq in Hk'. injection Hk' as Hk'. lra.
      - rewrite lookup_insert_ne in Hk' by congruence.
        destruct (decide (k = "IM-02")) as [->|H2].
        + rewrite lookup_singleton_eq in Hk'. injection Hk' as Hk'. lra.
        + rewrite lookup_singleton_ne in Hk' by congruence. discriminate. }
    exact (Hno key Hcn).
Defined.

End PeqEsempi.

(* ===================================================================== *)
(** * Part III. Further properties of the code *)
(* ===================================================================== *)

(** ** The aggregation window and the scan *)

Section ArchivioAltroTeoremi.
Context {cell : Type} `{Aritmetica cell} `{Calendario} `{Valle cell}
        `{Riscrittura}.

(** X1.  The aggregation window: nothing for a duration that is not positive;
    for [D >= 1] the [D] consecutive hours that end with the anchor hour,
    the first being [T - (D-1)h], all of them after [T - D h]. *)
Theorem finestra_di_aggregazione (T : datetime) D :
  (D <= 0 -> lista_date T D = [])
  /\ (1 <= D ->
      lista_date T D =
        map (fun i => T - timedelta_hours (D - 1 - i)) (seqZ 0 D)
      /\ head (lista_date T D) = Some (T - timedelta_hours (D - 1))
      /\ last (lista_date T D) = Some T
      /\ Forall (fun ora => T - timedelta_hours D < ora <= T)
                (lista_date T D)).
Proof.
  split.
  - intros HD. unfold lista_date. rewrite seqZ_nil by lia. reflexivity.
  - intros HD.
    assert (Heq : lista_date T D =
                  map (fun i => T - timedelta_hours (D - 1 - i)) (seqZ 0 D)).
    { unfold lista_date. apply map_ext. intros i.
      unfold timedelta_hours. lia. }
    split; [exact Heq|]. split; [|split].
    + rewrite Heq. rewrite seqZ_cons by lia. cbn [map head].
      f_equal. unfold timedelta_hours. lia.
    + rewrite Heq.
      assert (Hs : seqZ 0 D = seqZ 0 (D - 1) ++ [D - 1]).
      { replace (seqZ 0 D) with (seqZ 0 ((D - 1) + 1)) by (f_equal; lia).
        rewrite seqZ_app by lia. reflexivity. }
      rewrite Hs, map_app. cbn [map].
      rewrite last_snoc. f_equal. unfold timedelta_hours. lia.
    + rewrite Heq. apply Forall_forall. intros ora Hin.
      apply list_elem_of_In, in_map_iff in Hin.
      destruct Hin as (i & <- & Hi).
      apply list_elem_of_In, elem_of_seqZ in Hi.
      unfold timedelta_hours. lia.
Qed.

Lemma filter_vuoto {A} (P : A -> Prop) `{forall x, Decision (P x)}
    (l : list A) :
  filter P l = [] <-> Forall (fun x => ~ P x) l.
Proof.
  induction l as [|x l IH].
  - split; [constructor|reflexivity].
  - rewrite filter_cons. destruct (decide (P x)) as [Hp|Hp].
    + split; [discriminate|]. intros Hall. inversion Hall; contradiction.
    + rewrite IH. split.
      * intros Hall. constructor; assumption.
      * intros Hall. inversion Hall; assumption.
Qed.

Lemma genera_ore_vuota (a l : datetime) : l < a -> genera_ore a l = [].
Proof.
  intros Hlt. rewrite genera_ore_passo.
  destruct (Z_le_gt_dec a l); [lia|reflexivity].
Qed.

Lemma controllo_esito cfg (T : datetime) (w : @mondo cell) :
  (exists file_mancanti file_corrotti,
     controlla_file_archivio_completo cfg T w =
       (Ok (file_mancanti, file_corrotti), w))
  /\ (fst (controlla_file_archivio_completo cfg T w) = Ok ([], [])
      <-> Forall (fun ora => classifica w (path_di cfg ora) = Valido)
                 (ore_da_controllare cfg T))
  /\ (ORE_CONTROLLO_ARCHIVIO cfg < 0 ->
      controlla_file_archivio_completo cfg T w = (Ok ([], []), w)).
Proof.
  set (ore := ore_da_controllare cfg T).
  pose proof (fold_controllo_conta cfg w ore [] [] 0) as Hfold.
  cbv beta zeta in Hfold.
  assert (Hrun : forall st,
    fold_left
      (fun st ora => aggiorna_controllo (classifica w (path_di cfg ora))
                       (nome_file_di ora) st) ore ([], [], 0) = st ->
    controlla_file_archivio_completo cfg T w = (Ok (st.1.1, st.1.2), w)).
  { intros [[m c] t] Hst. unfold controlla_file_archivio_completo,
      controlla_file_archivio_completo_stato. fold ore. esegui.
    rewrite controlla_ciclo_fold, Hst. reflexivity. }
  match type of Hfold with
  | context [fold_left ?f ore ?s] =>
    destruct (fold_left f ore s) as [[m c] t] eqn:Hf
  end.
  specialize (Hrun _ eq_refl). cbn [fst snd] in Hrun, Hfold.
  destruct Hfold as (Hm & Hc & _). cbn [app length] in Hm, Hc.
  split; [exists m, c; exact Hrun|]. split.
  - rewrite Hrun. cbn [fst]. split.
    + intros [= -> ->]. cbn [length] in Hc.
      symmetry in Hm. apply map_eq_nil in Hm.
      apply filter_vuoto in Hm.
      assert (Hvc : filter (fun ora => classifica w (path_di cfg ora) = Vuoto
                                       \/ classifica w (path_di cfg ora) = Corrotto)
                           ore = []).
      { apply length_zero_iff_nil. lia. }
      apply filter_vuoto in Hvc.
      apply Forall_forall. intros ora Hin.
      rewrite Forall_forall in Hm, Hvc.
      specialize (Hm ora Hin). specialize (Hvc ora Hin). cbv beta in Hm, Hvc.
      destruct (classifica w (path_di cfg ora)); [reflexivity|..];
        exfalso; auto.
    + intros Hall.
      assert (Hm0 : filter (fun ora => classifica w (path_di cfg ora) = Mancante)
                           ore = []).
      { apply filter_vuoto. eapply Forall_impl; [exact Hall|].
        cbv beta. intros ora ->. discriminate. }
      assert (Hvc : filter (fun ora => classifica w (path_di cfg ora) = Vuoto
                                       \/ classifica w (path_di cfg ora) = Corrotto)
                           ore = []).
      { apply filter_vuoto. eapply Forall_impl; [exact Hall|].
        cbv beta. intros ora -> [Hx|Hx]; discriminate. }
      rewrite Hm0 in Hm. rewrite Hvc in Hc. cbn in Hm, Hc.
      apply length_zero_iff_nil in Hc. subst m c. reflexivity.
  - intros Hneg.
    assert (Hore : ore = []).
    { unfold ore, ore_da_controllare. apply genera_ore_vuota.
      unfold timedelta_hours. lia. }
    rewrite Hrun. rewrite Hore in Hm, Hc. cbn in Hm, Hc.
    apply length_zero_iff_nil in Hc. subst m c. reflexivity.
Qed.

(** X2.  The scan returns two empty lists exactly when every hour of the control
    window has a valid file; it never raises.  With a negative control
    window no hour is looked at, and the two lists are empty. *)
Theorem controllo_senza_problemi cfg (T : datetime) (w : @mondo cell) :
  (exists file_mancanti file_corrotti,
     controlla_file_archivio_completo cfg T w =
       (Ok (file_mancanti, file_corrotti), w))
  /\ (fst (controlla_file_archivio_completo cfg T w) = Ok ([], [])
      <-> Forall (fun ora => classifica w (path_di cfg ora) = Valido)
                 (ore_da_controllare cfg T))
  /\ (ORE_CONTROLLO_ARCHIVIO cfg < 0 ->
      controlla_file_archivio_completo cfg T w = (Ok ([], []), w)).
Proof. exact (controllo_esito cfg T w). Qed.

(** ** Partial sums *)

(** The loop adds the bands that decode and passes over the others. *)
Lemma somma_restanti_bande h l (w : @mondo cell) ps
    (bande : list (option (list (list cell)))) :
  (0 < h)%nat ->
  Forall2 (fun p b => banda_di w p = b
                      /\ forall g, b = Some g -> forma_ok h l g) ps bande ->
  forall data n, forma_ok h l data ->
    somma_restanti ps data n w =
      (Ok (fold_left (zip_with (zip_with cell_add)) (omap (fun b => b) bande) data,
           n + Z.of_nat (length (omap (fun b => b) bande))), w).
Proof.
  intros Hpos Hall.
  induction Hall as [|p b ps bande [Hb Hg] _ IH]; intros data n Hd.
  - cbn. rewrite Z.add_0_r. reflexivity.
  - cbn [somma_restanti]. esegui.
    rewrite leggi_banda_banda_di, Hb. destruct b as [g|].
    + unfold di_opzione.
      rewrite (np_add_stessa_forma h l data g Hpos Hd (Hg g eq_refl)).
      unfold ret. rewrite IH by (apply forma_zip; auto).
      change (omap (fun b : option (list (list cell)) => b) (Some g :: bande))
        with (g :: omap (fun b : option (list (list cell)) => b) bande).
      cbn [fold_left length]. do 2 f_equal. f_equal. lia.
    + rewrite IH by exact Hd. reflexivity.
Qed.

Lemma forma_somma_bande h l (bande : list (option (list (list cell)))) :
  Forall (fun b => forall g, b = Some g -> forma_ok h l g) bande ->
  Forall (forma_ok h l) (omap (fun b => b) bande).
Proof.
  induction 1 as [|b bande Hb _ IH]; [constructor|].
  destruct b as [g|]; cbn; [constructor; auto|exact IH].
Qed.

Lemma somma_generale cfg D (T : datetime) (w : @mondo cell) h l d0 resto g0
    (bande : list (option (list (list cell)))) :
  ora_ultimo_file_di cfg w = Some T ->
  (0 < h)%nat -> (0 < l)%nat ->
  ore_valide cfg w (lista_date T D) = d0 :: resto ->
  banda_di w (path_di cfg d0) = Some g0 -> forma_ok h l g0 ->
  Forall2 (fun ora b => banda_di w (path_di cfg ora) = b
                        /\ forall g, b = Some g -> forma_ok h l g)
          resto bande ->
  exists f0, files w !! path_di cfg d0 = Some f0
    /\ calcolo_cumulata_somma cfg D w =
         (Ok (Sommata
                (fold_left (zip_with (zip_with cell_add)) (omap (fun b => b) bande) g0)
                (from_epsg 4326)
                (map (annotazione cfg w)
                     (ore_scartate cfg w (lista_date T D)))),
          timbra (path_di cfg d0) f0 w).
Proof.
  intros Ha Hh Hl Hval Hb0 Hg0 Hbande.
  assert (Hc0 : classifica w (path_di cfg d0) = Valido).
  { assert (Hin : d0 ∈ ore_valide cfg w (lista_date T D))
      by (rewrite Hval; left).
    unfold ore_valide in Hin. apply list_elem_of_filter in Hin. tauto. }
  destruct (valido_file w _ Hc0) as (f0 & crs0 & Hf0 & _ & Hcont0).
  rewrite Hb0 in Hcont0.
  exists f0. split; [exact Hf0|].
  set (primo := path_di cfg d0) in *.
  assert (Hbande' : Forall2 (fun p b => banda_di (timbra primo f0 w) p = b
                               /\ forall g, b = Some g -> forma_ok h l g)
                            (map (path_di cfg) resto) bande).
  { clear Hval. induction Hbande as [|ora b resto bande [Hb Hg] _ IH];
      cbn [map]; [constructor|].
    constructor; [|exact IH]. split; [|exact Hg].
    rewrite banda_di_timbra by exact Hf0. exact Hb. }
  set (dati := fold_left (zip_with (zip_with cell_add)) (omap (fun b => b) bande) g0).
  assert (Hdati : forma_ok h l dati).
  { apply forma_somma_strati; [exact Hg0|]. apply forma_somma_bande.
    clear -Hbande. induction Hbande as [|? ? ? ? [_ Hg] _ IH];
      constructor; assumption. }
  rewrite (calcolo_cumulata_somma_ancora cfg D T w Ha).
  unfold calcolo_cumulata_finestra. unfold mbind at 1. unfold M_bind, bind.
  rewrite raccogli_file_fold, raccolta_generale, Hval.
  cbn [app map]. fold primo. esegui.
  rewrite (apri_rw_valido w primo f0 crs0 true g0 Hf0 Hcont0).
  rewrite (somma_restanti_bande h l _ _ bande Hh Hbande' g0 1 Hg0).
  fold dati. unfold grid_size. rewrite (shape_forma h l dati Hh Hdati).
  cbn [fst snd].
  destruct (Nat.eqb_spec (h * l) 0) as [He|_]; [nia|reflexivity].
Qed.

Lemma filtri_lunghezza {A} (P : A -> Prop) `{forall x, Decision (P x)}
    (l : list A) :
  (length (filter P l) + length (filter (fun x => ~ P x) l) = length l)%nat.
Proof.
  induction l as [|x l IH]; [reflexivity|].
  rewrite !filter_cons. destruct (decide (P x)) as [Hp|Hp];
    destruct (decide (~ P x)) as [Hn|Hn]; try contradiction;
    cbn [length]; lia.
Qed.

Lemma ore_valide_scartate cfg (w : @mondo cell) date :
  (length (ore_valide cfg w date) + length (ore_scartate cfg w date)
   = length date)%nat.
Proof. apply filtri_lunghezza. Qed.

(** X4.  A window with missing, empty or corrupted hours is still aggregated:
    the first valid file gives the array, the bands of the other valid
    files are added where they decode and passed over where they do not,
    and the problem list holds the hours that failed the tests and no
    others.  The downstream steps get this sum, EPSG:4326 and the length
    of the problem list. *)
Theorem calcolo_cumulata_parziale cfg D (T : datetime) (w : @mondo cell) h l
    d0 resto g0 (bande : list (option (list (list cell)))) :
  ora_ultimo_file_di cfg w = Some T ->
  (0 < h)%nat -> (0 < l)%nat ->
  ore_valide cfg w (lista_date T D) = d0 :: resto ->
  banda_di w (path_di cfg d0) = Some g0 -> forma_ok h l g0 ->
  Forall2 (fun ora b => banda_di w (path_di cfg ora) = b
                        /\ forall g, b = Some g -> forma_ok h l g)
          resto bande ->
  let data :=
    fold_left (zip_with (zip_with cell_add)) (omap (fun b => b) bande) g0 in
  let file_problematici :=
    map (annotazione cfg w) (ore_scartate cfg w (lista_date T D)) in
  fst (calcolo_cumulata cfg D w) =
    match elaborazione_a_valle D data (from_epsg 4326)
            (length file_problematici) with
    | Ok successo => Ok (successo, file_problematici)
    | Eccezione => Eccezione
    end
  /\ forma_ok h l data
  /\ Z.of_nat (length file_problematici) = D - 1 - Z.of_nat (length resto).
Proof.
  intros Ha Hh Hl Hval Hb0 Hg0 Hbande data file_problematici.
  destruct (somma_generale cfg D T w h l d0 resto g0 bande
              Ha Hh Hl Hval Hb0 Hg0 Hbande) as (f0 & _ & Hs).
  fold data in Hs. fold file_problematici in Hs.
  rewrite (calcolo_cumulata_sommata _ _ _ _ _ _ _ Hs). cbn [fst].
  split; [reflexivity|]. split.
  - apply forma_somma_strati; [exact Hg0|]. apply forma_somma_bande.
    clear -Hbande. induction Hbande as [|? ? ? ? [_ Hg] _ IH];
      constructor; assumption.
  - assert (HD : 0 <= D).
    { destruct (Z_lt_le_dec D 0) as [Hneg|]; [|assumption].
      unfold ore_valide, lista_date in Hval.
      rewrite seqZ_nil in Hval by lia. discriminate. }
    pose proof (ore_valide_scartate cfg w (lista_date T D)) as Hlen.
    pose proof (lista_date_lunghezza T D HD) as HlD.
    rewrite Hval in Hlen. cbn [length] in Hlen.
    unfold file_problematici. rewrite length_map. lia.
Qed.

(** X5.  When the band of the first valid file does not decode, the run ends
    with [False] and the problem list of the collection loop, whatever the
    other files hold.  That file has been opened for update all the same:
    it now carries EPSG:4326; every other file, and every band, is as
    before. *)
Theorem calcolo_cumulata_primo_file_illeggibile cfg D (T : datetime)
    (w : @mondo cell) d0 resto :
  ora_ultimo_file_di cfg w = Some T ->
  ore_valide cfg w (lista_date T D) = d0 :: resto ->
  banda_di w (path_di cfg d0) = None ->
  exists w',
    calcolo_cumulata cfg D w =
      (Ok (false, map (annotazione cfg w)
                      (ore_scartate cfg w (lista_date T D))), w')
    /\ crs_di w' (path_di cfg d0) = Some (from_epsg 4326)
    /\ (forall p, p <> path_di cfg d0 -> files w' !! p = files w !! p)
    /\ (forall p, banda_di w' p = banda_di w p).
Proof.
  intros Ha Hval Hb0.
  destruct (calcolo_cumulata_finestra_lettura cfg D T w d0 resto Hval)
    as (f0 & Hf0 & _ & Hcont & Hfin).
  rewrite Hb0 in Hfin.
  destruct (timbra_dati w (path_di cfg d0) f0 Hf0)
    as (_ & _ & Hb & _ & Haltri & Hcrs).
  exists (timbra (path_di cfg d0) f0 w). split.
  - apply calcolo_cumulata_interrotta.
    rewrite (calcolo_cumulata_somma_ancora cfg D T w Ha). exact Hfin.
  - split; [apply Hcrs, Hcont|]. split; [exact Haltri|exact Hb].
Qed.

(** X6.  When today's directory is not there, or is empty, [calcolo_cumulata]
    returns [False] with an empty problem list for every duration and
    leaves the archive as it is: no hour is tested. *)
Theorem calcolo_cumulata_senza_cartella_di_oggi cfg D (w : @mondo cell) :
  dirs w !! path_oggi_di cfg w = None
  \/ dirs w !! path_oggi_di cfg w = Some [] ->
  calcolo_cumulata cfg D w = (Ok (false, []), w).
Proof.
  intros Hd. apply calcolo_cumulata_interrotta.
  unfold calcolo_cumulata_somma. esegui.
  rewrite (ultimo_file_assente cfg w Hd). reflexivity.
Qed.

(** ** The main loop and the mail file *)

Lemma stesso_archivio_refl (w : @mondo cell) : stesso_archivio w w.
Proof. repeat split. Qed.

Lemma stesso_archivio_dopo cfg D (w w0 : @mondo cell) :
  stesso_archivio w w0 ->
  stesso_archivio (snd (calcolo_cumulata cfg D w)) w0.
Proof.
  intros (Hd & Ha & Hc & Hb).
  destruct (calcolo_cumulata_conserva cfg D w) as (Hc' & Hd' & Ha' & Hb').
  split; [congruence|]. split; [congruence|]. split.
  - intros p. rewrite Hc'. apply Hc.
  - intros p. rewrite Hb'. apply Hb.
Qed.

(** What [calcolo_cumulata] returns is the same on two archives on which
    the code sees the same. *)
Lemma esito_cumulata_simile cfg D (w1 w : @mondo cell) :
  stesso_archivio w1 w -> esito_cumulata cfg D w1 = esito_cumulata cfg D w.
Proof.
  intros (Hd & Ha & Hc & Hb). unfold esito_cumulata, path_oggi_di.
  rewrite Hd, Ha.
  destruct (dirs w !! _ ≫= last) as [u|]; [|reflexivity].
  destruct (strptime _ "%Y%m%d %H") as [T|]; [|reflexivity]. cbv zeta.
  assert (Hv : ore_valide cfg w1 (lista_date T D)
               = ore_valide cfg w (lista_date T D)).
  { unfold ore_valide. apply list_filter_iff. intros ora.
    rewrite Hc. reflexivity. }
  assert (Hs : ore_scartate cfg w1 (lista_date T D)
               = ore_scartate cfg w (lista_date T D)).
  { unfold ore_scartate. apply list_filter_iff. intros ora.
    rewrite Hc. reflexivity. }
  assert (Hann : forall ora, annotazione cfg w1 ora = annotazione cfg w ora).
  { intros ora. unfold annotazione. rewrite Hc. reflexivity. }
  rewrite Hv, Hs, (map_ext _ _ Hann).
  destruct (ore_valide cfg w (lista_date T D)) as [|d0 resto]; [reflexivity|].
  rewrite Hb. destruct (banda_di w (path_di cfg d0)) as [g0|]; [|reflexivity].
  rewrite (somma_stesse_bande w1 w Hb). reflexivity.
Qed.

Lemma main_elaborazione_passo cfg durate :
  forall ris (w0 w : @mondo cell),
  stesso_archivio w w0 ->
  exists ris' w',
    main_elaborazione cfg durate ris w = (Ok ris', w')
    /\ (forall d, d ∈ durate ->
          ris' !! d = Some (voce_di (fst (calcolo_cumulata cfg d w0))))
    /\ (forall d, d ∉ durate -> ris' !! d = ris !! d)
    /\ stesso_archivio w' w0.
Proof.
  induction durate as [|durata resto IH]; intros ris w0 w Hsim.
  - exists ris, w. cbn. split; [reflexivity|].
    split; [intros d Hd; inversion Hd|]. auto.
  - assert (Hpasso :
      main_elaborazione cfg (durata :: resto) ris w =
        main_elaborazione cfg resto
          (<[durata := voce_di (fst (calcolo_cumulata cfg durata w))]> ris)
          (snd (calcolo_cumulata cfg durata w))).
    { cbn [main_elaborazione]. esegui.
      destruct (calcolo_cumulata cfg durata w) as [[[s fp]|] w1];
        reflexivity. }
    assert (Hesito : fst (calcolo_cumulata cfg durata w)
                     = fst (calcolo_cumulata cfg durata w0)).
    { rewrite (proj1 (calcolo_cumulata_lettura cfg durata w)),
        (proj1 (calcolo_cumulata_lettura cfg durata w0)).
      apply esito_cumulata_simile, Hsim. }
    rewrite Hpasso, Hesito.
    destruct (IH (<[durata := voce_di (fst (calcolo_cumulata cfg durata w0))]>
                    ris)
                 w0 (snd (calcolo_cumulata cfg durata w))
                 (stesso_archivio_dopo cfg durata w w0 Hsim))
      as (ris' & w' & Hm & Hin & Hout & Hsim').
    exists ris', w'. split; [exact Hm|]. split; [|split; [|exact Hsim']].
    + intros d Hel. destruct (decide (d ∈ resto)) as [Hr|Hr];
        [apply Hin, Hr|].
      apply elem_of_cons in Hel as [->|Hel]; [|contradiction].
      rewrite (Hout _ Hr). apply lookup_insert_eq.
    + intros d Hnot. apply not_elem_of_cons in Hnot as [Hne Hnot].
      rewrite (Hout _ Hnot). apply lookup_insert_ne. congruence.
Qed.

(** X8.  The first loop of [main] never raises and leaves an entry for every
    configured duration and for no other key.  The entry of a duration is
    what [calcolo_cumulata] returns for it on the archive as it was when
    the loop started: its success flag, the length of its problem list and
    the list, or [False], [-1] and an empty list when it raises.  The runs
    before it do not change the outcome (the clock stands still and the one
    file they may rewrite keeps its band and passes the same tests), and
    the loop changes neither the listings nor which files pass the tests. *)
Theorem main_elaborazione_contenuta cfg durate ris (w : @mondo cell) :
  exists ris' w',
    main_elaborazione cfg durate ris w = (Ok ris', w')
    /\ (forall d, d ∈ durate ->
          ris' !! d = Some (voce_di (fst (calcolo_cumulata cfg d w))))
    /\ (forall d, d ∉ durate -> ris' !! d = ris !! d)
    /\ (forall p, classifica w' p = classifica w p)
    /\ dirs w' = dirs w /\ adesso w' = adesso w.
Proof.
  destruct (main_elaborazione_passo cfg durate ris w w
              (stesso_archivio_refl w))
    as (ris' & w' & Hm & Hin & Hout & Hd & Ha & Hc & _).
  exists ris', w'. auto 10.
Qed.

(** X7.  The anchor hour is read from characters 4 to 13 of the last name that
    [os.listdir] gives for today's directory.  When [strptime] refuses
    them, [calcolo_cumulata] raises for every duration without touching the
    archive, and the loop of [main] records [False], [-1] and no file for
    each of them. *)
Theorem calcolo_cumulata_nome_non_analizzabile cfg (w : @mondo cell)
    dir_list ultimo_file :
  dirs w !! path_oggi_di cfg w = Some dir_list ->
  last dir_list = Some ultimo_file ->
  strptime (py_slice 4 8 ultimo_file +:+ py_slice 8 10 ultimo_file
            +:+ py_slice 10 12 ultimo_file +:+ " "
            +:+ py_slice 12 14 ultimo_file) "%Y%m%d %H" = None ->
  (forall D, calcolo_cumulata cfg D w = (Eccezione, w))
  /\ forall durate ris,
       exists ris',
         main_elaborazione cfg durate ris w = (Ok ris', w)
         /\ forall d, d ∈ durate ->
              ris' !! d = Some {| successo := false; problemi := -1;
                                  file_problematici := [] |}.
Proof.
  intros Hd Hl Hp.
  assert (Hraise : forall D, calcolo_cumulata cfg D w = (Eccezione, w)).
  { intros D. unfold calcolo_cumulata, calcolo_cumulata_somma. esegui.
    rewrite (ultimo_file_presente cfg w dir_list ultimo_file Hd Hl).
    rewrite Hp. reflexivity. }
  split; [exact Hraise|].
  induction durate as [|durata resto IH]; intros ris.
  - exists ris. split; [reflexivity|]. intros d Hel. inversion Hel.
  - cbn [main_elaborazione]. esegui. rewrite Hraise.
    set (r := {| successo := false; problemi := -1;
                 file_problematici := [] |}).
    destruct (IH (<[durata := r]> ris)) as (ris' & Hm & Hin).
    exists ris'. split; [exact Hm|].
    intros d Hel. destruct (decide (d ∈ resto)) as [Hr|Hr]; [apply Hin, Hr|].
    apply elem_of_cons in Hel as [->|Hel]; [|contradiction].
    destruct (main_elaborazione_passo cfg resto (<[durata := r]> ris) w w
                (stesso_archivio_refl w))
      as (ris2 & w2 & Hm2 & _ & Hout & _).
    rewrite Hm in Hm2. injection Hm2 as <- _.
    rewrite (Hout _ Hr). apply lookup_insert_eq.
Qed.

Lemma lista_di_append (a b : string) :
  list_ascii_of_string (a +:+ b) =
    list_ascii_of_string a ++ list_ascii_of_string b.
Proof.
  induction a as [|c a IH]; [reflexivity|]. cbn. rewrite <- IH. reflexivity.
Qed.

Lemma conta_a_capo_append (a b : string) :
  conta_a_capo (a +:+ b) = (conta_a_capo a + conta_a_capo b)%nat.
Proof.
  unfold conta_a_capo.
  rewrite lista_di_append, List.filter_app, length_app. reflexivity.
Qed.

Lemma sostituisci_a_capo_conta (s : string) :
  conta_a_capo (sostituisci_a_capo s) = 0%nat
  /\ String.length (sostituisci_a_capo s) =
       (String.length s + 3 * conta_a_capo s)%nat.
Proof.
  induction s as [|c s [IH1 IH2]]; [split; reflexivity|].
  cbn [sostituisci_a_capo]. unfold conta_a_capo in *.
  cbn [list_ascii_of_string List.filter].
  destruct (Ascii.eqb c "010"%char) eqn:Hc.
  - split.
    + exact IH1.
    + change (String.length ("<br>" +:+ sostituisci_a_capo s))
        with (4 + String.length (sostituisci_a_capo s))%nat.
      rewrite IH2. cbn [String.length length]. lia.
  - cbn [list_ascii_of_string List.filter String.length]. rewrite Hc.
    split; [exact IH1|]. lia.
Qed.

Lemma righe_cons (s : string) : exists r rs, righe s = r :: rs.
Proof.
  destruct s as [|c s]; [eexists _, _; reflexivity|].
  cbn [righe]. destruct (Ascii.eqb c "010"%char); [eexists _, _; reflexivity|].
  destruct (righe s); eexists _, _; reflexivity.
Qed.

Lemma concat_cons_carattere sep c r rs :
  String.concat sep (String c r :: rs) = String c (String.concat sep (r :: rs)).
Proof. destruct rs; reflexivity. Qed.

(** Replacing the line feeds is joining the pieces by the break. *)
Lemma sostituisci_righe (s : string) :
  sostituisci_a_capo s = String.concat "<br>" (righe s)
  /\ String.concat a_capo (righe s) = s
  /\ Forall (fun r => conta_a_capo r = 0%nat) (righe s).
Proof.
  induction s as [|c s (IH1 & IH2 & IH3)].
  - split; [reflexivity|]. split; [reflexivity|]. repeat constructor.
  - cbn [sostituisci_a_capo righe].
    destruct (righe_cons s) as (r & rs & Hr). rewrite Hr in *.
    destruct (Ascii.eqb c "010"%char) eqn:Hc.
    + apply Ascii.eqb_eq in Hc. subst c. split; [|split].
      * rewrite IH1. reflexivity.
      * change (String.concat a_capo (EmptyString :: r :: rs))
          with (a_capo +:+ String.concat a_capo (r :: rs)).
        rewrite IH2. reflexivity.
      * constructor; [reflexivity|exact IH3].
    + split; [|split].
      * rewrite IH1, concat_cons_carattere. reflexivity.
      * rewrite concat_cons_carattere, IH2. reflexivity.
      * inversion IH3 as [|? ? Hr0 Hrs]; subst. constructor; [|exact Hrs].
        unfold conta_a_capo in *. cbn [list_ascii_of_string List.filter].
        rewrite Hc. exact Hr0.
Qed.

(** X10.  What is written to [mail_output.txt].  For a mail to send: [YES],
    a line feed, and the pieces of the content between its line feeds
    joined by [<br>]; the pieces have no line feed and, joined by line
    feeds, are the content.  For no mail: the fixed [NO] text.  Either way
    the text has one line feed only, the one that ends its first line. *)
Theorem scrivi_file_mail_output_una_riga deve_inviare_mail contenuto_mail :
  scrivi_file_mail_output true contenuto_mail
    = "YES" +:+ a_capo +:+ String.concat "<br>" (righe contenuto_mail)
  /\ String.concat a_capo (righe contenuto_mail) = contenuto_mail
  /\ Forall (fun r => conta_a_capo r = 0%nat) (righe contenuto_mail)
  /\ scrivi_file_mail_output false contenuto_mail
     = "NO" +:+ a_capo +:+ "No email to send - complete archive"
  /\ conta_a_capo (scrivi_file_mail_output deve_inviare_mail contenuto_mail)
     = 1%nat.
Proof.
  destruct (sostituisci_righe contenuto_mail) as (Hs & Hj & Hr).
  pose proof (sostituisci_a_capo_conta contenuto_mail) as [Hzero _].
  split; [|split; [exact Hj|split; [exact Hr|split; [reflexivity|]]]].
  - unfold scrivi_file_mail_output. rewrite Hs. reflexivity.
  - unfold scrivi_file_mail_output. destruct deve_inviare_mail.
    + rewrite conta_a_capo_append, Hzero. reflexivity.
    + reflexivity.
Qed.

(** X9.  [main] ends without raising, and what it writes to [mail_output.txt]
    is decided by the archive as it was at the start: the [NO] text exactly
    when every hour of the control window, counted from the start of the
    process, has a valid file, and a [YES] text otherwise. *)
Theorem main_file_mail cfg durate excel_presente (w : @mondo cell) :
  exists ris testo w',
    main cfg durate excel_presente w = (Ok (ris, testo), w')
    /\ (Forall (fun ora => classifica w (path_di cfg ora) = Valido)
               (ore_da_controllare cfg (adesso w))
        <-> testo = scrivi_file_mail_output false EmptyString)
    /\ (~ Forall (fun ora => classifica w (path_di cfg ora) = Valido)
                 (ore_da_controllare cfg (adesso w))
        <-> py_slice 0 4 testo = "YES" +:+ a_capo)
    /\ (forall p, classifica w' p = classifica w p).
Proof.
  destruct (main_elaborazione_passo cfg durate ∅ w w
              (stesso_archivio_refl w))
    as (ris & w1 & Hm & _ & _ & _ & _ & Hc & _).
  destruct (controllo_esito cfg (adesso w) w1)
    as ((fm & fc & Hs) & Hiff & _).
  rewrite Hs in Hiff. cbn [fst] in Hiff.
  assert (Hval : Forall (fun ora => classifica w1 (path_di cfg ora) = Valido)
                        (ore_da_controllare cfg (adesso w))
                 <-> Forall (fun ora => classifica w (path_di cfg ora) = Valido)
                            (ore_da_controllare cfg (adesso w))).
  { split; intros Hall; eapply Forall_impl; try exact Hall;
      cbv beta; intros ora; rewrite Hc; auto. }
  rewrite Hval in Hiff. clear Hval.
  unfold main, datetime_now. esegui. rewrite Hm, Hs.
  destruct ((length fm + length fc)%nat =? 0)%nat eqn:Htot.
  - apply Nat.eqb_eq in Htot.
    assert (Hnil : fm = [] /\ fc = []).
    { destruct fm, fc; cbn in Htot; try lia. auto. }
    destruct Hnil as [-> ->].
    eexists _, _, _. split; [reflexivity|].
    assert (Hall : Forall (fun ora => classifica w (path_di cfg ora) = Valido)
                          (ore_da_controllare cfg (adesso w)))
      by (apply Hiff; reflexivity).
    split; [tauto|]. split; [|exact Hc].
    split; [tauto|]. cbn. discriminate.
  - apply Nat.eqb_neq in Htot.
    assert (Hno : ~ Forall (fun ora => classifica w (path_di cfg ora) = Valido)
                           (ore_da_controllare cfg (adesso w))).
    { intros Hall. apply Hiff in Hall. injection Hall as -> ->.
      cbn in Htot. lia. }
    eexists _, _, _. split; [reflexivity|].
    split; [|split; [|exact Hc]].
    + split; [tauto|]. unfold scrivi_file_mail_output. cbn. discriminate.
    + split; [reflexivity|tauto].
Qed.

(** X3.  [verifica_file_tiff] never raises and never writes.  It answers [True]
    exactly when the file is there, opens, and its first window decodes;
    whether the whole band decodes plays no part. *)
Theorem verifica_file_tiff_contenuta (w : @mondo cell) file_path :
  exists valido,
    verifica_file_tiff file_path w = (Ok valido, w)
    /\ (valido = true
        <-> exists f crs banda,
              files w !! file_path = Some f
              /\ cont f = Aperto crs true banda).
Proof.
  unfold verifica_file_tiff, rasterio_leggi_campione. esegui.
  destruct (files w !! file_path) as [[sz [|crs [|] banda]]|] eqn:Hf;
    eexists; (split; [reflexivity|]); split;
    try discriminate; try (intros _; eauto; fail);
    try (intros (f & c & b & [= <-] & Hc); discriminate Hc);
    try (intros (f & c & b & Hx & _); discriminate Hx).
Qed.

(** X21.  The mail names at most twenty missing and twenty corrupted
    files: two runs whose lists have the same lengths and the same first
    twenty names get the same mail, whatever the names after them. *)
Theorem genera_contenuto_mail_primi_venti cfg durate (ora_inizio : datetime)
    file_mancanti file_mancanti' file_corrotti file_corrotti' mappe_mancanti :
  length file_mancanti = length file_mancanti' ->
  take 20 file_mancanti = take 20 file_mancanti' ->
  length file_corrotti = length file_corrotti' ->
  take 20 file_corrotti = take 20 file_corrotti' ->
  genera_contenuto_mail cfg durate ora_inizio file_mancanti file_corrotti
    mappe_mancanti
  = genera_contenuto_mail cfg durate ora_inizio file_mancanti' file_corrotti'
      mappe_mancanti.
Proof.
  intros Hlm Htm Hlc Htc. unfold genera_contenuto_mail, elenco.
  rewrite Hlm, Htm, Hlc, Htc. reflexivity.
Qed.

End ArchivioAltroTeoremi.

(** ** The threshold of the Peq0 expression over the reals *)

Section Peq0Altro.
Local Open Scope R_scope.



End Peq0Altro.

(** ** The values of a converted row *)

Section FogliAltro.
Context `{Python}.
Local Open Scope R_scope.







End FogliAltro.

(** ** Zone labels *)

Section ZoneAltro.
Context `{Python}.

Lemma e_cifra_valore c : e_cifra c = true -> 0 <= valore_cifra c <= 9.
Proof.
  unfold e_cifra, valore_cifra. intros Hc.
  apply andb_true_iff in Hc as [H1 H2].
  apply Nat.leb_le in H1, H2. lia.
Qed.

Lemma fullmatch_cifre_valore prefisso s d :
  fullmatch_cifre prefisso s = Some d -> 0 <= int_di_cifre d <= 99.
Proof.
  unfold fullmatch_cifre, int_di_cifre.
  destruct (String.prefix prefisso s); [|discriminate].
  set (resto := String.substring _ _ s).
  destruct (list_ascii_of_string resto) as [|a [|b [|? ?]]] eqn:Hl;
    try discriminate.
  - destruct (e_cifra a) eqn:Ha; [|discriminate].
    intros [= <-]. rewrite Hl. cbn.
    pose proof (e_cifra_valore a Ha). lia.
  - destruct (e_cifra a) eqn:Ha; [|discriminate].
    destruct (e_cifra b) eqn:Hb; [|discriminate].
    intros [= <-]. rewrite Hl. cbn.
    pose proof (e_cifra_valore a Ha). pose proof (e_cifra_valore b Hb). lia.
Qed.

Lemma cifre_finali_valore stem n : cifre_finali stem = Some n -> 0 <= n <= 99.
Proof.
  unfold cifre_finali.
  set (l := match rev (list_ascii_of_string stem) with
            | c :: l' => if Ascii.eqb c "010"%char then l'
                         else rev (list_ascii_of_string stem)
            | [] => rev (list_ascii_of_string stem)
            end).
  destruct l as [|c1 [|c2 l']].
  - discriminate.
  - destruct (e_cifra c1) eqn:H1; [|discriminate]. intros [= <-].
    pose proof (e_cifra_valore c1 H1). lia.
  - destruct (e_cifra c1) eqn:H1; [|discriminate].
    destruct (e_cifra c2) eqn:H2; cbn [andb]; intros [= <-].
    + pose proof (e_cifra_valore c1 H1). pose proof (e_cifra_valore c2 H2).
      lia.
    + pose proof (e_cifra_valore c1 H1). lia.
Qed.

Lemma intero_tra_0_e_100_valore q n :
  intero_tra_0_e_100 q = Some n -> 0 <= n <= 99.
Proof.
  unfold intero_tra_0_e_100.
  destruct (Zpos (Qden (Qred q)) =? 1); [|discriminate].
  destruct (0 <? Qnum (Qred q)) eqn:H0; [|discriminate].
  destruct (Qnum (Qred q) <? 100) eqn:H1; [|discriminate].
  cbn. intros [= <-]. lia.
Qed.

(** A label [IM-nn] is left as it is by the string steps of
    [normalizza_zona], and its digits are read back. *)
Lemma etichetta_canonica n :
  0 <= n <= 99 ->
  togli_spazi (upper (strip ("IM-" +:+ cifre 2 n))) = "IM-" +:+ cifre 2 n
  /\ fullmatch_cifre "IM" ("IM-" +:+ cifre 2 n) = None
  /\ fullmatch_cifre "IM-" ("IM-" +:+ cifre 2 n) = Some (cifre 2 n)
  /\ int_di_cifre (cifre 2 n) = n.
Proof.
  intros Hn.
  assert (Hall :
    forallb
      (fun n =>
         String.eqb (togli_spazi (upper (strip ("IM-" +:+ cifre 2 n))))
                    ("IM-" +:+ cifre 2 n)
         && match fullmatch_cifre "IM" ("IM-" +:+ cifre 2 n) with
            | None => true
            | Some _ => false
            end
         && match fullmatch_cifre "IM-" ("IM-" +:+ cifre 2 n) with
            | Some d => String.eqb d (cifre 2 n)
            | None => false
            end
         && (int_di_cifre (cifre 2 n) =? n))
      (seqZ 0 100) = true) by (vm_compute; reflexivity).
  rewrite forallb_forall in Hall.
  assert (Hin : In n (seqZ 0 100)).
  { apply list_elem_of_In, elem_of_seqZ. lia. }
  specialize (Hall n Hin). cbv beta in Hall.
  apply andb_true_iff in Hall as [Hall H4].
  apply andb_true_iff in Hall as [Hall H3].
  apply andb_true_iff in Hall as [H1 H2].
  apply String.eqb_eq in H1. apply Z.eqb_eq in H4.
  split; [exact H1|]. split; [|split; [|exact H4]].
  - destruct (fullmatch_cifre "IM" ("IM-" +:+ cifre 2 n));
      [discriminate|reflexivity].
  - destruct (fullmatch_cifre "IM-" ("IM-" +:+ cifre 2 n)) as [d|];
      [|discriminate].
    apply String.eqb_eq in H3. congruence.
Qed.

Lemma etichetta_punto_fisso n :
  0 <= n <= 99 ->
  float_di_str ("IM-" +:+ cifre 2 n) = None ->
  normalizza_zona (PyStr ("IM-" +:+ cifre 2 n)) = Some ("IM-" +:+ cifre 2 n).
Proof.
  intros Hn Hf.
  destruct (etichetta_canonica n Hn) as (H1 & H2 & H3 & H4).
  unfold normalizza_zona. cbn [py_float py_str]. rewrite Hf. cbn [mbind option_bind].
  rewrite H1, H2, H3, H4. reflexivity.
Qed.

(** X13.  Whatever [normalizza_zona] recognises, it returns [IM-] followed by the
    two digits of a number from 0 to 99; and it maps such a label to
    itself, [float] refusing the label as Python's does. *)
Theorem normalizza_zona_canonica z s :
  normalizza_zona z = Some s ->
  exists n, 0 <= n <= 99
    /\ s = "IM-" +:+ cifre 2 n
    /\ (float_di_str s = None -> normalizza_zona (PyStr s) = Some s).
Proof.
  intros Hz.
  assert (Hn : exists n, 0 <= n <= 99 /\ s = "IM-" +:+ cifre 2 n).
  { unfold normalizza_zona in Hz.
    destruct (py_float z ≫= intero_tra_0_e_100) as [n|] eqn:Hnum.
    - assert (Hs : s = "IM-" +:+ cifre 2 n)
        by (destruct z; try discriminate; congruence).
      exists n. split; [|exact Hs].
      destruct (py_float z) as [q|]; [|discriminate].
      apply (intero_tra_0_e_100_valore q n Hnum).
    - set (z_str := togli_spazi (upper (strip (py_str z)))) in Hz.
      destruct (fullmatch_cifre "IM" z_str) as [d|] eqn:H1.
      + exists (int_di_cifre d).
        split; [apply (fullmatch_cifre_valore _ _ _ H1)|].
        destruct z; try discriminate; congruence.
      + destruct (fullmatch_cifre "IM-" z_str) as [d|] eqn:H2.
        * exists (int_di_cifre d).
          split; [apply (fullmatch_cifre_valore _ _ _ H2)|].
          destruct z; try discriminate; congruence.
        * destruct z; discriminate. }
  destruct Hn as (n & Hn & ->).
  exists n. split; [exact Hn|]. split; [reflexivity|].
  apply etichetta_punto_fisso, Hn.
Qed.

(** X14.  The key that [calcola_cn_per_zone] gives to a raster is a label that
    [normalizza_zona] returns unchanged: a sheet that names its zones by
    these keys finds every raster. *)
Theorem chiave_zona_canonica p key :
  chiave_zona p = Some key ->
  exists n, 0 <= n <= 99
    /\ key = "IM-" +:+ cifre 2 n
    /\ (float_di_str key = None -> normalizza_zona (PyStr key) = Some key).
Proof.
  unfold chiave_zona. intros Hk.
  destruct (cifre_finali (stem_di p)) as [n|] eqn:Hn; [|discriminate].
  cbn in Hk. injection Hk as <-.
  pose proof (cifre_finali_valore _ _ Hn) as Hr.
  exists n. split; [exact Hr|]. split; [reflexivity|].
  apply etichetta_punto_fisso, Hr.
Qed.

(** X15.  An integer from 1 to 99, and a float that equals one, is the number of
    its zone. *)
Theorem normalizza_zona_numeri n :
  0 < n < 100 ->
  normalizza_zona (PyInt n) = Some ("IM-" +:+ cifre 2 n)
  /\ forall q, (q == inject_Z n)%Q ->
       normalizza_zona (PyFloat q) = Some ("IM-" +:+ cifre 2 n).
Proof.
  intros Hn.
  assert (Hq : forall q, (q == inject_Z n)%Q ->
                 intero_tra_0_e_100 q = Some n).
  { intros q Heq. unfold intero_tra_0_e_100.
    rewrite (Qred_complete _ _ Heq).
    assert (Hred : Qred (inject_Z n) = inject_Z n).
    { unfold Qred, inject_Z.
      pose proof (Z.ggcd_gcd n 1) as Hg.
      pose proof (Z.ggcd_correct_divisors n 1) as Hd.
      destruct (Z.ggcd n 1) as [g [aa bb]]. cbn [fst] in Hg.
      rewrite Z.gcd_1_r in Hg. subst g. destruct Hd as [Ha Hb].
      assert (aa = n) by lia. assert (bb = 1) by lia. subst aa bb.
      reflexivity. }
    rewrite Hred. cbn [inject_Z Qnum Qden].
    destruct (Z.ltb_spec 0 n); [|lia].
    destruct (Z.ltb_spec n 100); [|lia]. reflexivity. }
  split.
  - unfold normalizza_zona. cbn [py_float mbind option_bind].
    rewrite (Hq (inject_Z n)) by reflexivity. reflexivity.
  - intros q Heq. unfold normalizza_zona. cbn [py_float mbind option_bind].
    rewrite (Hq q Heq). reflexivity.
Qed.

End ZoneAltro.

(** ** Recomputing the curve numbers *)

Section CurveNumberAltro.

Lemma ricalcola_esito rasters :
  forall zc mt w,
    Forall (fun r => chiave_zona (percorso r) = None
                     \/ exists v t, media r = Ok v
                                    /\ mtime w !! percorso r = Some t)
           rasters ->
    exists zc' mt' w',
      ricalcola rasters zc mt w = (Ok (zc', mt'), w')
      /\ aperture w' = aperture w ++ map percorso (numerati rasters)
      /\ cache w' = cache w /\ mtime w' = mtime w /\ asc w' = asc w
      /\ (forall key,
            zc' !! key =
              match last (della_zona key rasters) with
              | Some r => match media r with Ok v => Some v | Eccezione => None end
              | None => zc !! key
              end)
      /\ (forall p,
            mt' !! p =
              if decide (p ∈ map percorso (numerati rasters))
              then mtime w !! p else mt !! p).
Proof.
  unfold della_zona, numerati.
  induction rasters as [|r resto IH]; intros zc mt w Hall.
  - exists zc, mt, w. cbn. rewrite app_nil_r.
    repeat split; reflexivity.
  - apply Forall_cons in Hall as [Hr Hall]. cbn [ricalcola].
    destruct (chiave_zona (percorso r)) as [k|] eqn:Hk.
    + destruct Hr as [Hr|(v & t & Hv & Ht)]; [discriminate|].
      rewrite Hv. cbn [apri mtime]. rewrite Ht.
      destruct (IH (<[k := v]> zc) (<[percorso r := t]> mt)
                   (apri (percorso r) w) Hall)
        as (zc' & mt' & w' & Hric & Hap & Hc & Hm & Ha & Hzc & Hmt).
      exists zc', mt', w'. split; [exact Hric|].
      assert (Hnum : filter (fun r => is_Some (chiave_zona (percorso r)))
                            (r :: resto)
                     = r :: filter (fun r => is_Some (chiave_zona (percorso r)))
                                   resto).
      { rewrite filter_cons. destruct (decide _) as [_|Hno]; [reflexivity|].
        exfalso. apply Hno. rewrite Hk. eauto. }
      rewrite Hnum. cbn [map].
      split; [rewrite Hap; cbn [apri aperture]; rewrite <- app_assoc;
              reflexivity|].
      split; [exact Hc|]. split; [exact Hm|]. split; [exact Ha|]. split.
      * intros key. rewrite Hzc, filter_cons.
        destruct (decide (chiave_zona (percorso r) = Some key)) as [He|Hne].
        -- rewrite last_cons.
           destruct (last (filter _ resto)); [reflexivity|].
           rewrite Hk in He. injection He as ->.
           rewrite lookup_insert_eq, Hv. reflexivity.
        -- destruct (last (filter _ resto)); [reflexivity|].
           apply lookup_insert_ne. congruence.
      * intros p. rewrite Hmt. cbn [apri mtime].
        destruct (decide (p ∈ map percorso
                                (filter (fun r => is_Some (chiave_zona (percorso r)))
                                        resto))) as [Hin|Hnin].
        -- destruct (decide _) as [_|Hno]; [reflexivity|].
           exfalso. apply Hno. right. exact Hin.
        -- destruct (decide (p = percorso r)) as [->|Hne].
           ++ rewrite lookup_insert_eq.
              destruct (decide _) as [_|Hno]; [congruence|].
              exfalso. apply Hno. left.
           ++ rewrite lookup_insert_ne by congruence.
              destruct (decide _) as [Hin|_]; [|reflexivity].
              apply elem_of_cons in Hin as [?|?]; contradiction.
    + destruct (IH zc mt w Hall)
        as (zc' & mt' & w' & Hric & Hap & Hc & Hm & Ha & Hzc & Hmt).
      exists zc', mt', w'. split; [exact Hric|].
      assert (Hnum : filter (fun r => is_Some (chiave_zona (percorso r)))
                            (r :: resto)
                     = filter (fun r => is_Some (chiave_zona (percorso r)))
                              resto).
      { rewrite filter_cons. destruct (decide _) as [Hsi|_]; [|reflexivity].
        rewrite Hk in Hsi. destruct Hsi; discriminate. }
      rewrite Hnum.
      split; [exact Hap|]. split; [exact Hc|]. split; [exact Hm|].
      split; [exact Ha|]. split; [|exact Hmt].
      intros key. rewrite Hzc, filter_cons.
      destruct (decide _) as [He|_]; [congruence|]. reflexivity.
Qed.

(** X16.  When the cache is not taken and every raster with a zone number can be
    read, the rasters with a number are opened once each, in order, and
    those without are not opened.  A zone gets the average of the last
    raster that carries its number; the new cache holds these averages and
    the modification times of the opened rasters. *)
Theorem calcola_cn_per_zone_ricalcolo w :
  cache_valida w = None ->
  Forall (fun r => chiave_zona (percorso r) = None
                   \/ exists v t, media r = Ok v
                                  /\ mtime w !! percorso r = Some t)
         (asc w) ->
  exists zone_cn mtimes w',
    calcola_cn_per_zone w = (Ok zone_cn, w')
    /\ cache w' = Some (CacheJson zone_cn mtimes)
    /\ aperture w' = aperture w ++ map percorso (numerati (asc w))
    /\ mtime w' = mtime w /\ asc w' = asc w
    /\ (forall key,
          zone_cn !! key =
            match last (della_zona key (asc w)) with
            | Some r => match media r with Ok v => Some v | Eccezione => None end
            | None => None
            end)
    /\ (forall p,
          mtimes !! p =
            if decide (p ∈ map percorso (numerati (asc w)))
            then mtime w !! p else None).
Proof.
  intros Hv Hall.
  destruct (ricalcola_esito (asc w) ∅ ∅ w Hall)
    as (zc' & mt' & w' & Hric & Hap & Hc & Hm & Ha & Hzc & Hmt).
  exists zc', mt', (scrivi_cache (CacheJson zc' mt') w').
  unfold calcola_cn_per_zone. rewrite Hv, Hric.
  split; [reflexivity|]. split; [reflexivity|].
  split; [exact Hap|]. split; [exact Hm|]. split; [exact Ha|]. split.
  - intros key. rewrite Hzc, lookup_empty. reflexivity.
  - intros p. rewrite Hmt, lookup_empty. reflexivity.
Qed.

Lemma ricalcola_illeggibile rasters r :
  r ∈ rasters -> is_Some (chiave_zona (percorso r)) -> media r = Eccezione ->
  forall zc mt w,
    exists w', ricalcola rasters zc mt w = (Eccezione, w')
               /\ cache w' = cache w /\ mtime w' = mtime w.
Proof.
  intros Hin [k Hk] Hm.
  induction rasters as [|r0 resto IH]; [inversion Hin|].
  intros zc mt w. cbn [ricalcola].
  apply elem_of_cons in Hin as [<-|Hin].
  - rewrite Hk, Hm. eexists. split; [reflexivity|]. auto.
  - destruct (chiave_zona (percorso r0)) as [k0|]; [|apply IH, Hin].
    destruct (media r0) as [v|]; [|eexists; split; [reflexivity|]; auto].
    cbn [apri mtime].
    destruct (mtime w !! percorso r0) as [t|];
      [|eexists; split; [reflexivity|]; auto].
    destruct (IH Hin (<[k0 := v]> zc) (<[percorso r0 := t]> mt)
                 (apri (percorso r0) w)) as (w' & Hric & Hc & Hmt).
    exists w'. split; [exact Hric|]. auto.
Qed.

(** X17.  One raster with a zone number that cannot be read is enough for
    [calcola_cn_per_zone] to raise, once the cache is not taken: the
    averages of the other rasters are lost and the cache file is left as it
    was. *)
Theorem calcola_cn_per_zone_raster_illeggibile w r :
  cache_valida w = None ->
  r ∈ asc w -> is_Some (chiave_zona (percorso r)) -> media r = Eccezione ->
  exists w', calcola_cn_per_zone w = (Eccezione, w')
             /\ cache w' = cache w /\ mtime w' = mtime w.
Proof.
  intros Hv Hin Hk Hm.
  destruct (ricalcola_illeggibile (asc w) r Hin Hk Hm ∅ ∅ w)
    as (w' & Hric & Hc & Hmt).
  exists w'. unfold calcola_cn_per_zone. rewrite Hv, Hric. auto.
Qed.

Lemma ricalcola_senza_numeri rasters :
  Forall (fun r => chiave_zona (percorso r) = None) rasters ->
  forall zc mt w, ricalcola rasters zc mt w = (Ok (zc, mt), w).
Proof.
  induction 1 as [|r resto Hr _ IH]; intros zc mt w; [reflexivity|].
  cbn [ricalcola]. rewrite Hr. apply IH.
Qed.

(** X18.  A cache written while the directory had no raster with a zone number
    records no modification time, and so it is taken by every later call,
    whatever rasters are there by then: the mapping stays empty until the
    cache file is removed. *)
Theorem calcola_cn_per_zone_cache_vuota w :
  cache_valida w = None ->
  Forall (fun r => chiave_zona (percorso r) = None) (asc w) ->
  exists w1,
    calcola_cn_per_zone w = (Ok ∅, w1)
    /\ cache w1 = Some (CacheJson ∅ ∅)
    /\ forall w2, cache w2 = cache w1 ->
         calcola_cn_per_zone w2 = (Ok ∅, w2).
Proof.
  intros Hv Hall.
  exists (scrivi_cache (CacheJson ∅ ∅) w).
  unfold calcola_cn_per_zone at 1.
  rewrite Hv, (ricalcola_senza_numeri (asc w) Hall).
  split; [reflexivity|]. split; [reflexivity|].
  intros w2 Hc2. cbn [scrivi_cache cache] in Hc2.
  unfold calcola_cn_per_zone.
  rewrite (cache_valida_presa w2 ∅ ∅ Hc2); [reflexivity|].
  intros p t Hp. rewrite lookup_empty in Hp. discriminate.
Qed.

End CurveNumberAltro.

(** ** Tables that are not written, and zones without cells *)

Section PercentiliAltro.
Context {cell geom raster : Type} `{Zonale cell geom raster}.

Lemma piu_uno_testo (r : @riga_percentili cell) :
  piu_uno (IM r) = None <-> exists s, IM r = IdStr s.
Proof.
  destruct (IM r) as [n| |s]; cbn; split;
    try discriminate; try (intros [? ?]; discriminate); eauto.
Qed.

(** On a layer whose zones all have their geometry. *)
Lemma calcolo_percentili_senza_tabella cfg (src : option raster)
    (layer : option (list (@riga_zona geom))) :
  calcolo_percentili cfg src layer = None
  <-> src = None \/ layer = None \/ layer = Some []
      \/ exists gdf row s,
           layer = Some gdf /\ row ∈ gdf
           /\ attributi row !! "id" = Some (IdStr s).
Proof.
  unfold calcolo_percentili.
  destruct src as [src|]; cbn [mbind option_bind]; [|tauto].
  destruct layer as [gdf|]; cbn [mbind option_bind]; [|tauto].
  set (f := fun r : @riga_percentili cell => _).
  set (risultati := imap (risultato_zona (PERCENTILI cfg) src) gdf).
  assert (Hvuoto : risultati = [] <-> gdf = []).
  { unfold risultati. destruct gdf; cbn; split; congruence. }
  assert (Hf : forall r, f r = None <-> exists s, IM r = IdStr s).
  { intros r. unfold f. rewrite <- piu_uno_testo.
    destruct (piu_uno (IM r)); cbn; split; congruence. }
  assert (Hm : mapM f risultati = None
               <-> exists row s, row ∈ gdf
                     /\ attributi row !! "id" = Some (IdStr s)).
  { rewrite eq_None_not_Some, mapM_is_Some. split.
    - intros Hno. apply not_Forall_Exists in Hno; [|solve_decision].
      apply Exists_exists in Hno as (r & Hr & Hnone).
      unfold risultati in Hr. apply elem_of_lookup_imap in Hr
        as (i & row & -> & Hrow).
      cbn in Hnone. rewrite <- eq_None_not_Some in Hnone.
      apply Hf in Hnone as (s & Hs). rewrite risultato_zona_IM in Hs.
      exists row, s. split; [eapply list_elem_of_lookup_2, Hrow|].
      destruct (attributi row !! "id") as [v|]; cbn in Hs; congruence.
    - intros (row & s & Hin & Hid) Hall.
      apply list_elem_of_lookup_1 in Hin as (i & Hrow).
      assert (Hr : risultati !! i
                   = Some (risultato_zona (PERCENTILI cfg) src i row)).
      { unfold risultati. rewrite list_lookup_imap, Hrow. reflexivity. }
      pose proof (Forall_lookup_1 _ _ _ _ Hall Hr) as [x Hx]. cbn in Hx.
      assert (Hnone : f (risultato_zona (PERCENTILI cfg) src i row) = None).
      { apply Hf. exists s. rewrite risultato_zona_IM, Hid. reflexivity. }
      congruence. }
  destruct risultati as [|r0 rs] eqn:Hris.
  - split; [|reflexivity]. intros _. right. right. left.
    f_equal. apply Hvuoto. reflexivity.
  - rewrite Hm. split.
    + intros (row & s & Hin & Hid). right. right. right.
      exists gdf, row, s. auto.
    + intros [Hs|[Hl|[Hl|(gdf' & row & s & Hl & Hin & Hid)]]];
        try discriminate.
      * injection Hl as ->.
        assert (r0 :: rs = []) by (apply Hvuoto; reflexivity). discriminate.
      * injection Hl as <-. eauto.
Qed.

Lemma zone_complete_lettura (gdf : list (@zona_layer geom)) :
  match mapM zona_completa gdf with
  | None => exists z, z ∈ gdf /\ geometria z = None
  | Some rows =>
    Forall (fun z => geometria z <> None) gdf
    /\ Forall2 (fun z row => attributi row = attributi_zona z) gdf rows
  end.
Proof.
  induction gdf as [|z gdf IH].
  { simpl. split; [apply Forall_nil_2|apply Forall2_nil_2]. }
  change (mapM zona_completa (z :: gdf))
    with (zona_completa z ≫=
            (fun y => mapM zona_completa gdf ≫= fun k => mret (y :: k))).
  destruct (mapM zona_completa gdf) as [rows|]; unfold zona_completa;
    destruct (geometria z) as [g|] eqn:Hg; cbn.
  - destruct IH as [IH1 IH2]. split.
    + constructor; [rewrite Hg; discriminate|exact IH1].
    + constructor; [reflexivity|exact IH2].
  - exists z. split; [left|exact Hg].
  - destruct IH as (z' & Hin & Hz'). exists z'. split; [right|]; assumption.
  - exists z. split; [left|exact Hg].
Qed.

(** X19.  [calcolo_percentili] ends before [to_excel], and so writes no
    table, in five cases and in no other: the raster or the zone layer
    cannot be had, the layer has no zone, some zone has no geometry, or the
    ['id'] of some zone is text. *)
Theorem calcolo_percentili_nessuna_tabella cfg (src : option raster)
    (layer : option (list (@zona_layer geom))) :
  calcolo_percentili_layer cfg src layer = None
  <-> src = None \/ layer = None \/ layer = Some []
      \/ (exists gdf z, layer = Some gdf /\ z ∈ gdf /\ geometria z = None)
      \/ (exists gdf z s,
            layer = Some gdf /\ z ∈ gdf
            /\ attributi_zona z !! "id" = Some (IdStr s)).
Proof.
  unfold calcolo_percentili_layer. rewrite calcolo_percentili_senza_tabella.
  destruct layer as [gdf|]; cbn [mbind option_bind]; [|tauto].
  pose proof (zone_complete_lettura gdf) as Hl.
  destruct (mapM zona_completa gdf) as [rows|].
  - destruct Hl as [Hgeo Hatt]. split.
    + intros [Hs|[Hn|[He|(gdf' & row & s & Hr & Hin & Hid)]]].
      * auto.
      * discriminate Hn.
      * injection He as ->. apply Forall2_nil_inv_r in Hatt. subst.
        right. right. left. reflexivity.
      * injection Hr as <-.
        apply list_elem_of_lookup_1 in Hin as (i & Hrow).
        destruct (Forall2_lookup_r _ _ _ _ _ Hatt Hrow) as (z & Hz & Ha).
        right. right. right. right. exists gdf, z, s.
        split; [reflexivity|]. split; [eapply list_elem_of_lookup_2, Hz|].
        rewrite <- Ha. exact Hid.
    + intros [Hs|[Hn|[He|[(gdf' & z & Hr & Hin & Hg)
                         |(gdf' & z & s & Hr & Hin & Hid)]]]].
      * auto.
      * discriminate Hn.
      * injection He as ->. apply Forall2_nil_inv_l in Hatt. subst.
        right. right. left. reflexivity.
      * injection Hr as <-. exfalso.
        rewrite Forall_forall in Hgeo. exact (Hgeo z Hin Hg).
      * injection Hr as <-.
        apply list_elem_of_lookup_1 in Hin as (i & Hz).
        destruct (Forall2_lookup_l _ _ _ _ _ Hatt Hz) as (row & Hrow & Ha).
        right. right. right. exists rows, row, s.
        split; [reflexivity|]. split; [eapply list_elem_of_lookup_2, Hrow|].
        rewrite Ha. exact Hid.
  - destruct Hl as (z & Hin & Hg). split.
    + intros _. right. right. right. left. exists gdf, z. auto.
    + intros _. right. left. reflexivity.
Qed.

Lemma dict_set_chiavi {V} (k : Z) (v : V) d :
  map fst (dict_set k v d) =
    if decide (k ∈ map fst d) then map fst d else map fst d ++ [k].
Proof.
  unfold dict_set.
  destruct (existsb (fun kv => k =? fst kv) d) eqn:He.
  - apply existsb_exists in He as (kv & Hin & Hk).
    apply Z.eqb_eq in Hk.
    destruct (decide _) as [_|Hno].
    + rewrite map_map. apply map_ext. intros kv'.
      destruct (Z.eqb_spec k (fst kv')); [cbn; congruence|reflexivity].
    + exfalso. apply Hno. rewrite Hk. apply list_elem_of_In.
      apply in_map, Hin.
  - destruct (decide _) as [Hsi|_]; [|rewrite map_app; reflexivity].
    exfalso. apply list_elem_of_In, in_map_iff in Hsi as (kv & Hk & Hin).
    assert (Ht : existsb (fun kv => k =? fst kv) d = true).
    { apply existsb_exists. exists kv. split; [exact Hin|].
      apply Z.eqb_eq. congruence. }
    congruence.
Qed.

Lemma dict_set_valori {V} (P : V -> Prop) (k : Z) (v : V) d :
  P v -> Forall (fun kv => P (snd kv)) d ->
  Forall (fun kv => P (snd kv)) (dict_set k v d).
Proof.
  intros Hv Hd. unfold dict_set.
  destruct (existsb _ d).
  - apply Forall_forall. intros kv Hin.
    apply list_elem_of_In, in_map_iff in Hin as (kv' & <- & Hin').
    destruct (k =? fst kv'); [exact Hv|].
    rewrite Forall_forall in Hd. apply Hd, list_elem_of_In, Hin'.
  - apply Forall_app. split; [exact Hd|]. constructor; [exact Hv|constructor].
Qed.

Lemma dict_da_coppie_chiavi {V} (P : V -> Prop) (l : list (Z * V)) :
  Forall (fun kv => P (snd kv)) l ->
  NoDup (map fst (dict_da_coppie l))
  /\ (forall k, k ∈ map fst (dict_da_coppie l) <-> k ∈ map fst l)
  /\ Forall (fun kv => P (snd kv)) (dict_da_coppie l).
Proof.
  intros Hl. unfold dict_da_coppie.
  assert (Hgen : forall d,
    NoDup (map fst d) -> Forall (fun kv => P (snd kv)) d ->
    NoDup (map fst (fold_left (fun d kv => dict_set (fst kv) (snd kv) d) l d))
    /\ (forall k,
          k ∈ map fst (fold_left (fun d kv => dict_set (fst kv) (snd kv) d) l d)
          <-> k ∈ map fst d \/ k ∈ map fst l)
    /\ Forall (fun kv => P (snd kv))
              (fold_left (fun d kv => dict_set (fst kv) (snd kv) d) l d)).
  { induction Hl as [|kv l Hkv _ IH]; intros d Hnd Hd.
    - cbn. split; [exact Hnd|]. split; [|exact Hd].
      intros k. split; [auto|]. intros [Hk|Hk]; [exact Hk|inversion Hk].
    - cbn [fold_left map].
      destruct (IH (dict_set (fst kv) (snd kv) d)) as (H1 & H2 & H3).
      + rewrite dict_set_chiavi. destruct (decide _) as [_|Hno]; [exact Hnd|].
        apply NoDup_app. split; [exact Hnd|]. split.
        * intros x Hx Hx'. apply list_elem_of_singleton in Hx'. congruence.
        * apply NoDup_singleton.
      + apply dict_set_valori; assumption.
      + split; [exact H1|]. split; [|exact H3].
        intros k. rewrite H2, dict_set_chiavi.
        destruct (decide (fst kv ∈ map fst d)) as [Hin|Hnin].
        * rewrite elem_of_cons. split; [tauto|].
          intros [Hk|[->|Hk]]; auto.
        * rewrite elem_of_app, list_elem_of_singleton, elem_of_cons. tauto. }
  destruct (Hgen [] (NoDup_nil_2) (Forall_nil_2 _)) as (H1 & H2 & H3).
  split; [exact H1|]. split; [|exact H3].
  intros k. rewrite H2. split; [|auto].
  intros [Hk|Hk]; [inversion Hk|exact Hk].
Qed.

(** X20.  A zone without a valid cell, and a zone on which [mask] raises, keep
    their row in the table: it has one column for each distinct level of
    [PERCENTILI], and every one of them is [nan]. *)
Theorem calcolo_percentili_zona_senza_celle cfg (src : raster)
    (gdf : list (@riga_zona geom)) out i row :
  calcolo_percentili cfg (Some src) (Some gdf) = Some out ->
  gdf !! i = Some row ->
  celle_valide src (geometry row) = None
  \/ celle_valide src (geometry row) = Some [] ->
  exists riga,
    out !! i = Some riga
    /\ NoDup (map fst (colonne riga))
    /\ (forall p, p ∈ map fst (colonne riga) <-> p ∈ PERCENTILI cfg)
    /\ Forall (fun kv => snd kv = None) (colonne riga).
Proof.
  intros Hout Hrow Hcelle. unfold calcolo_percentili in Hout.
  cbn [mbind option_bind] in Hout.
  set (f := fun r : @riga_percentili cell => _) in Hout.
  set (risultati := imap (risultato_zona (PERCENTILI cfg) src) gdf) in Hout.
  assert (Hr : risultati !! i
               = Some (risultato_zona (PERCENTILI cfg) src i row)).
  { unfold risultati. rewrite list_lookup_imap, Hrow. reflexivity. }
  assert (Hm : mapM f risultati = Some out).
  { destruct risultati; [discriminate|exact Hout]. }
  apply mapM_Some_1 in Hm.
  destruct (Forall2_lookup_l _ _ _ _ _ Hm Hr) as (riga & Hriga & Hf).
  exists riga. split; [exact Hriga|].
  assert (Hcol : colonne (risultato_zona (PERCENTILI cfg) src i row)
                 = dict_da_coppie (map (fun p => (p, None)) (PERCENTILI cfg))).
  { unfold risultato_zona. destruct Hcelle as [-> | ->]; cbn [colonne].
    - reflexivity.
    - f_equal. generalize (PERCENTILI cfg) as l. intros l.
      induction l as [|p l IH]; [reflexivity|]. cbn. f_equal. exact IH. }
  unfold f in Hf.
  destruct (piu_uno (IM (risultato_zona (PERCENTILI cfg) src i row)))
    as [id|]; [|discriminate].
  cbn in Hf. injection Hf as <-. cbn [colonne]. rewrite Hcol.
  destruct (dict_da_coppie_chiavi (fun v : option cell => v = None)
              (map (fun p => (p, None)) (PERCENTILI cfg)))
    as (H1 & H2 & H3).
  { apply Forall_forall. intros kv Hin.
    apply list_elem_of_In, in_map_iff in Hin as (p & <- & _). reflexivity. }
  rewrite map_map. cbn [fst].
  change (map (fun x : Z * option cell => fst x)
              (dict_da_coppie (map (fun p => (p, None)) (PERCENTILI cfg))))
    with (map fst (dict_da_coppie (map (fun p : Z => (p, @None cell))
                                       (PERCENTILI cfg)))).
  split; [exact H1|]. split.
  - intros p. rewrite H2, map_map. cbn [fst]. rewrite map_id. reflexivity.
  - apply Forall_forall. intros kv Hin.
    apply list_elem_of_In, in_map_iff in Hin as (kv' & <- & Hin').
    cbn [snd]. rewrite Forall_forall in H3.
    rewrite (H3 kv' (proj2 (list_elem_of_In _ _) Hin')). reflexivity.
Qed.

End PercentiliAltro.

(** ** Examples *)

Section AltriEsempi.
Import Gregoriano Esempi EsempiZone EsempiAltro EsempiCN.

(** No hour for a duration of zero; three hours that end with the anchor
    for a duration of three. *)
Lemma finestra_di_aggregazione_es :
  lista_date (data_ora 2024 1 1 6) 0 = []
  /\ last (lista_date (data_ora 2024 1 1 6) 3) = Some (data_ora 2024 1 1 6).
Proof.
  split.
  - apply (proj1 (finestra_di_aggregazione (data_ora 2024 1 1 6) 0)). lia.
  - exact (proj1 (proj2 (proj2
             (proj2 (finestra_di_aggregazione (data_ora 2024 1 1 6) 3)
                    ltac:(lia))))).
Defined.

(** With a control window of -1 hours the scan of an archive of empty
    files reports nothing. *)
Lemma controllo_senza_problemi_es :
  controlla_file_archivio_completo cfg_negativa (adesso mondo_vuoto)
    mondo_vuoto = (Ok ([], []), mondo_vuoto).
Proof.
  apply (proj2 (proj2 (controllo_senza_problemi cfg_negativa
                         (adesso mondo_vuoto) mondo_vuoto))).
  cbn. lia.
Defined.

(** Three hours are asked for: 04 is missing, 05 is summed, 06 is passed
    over without a word. *)
Lemma calcolo_cumulata_parziale_es :
  fst (@calcolo_cumulata Z _ _ valle_riuscita _ cfg_es 3 mondo_parziale)
    = Ok (true, ["MCM_20240101040000.tif (missing)"]).
Proof.
  pose proof (@calcolo_cumulata_parziale Z aritmetica_Z calendario
                valle_riuscita riscrittura_es cfg_es 3 (data_ora 2024 1 1 6) mondo_parziale
                2%nat 2%nat (data_ora 2024 1 1 5) [data_ora 2024 1 1 6]
                [[1; 2]; [3; 4]] [None]
                ltac:(vm_compute; reflexivity) ltac:(lia) ltac:(lia)
                ltac:(vm_compute; reflexivity)
                ltac:(vm_compute; reflexivity)
                ltac:(split; [reflexivity|repeat constructor])
                ltac:(constructor;
                      [split; [vm_compute; reflexivity
                              |intros g Hg; discriminate Hg]
                      |constructor])) as Hp.
  cbv zeta in Hp. destruct Hp as (Hfst & _ & _).
  rewrite Hfst. vm_compute. reflexivity.
Defined.

(** The band of hour 05 does not decode: the run fails although hour 06 is
    sound, and hour 05 now carries EPSG:4326. *)
Lemma calcolo_cumulata_primo_file_illeggibile_es :
  exists w',
    @calcolo_cumulata Z _ _ valle_riuscita _ cfg_es 2 mondo_primo_illeggibile
      = (Ok (false, []), w')
    /\ crs_di mondo_primo_illeggibile
         "/mcm/2024/01/01/MCM_20240101050000.tif" = Some (from_epsg 32632)
    /\ crs_di w' "/mcm/2024/01/01/MCM_20240101050000.tif"
       = Some (from_epsg 4326).
Proof.
  destruct (@calcolo_cumulata_primo_file_illeggibile Z aritmetica_Z
              calendario valle_riuscita riscrittura_es cfg_es 2
              (data_ora 2024 1 1 6)
              mondo_primo_illeggibile (data_ora 2024 1 1 5)
              [data_ora 2024 1 1 6]
              ltac:(vm_compute; reflexivity) ltac:(vm_compute; reflexivity)
              ltac:(vm_compute; reflexivity))
    as (w' & Hc & Hcrs & _).
  exists w'. split; [exact Hc|]. split; [vm_compute; reflexivity|exact Hcrs].
Defined.

Lemma calcolo_cumulata_senza_cartella_di_oggi_es :
  @calcolo_cumulata Z _ _ valle_riuscita _ cfg_es 24 mondo_senza_cartella
    = (Ok (false, []), mondo_senza_cartella).
Proof.
  apply (@calcolo_cumulata_senza_cartella_di_oggi Z aritmetica_Z calendario
           valle_riuscita riscrittura_es cfg_es 24 mondo_senza_cartella).
  left. vm_compute. reflexivity.
Defined.

(** One duration: its entry is the successful run with no problem. *)
Lemma main_elaborazione_contenuta_es :
  exists ris' w',
    @main_elaborazione Z _ _ valle_riuscita _ cfg_es [2] ∅ mondo_es
      = (Ok ris', w')
    /\ ris' !! 2 = Some {| successo := true; problemi := 0;
                           file_problematici := [] |}.
Proof.
  destruct (@main_elaborazione_contenuta Z aritmetica_Z calendario
              valle_riuscita riscrittura_es cfg_es [2] ∅ mondo_es)
    as (ris' & w' & Hm & Hin & _).
  exists ris', w'. split; [exact Hm|].
  rewrite (Hin 2 ltac:(constructor)). vm_compute. reflexivity.
Defined.

(** [Thumbs.db] is the last name of today's directory. *)
Lemma calcolo_cumulata_nome_non_analizzabile_es :
  @calcolo_cumulata Z _ _ valle_riuscita _ cfg_es 2 mondo_estraneo
    = (Eccezione, mondo_estraneo).
Proof.
  apply (proj1 (@calcolo_cumulata_nome_non_analizzabile Z aritmetica_Z
                  calendario valle_riuscita riscrittura_es cfg_es
                  mondo_estraneo
                  ["MCM_20240101050000.tif"; "MCM_20240101060000.tif";
                   "Thumbs.db"] "Thumbs.db"
                  ltac:(vm_compute; reflexivity) ltac:(reflexivity)
                  ltac:(vm_compute; reflexivity))).
Defined.

(** Hours 03 and 04 of the control window are missing: the mail is to be
    sent. *)
Lemma main_file_mail_es :
  exists ris testo w',
    @main Z _ _ valle_riuscita _ cfg_es [2] (fun _ => true) mondo_es
      = (Ok (ris, testo), w')
    /\ py_slice 0 4 testo = "YES" +:+ a_capo.
Proof.
  destruct (@main_file_mail Z aritmetica_Z calendario valle_riuscita
              riscrittura_es cfg_es [2] (fun _ => true) mondo_es)
    as (ris & testo & w' & Hm & _ & Hyes & _).
  exists ris, testo, w'. split; [exact Hm|].
  apply Hyes. intros Hall.
  assert (Hore : ore_da_controllare cfg_es (adesso mondo_es)
                 = [data_ora 2024 1 1 3 + 1800000000;
                    data_ora 2024 1 1 4 + 1800000000;
                    data_ora 2024 1 1 5 + 1800000000;
                    data_ora 2024 1 1 6 + 1800000000])
    by (vm_compute; reflexivity).
  rewrite Hore in Hall. apply Forall_inv in Hall.
  vm_compute in Hall. discriminate Hall.
Defined.

Local Open Scope R_scope.


Local Close Scope R_scope.

(** [" im 5 "] is zone 5, and the label of zone 5 is its own label. *)
Lemma normalizza_zona_canonica_es :
  exists n, 0 <= n <= 99
    /\ "IM-05" = "IM-" +:+ cifre 2 n
    /\ normalizza_zona (PyStr "IM-05") = Some "IM-05".
Proof.
  destruct (@normalizza_zona_canonica python_es (PyStr " im 5 ") "IM-05"
              ltac:(vm_compute; reflexivity))
    as (n & Hn & Hs & Hfix).
  exists n. split; [exact Hn|]. split; [exact Hs|].
  apply Hfix. vm_compute. reflexivity.
Defined.

Lemma chiave_zona_canonica_es :
  exists n, 0 <= n <= 99
    /\ "IM-02" = "IM-" +:+ cifre 2 n
    /\ normalizza_zona (PyStr "IM-02") = Some "IM-02".
Proof.
  destruct (@chiave_zona_canonica python_es "/cn/CN_2.ASC" "IM-02"
              ltac:(vm_compute; reflexivity))
    as (n & Hn & Hs & Hfix).
  exists n. split; [exact Hn|]. split; [exact Hs|].
  apply Hfix. vm_compute. reflexivity.
Defined.

Lemma normalizza_zona_numeri_es :
  normalizza_zona (PyInt 7) = Some "IM-07"
  /\ normalizza_zona (PyFloat (14 # 2)) = Some "IM-07".
Proof.
  destruct (@normalizza_zona_numeri python_es 7 ltac:(lia)) as [Hint Hfloat].
  split; [exact Hint|]. apply Hfloat. reflexivity.
Defined.

(** Two rasters carry the number of zone 1: the second one is kept.  The
    file without a number is not opened. *)
Lemma calcola_cn_per_zone_ricalcolo_es :
  exists zone_cn w',
    calcola_cn_per_zone mondo_cn_doppio = (Ok zone_cn, w')
    /\ zone_cn !! "IM-01" = Some (Some 70%R)
    /\ aperture w' = ["/cn/A_1.ASC"; "/cn/B_01.ASC"].
Proof.
  destruct (calcola_cn_per_zone_ricalcolo mondo_cn_doppio eq_refl)
    as (zone_cn & mtimes & w' & Hc & _ & Hap & _ & _ & Hzc & _).
  { unfold mondo_cn_doppio. cbn [asc mtime].
    repeat apply Forall_cons_2; [| | |apply Forall_nil_2].
    - right. eexists _, _. split; [reflexivity|]. vm_compute. reflexivity.
    - right. eexists _, _. split; [reflexivity|]. vm_compute. reflexivity.
    - left. vm_compute. reflexivity. }
  exists zone_cn, w'. split; [exact Hc|]. split.
  - rewrite Hzc. unfold della_zona, mondo_cn_doppio. cbn [asc].
    rewrite !filter_cons, filter_nil.
    repeat (destruct (decide _) as [Hd|Hd];
            [try (vm_compute in Hd; discriminate Hd)
            |try (exfalso; apply Hd; vm_compute; reflexivity)]).
    reflexivity.
  - rewrite Hap. unfold numerati, mondo_cn_doppio. cbn [asc aperture app].
    rewrite !filter_cons, filter_nil.
    repeat (destruct (decide _) as [Hd|Hd];
            [try (vm_compute in Hd; destruct Hd as [? Hd]; discriminate Hd)
            |try (exfalso; apply Hd; vm_compute; eauto)]).
    reflexivity.
Defined.

Lemma calcola_cn_per_zone_raster_illeggibile_es :
  exists w', calcola_cn_per_zone mondo_cn_guasto = (Eccezione, w')
             /\ cache w' = Some CacheIlleggibile.
Proof.
  destruct (calcola_cn_per_zone_raster_illeggibile mondo_cn_guasto
              {| percorso := "/cn/CN_2.ASC"; media := Eccezione |}
              eq_refl
              ltac:(right; left)
              ltac:(exists "IM-02"; vm_compute; reflexivity)
              eq_refl)
    as (w' & Hc & Hcache & _).
  exists w'. split; [exact Hc|exact Hcache].
Defined.

(** After a first run on an empty directory, the rasters of the example
    are not looked at. *)
Lemma calcola_cn_per_zone_cache_vuota_es :
  exists w1,
    calcola_cn_per_zone mondo_cn_vuoto = (Ok ∅, w1)
    /\ calcola_cn_per_zone
         {| cache := cache w1; mtime := mtime mondo_cn_es;
            asc := asc mondo_cn_es; aperture := [] |}
       = (Ok ∅, {| cache := cache w1; mtime := mtime mondo_cn_es;
                   asc := asc mondo_cn_es; aperture := [] |}).
Proof.
  destruct (calcola_cn_per_zone_cache_vuota mondo_cn_vuoto eq_refl
              (Forall_nil_2 _))
    as (w1 & Hc & _ & Hpoi).
  exists w1. split; [exact Hc|]. apply Hpoi. reflexivity.
Defined.

(** The second zone of the layer has no geometry: no table. *)
Lemma calcolo_percentili_nessuna_tabella_es :
  @calcolo_percentili_layer Z (list Z) unit zonale_es cfg_es (Some tt)
    (Some zone_senza_geometria) = None.
Proof.
  apply (proj2 (@calcolo_percentili_nessuna_tabella Z (list Z) unit zonale_es
                  cfg_es (Some tt) (Some zone_senza_geometria))).
  right. right. right. left.
  exists zone_senza_geometria,
    {| geometria := None; attributi_zona := {["id" := IdInt 20]} |}.
  split; [reflexivity|]. split; [right; left|reflexivity].
Defined.

(** The second zone of the example touches no cell. *)
Lemma calcolo_percentili_zona_senza_celle_es :
  exists out riga,
    calcolo_percentili cfg_es (Some tt) (Some zone_con_id) = Some out
    /\ out !! 1%nat = Some riga
    /\ colonne riga = [(50, None); (90, None)].
Proof.
  assert (Hout : exists out,
            calcolo_percentili cfg_es (Some tt) (Some zone_con_id) = Some out
            /\ forall riga, out !! 1%nat = Some riga ->
                 map fst (colonne riga) = [50; 90]).
  { eexists. split; [vm_compute; reflexivity|].
    intros riga [= <-]. reflexivity. }
  destruct Hout as (out & Hout & Hchiavi).
  destruct (@calcolo_percentili_zona_senza_celle Z (list Z) unit zonale_es
              cfg_es tt zone_con_id out 1%nat
              {| geometry := []; attributi := {["id" := IdInt 20]} |}
              Hout eq_refl (or_intror eq_refl))
    as (riga & Hriga & _ & _ & Hnan).
  exists out, riga. split; [exact Hout|]. split; [exact Hriga|].
  specialize (Hchiavi riga Hriga).
  destruct (colonne riga) as [|[k1 v1] [|[k2 v2] [|? ?]]];
    try discriminate Hchiavi.
  injection Hchiavi as -> ->.
  inversion Hnan as [|? ? H1 Hnan']; subst.
  inversion Hnan' as [|? ? H2 _]; subst.
  cbn in H1, H2. subst. reflexivity.
Defined.

(** The file of hour 06 passes the probe although its band does not
    decode. *)
Lemma verifica_file_tiff_contenuta_es :
  @verifica_file_tiff Z "/mcm/2024/01/01/MCM_20240101060000.tif"
    mondo_parziale = (Ok true, mondo_parziale)
  /\ banda_di mondo_parziale "/mcm/2024/01/01/MCM_20240101060000.tif" = None.
Proof.
  split; [|vm_compute; reflexivity].
  destruct (@verifica_file_tiff_contenuta Z mondo_parziale
              "/mcm/2024/01/01/MCM_20240101060000.tif")
    as (valido & Hv & Hiff).
  rewrite Hv. do 2 f_equal. apply Hiff.
  eexists _, _, _. split; [vm_compute; reflexivity|reflexivity].
Defined.

(** Twenty-one files are missing: the name of the last one does not reach
    the mail. *)
Lemma genera_contenuto_mail_primi_venti_es :
  genera_contenuto_mail cfg_es [2] (adesso mondo_es)
    (replicate 20 "MCM_20240101050000.tif" ++ ["MCM_20240101060000.tif"])
    [] []
  = genera_contenuto_mail cfg_es [2] (adesso mondo_es)
      (replicate 20 "MCM_20240101050000.tif" ++ ["MCM_20240101070000.tif"])
      [] [].
Proof.
  apply (@genera_contenuto_mail_primi_venti calendario cfg_es [2]
           (adesso mondo_es)); reflexivity.
Defined.

End AltriEsempi.
